(** * StreamLit-AI-Agent: the tool layer (tools.py), the intent router
      (agent.py) and the endpoint (server.py), embedded in Rocq.

    The development follows the source files:
    - text, the way Python's [str] behaves ([strip], [lower], [split],
      [count]) and the regular expressions of [agent.py], matched by a
      backtracking matcher with the semantics of Python's [re];
    - [tools.py]: [ToolEvent], [ToolResult], [FactsStore], the calculator
      ([_ALLOWED], [_eval], [calculator]) over Python's expression trees and
      binary64 floats, and [clock];
    - [agent.py]: the history helpers, [_local_brief_explanation] and
      [ReasoningAgent.chat];
    - [server.py]: the [/chat] endpoint over the one agent of the process.

    What the interpreter and the platform decide, and the repository does
    not, is a parameter of the development: the Unicode tables beyond ASCII
    (class [UnicodeData]), the C library's [pow], complex arithmetic and the
    reading of the clock (class [Runtime]).  Resource limits (recursion
    depth, memory) are not modelled. *)

From Stdlib Require Import ZArith NArith List String Ascii Lia Bool.
From Stdlib Require Import Floats.SpecFloat.
From stdpp Require Import base option gmap list.
Import ListNotations.

Set Warnings "-register-all".
Local Open Scope N_scope.

(** ** Text *)

(** A Python [str] is a sequence of Unicode code points. *)
Abbreviation str := (list N).

Module Utf8.
(** String literals of this file are UTF-8; [decode] turns their bytes into
    code points (well-formed input only: the literals of the source). *)
Definition cont (b : N) : N := N.land b 63.

Fixpoint decode (fuel : nat) (bs : list N) : str :=
  match fuel with
  | O => []
  | S fuel =>
    match bs with
    | [] => []
    | b0 :: r0 =>
      if b0 <? 128 then b0 :: decode fuel r0
      else if b0 <? 224 then
        match r0 with
        | b1 :: r1 => (N.land b0 31 * 64 + cont b1) :: decode fuel r1
        | _ => []
        end
      else if b0 <? 240 then
        match r0 with
        | b1 :: b2 :: r2 =>
          (N.land b0 15 * 4096 + cont b1 * 64 + cont b2) :: decode fuel r2
        | _ => []
        end
      else
        match r0 with
        | b1 :: b2 :: b3 :: r3 =>
          (N.land b0 7 * 262144 + cont b1 * 4096 + cont b2 * 64 + cont b3)
            :: decode fuel r3
        | _ => []
        end
    end
  end.
End Utf8.

(** [py "..."] is the Python string written between the quotes. *)
Definition py (s : string) : str :=
  let bs := map N_of_ascii (list_ascii_of_string s) in
  Utf8.decode (List.length bs) bs.

(** The Unicode character database beyond ASCII is the interpreter's, not
    the repository's (and changes with the interpreter's version): it is a
    parameter. ASCII is written out below. *)
Class UnicodeData := {
  (** [str.isalnum] on a code point beyond ASCII *)
  uc_isalnum : N -> bool;
  (** [str.isdecimal] on a code point beyond ASCII *)
  uc_isdecimal : N -> bool;
  (** the simple lower-case mapping of a code point beyond ASCII, as the
      [re] module uses it under [re.I] *)
  uc_tolower : N -> N;
  (** [str.lower] at a code point beyond ASCII, given the text before and
      after it (the mapping of capital sigma depends on both) *)
  uc_lower : str -> N -> str -> str
}.

Section Text.
Context {U : UnicodeData}.

(** [str.isspace] on one code point; also [\s] of [re]. The list is all of
    Unicode's white space. *)
Definition isspace (c : N) : bool :=
  ((9 <=? c) && (c <=? 13)) || ((28 <=? c) && (c <=? 32))
  || (c =? 133) || (c =? 160) || (c =? 5760)
  || ((8192 <=? c) && (c <=? 8202))
  || (c =? 8232) || (c =? 8233) || (c =? 8239) || (c =? 8287) || (c =? 12288).

Definition is_ascii_upper (c : N) : bool := (65 <=? c) && (c <=? 90).
Definition is_ascii_lower (c : N) : bool := (97 <=? c) && (c <=? 122).
Definition is_ascii_digit (c : N) : bool := (48 <=? c) && (c <=? 57).

Definition ascii_lower (c : N) : N := if is_ascii_upper c then c + 32 else c.

(** [\d] of [re]: [str.isdecimal]. *)
Definition isdecimal (c : N) : bool :=
  if c <? 128 then is_ascii_digit c else uc_isdecimal c.

(** [\w] of [re]: alphanumeric or the underscore. *)
Definition isword (c : N) : bool :=
  if c <? 128 then
    is_ascii_upper c || is_ascii_lower c || is_ascii_digit c || (c =? 95)
  else uc_isalnum c.

(** The lower-casing of [re.I]. *)
Definition sre_tolower (c : N) : N :=
  if c <? 128 then ascii_lower c else uc_tolower c.

(** [s.lstrip()], [s.rstrip()], [s.strip()] *)
Fixpoint lstrip (s : str) : str :=
  match s with
  | c :: t => if isspace c then lstrip t else s
  | [] => []
  end.

Definition rstrip (s : str) : str := rev (lstrip (rev s)).

Definition strip (s : str) : str := rstrip (lstrip s).

(** [s.lower()] *)
Fixpoint lower_from (before : str) (s : str) : str :=
  match s with
  | [] => []
  | c :: t =>
    (if c <? 128 then [ascii_lower c] else uc_lower (rev before) c t)
      ++ lower_from (c :: before) t
  end.

Definition lower (s : str) : str := lower_from [] s.

(** [s.count(".")] for a one-character needle *)
Definition count (c : N) (s : str) : nat :=
  List.length (List.filter (N.eqb c) s).

(** [s.split(".")[0]]: the text before the first separator, all of [s]
    when there is none *)
Fixpoint split_first (c : N) (s : str) : str :=
  match s with
  | [] => []
  | x :: t => if x =? c then [] else x :: split_first c t
  end.

(** An object's truth value: a string is true when it is not empty. *)
Definition truthy (s : str) : bool :=
  match s with [] => false | _ => true end.

(** A text made of blanks only. *)
Definition blank (s : str) : Prop := Forall (fun c => isspace c = true) s.

(** A text that neither starts nor ends with a blank. *)
Definition trimmed (t : str) : Prop :=
  match t with [] => True | x :: _ => isspace x = false end
  /\ match rev t with [] => True | y :: _ => isspace y = false end.
End Text.

(** ** Regular expressions

    The patterns of [agent.py] use anchors, [\b], literal text, character
    classes, [*], [+] and the lazy [+?] on a single character class, [?] on
    a group, alternation and capturing groups. [Re.run] is a backtracking
    matcher for this fragment with the priorities of Python's [re]: the
    left alternative first, greedy repetition longest first, lazy repetition
    shortest first. *)
Module Re.
Inductive item :=
| IAny                (* .  : anything but a line feed *)
| ISpace              (* \s *)
| IDigit              (* \d *)
| ILit (c : N).       (* the character itself *)

(** A character class: the union of its items. *)
Definition cls := list item.

Inductive regex :=
| Bol                              (* ^ *)
| Eol                              (* $ *)
| WordB                            (* \b *)
| Chars (s : str)                  (* literal text *)
| In (c : cls)                     (* [...] *)
| Star (c : cls)                   (* [...]* *)
| Plus (c : cls)                   (* [...]+ *)
| PlusLazy (c : cls)               (* [...]+? *)
| Opt (r : regex)                  (* (...)? *)
| Seq (r1 r2 : regex)
| Alt (r1 r2 : regex)              (* r1|r2 *)
| Group (n : nat) (r : regex).     (* the n-th capturing group *)

(** A position in the subject: the text before it (latest character
    first), the text after it, and the groups closed so far (latest
    first). *)
Record mstate := MState {
  before : str;
  after : str;
  groups : list (nat * str)
}.

Section Matcher.
Context {U : UnicodeData}.
Variable ic : bool.   (* re.I *)

Definition is_ascii_letter (c : N) : bool :=
  is_ascii_upper c || is_ascii_lower c.

(** A literal under [re.I]: a letter of the pattern matches the
    characters whose lower case is the letter's, and [i] and [s] also
    match the dotless i (U+0131) and the long s (U+017F). *)
Definition lit_match (p c : N) : bool :=
  if ic && is_ascii_letter p then
    let lo := ascii_lower p in
    (sre_tolower c =? lo)
    || ((lo =? 105) && (c =? 305)) || ((lo =? 115) && (c =? 383))
  else c =? p.

Definition item_match (i : item) (c : N) : bool :=
  match i with
  | IAny => negb (c =? 10)
  | ISpace => isspace c
  | IDigit => isdecimal c
  | ILit p => lit_match p c
  end.

Definition cls_match (cl : cls) (c : N) : bool :=
  existsb (fun i => item_match i c) cl.

(** Literal text at the head of [aft]; the rest of [aft] when it is
    there. *)
Fixpoint eat (s : str) (bef aft : str) : option (str * str) :=
  match s with
  | [] => Some (bef, aft)
  | p :: s' =>
    match aft with
    | c :: aft' => if lit_match p c then eat s' (c :: bef) aft' else None
    | [] => None
    end
  end.

Definition orelse {A} (x : option A) (y : option A) : option A :=
  match x with Some _ => x | None => y end.

(** [c*]: as many characters as possible, giving back one at a time. *)
Fixpoint greedy {A} (cl : cls) (k : str -> str -> option A)
         (bef aft : str) : option A :=
  match aft with
  | c :: aft' =>
    if cls_match cl c
    then orelse (greedy cl k (c :: bef) aft') (k bef aft)
    else k bef aft
  | [] => k bef aft
  end.

(** [c*?]: as few characters as possible, taking one more at a time. *)
Fixpoint lazy {A} (cl : cls) (k : str -> str -> option A)
         (bef aft : str) : option A :=
  match k bef aft with
  | Some m => Some m
  | None =>
    match aft with
    | c :: aft' => if cls_match cl c then lazy cl k (c :: bef) aft' else None
    | [] => None
    end
  end.

Definition one {A} (cl : cls) (k : str -> str -> option A)
           (bef aft : str) : option A :=
  match aft with
  | c :: aft' => if cls_match cl c then k (c :: bef) aft' else None
  | [] => None
  end.

Definition at_word_boundary (bef aft : str) : bool :=
  xorb (match bef with c :: _ => isword c | [] => false end)
       (match aft with c :: _ => isword c | [] => false end).

(** [$] without [re.M]: at the end, or before a line feed that ends the
    subject. *)
Definition at_end (aft : str) : bool :=
  match aft with
  | [] => true
  | [c] => c =? 10
  | _ => false
  end.

(** The text matched between two positions of one subject. *)
Definition matched (st st' : mstate) : str :=
  rev (take (List.length (before st') - List.length (before st))
            (before st')).

Fixpoint run (r : regex) (k : mstate -> option mstate) (st : mstate)
  : option mstate :=
  let g := groups st in
  match r with
  | Bol => match before st with [] => k st | _ => None end
  | Eol => if at_end (after st) then k st else None
  | WordB => if at_word_boundary (before st) (after st) then k st else None
  | Chars s =>
    match eat s (before st) (after st) with
    | Some (b, a) => k (MState b a g)
    | None => None
    end
  | In cl => one cl (fun b a => k (MState b a g)) (before st) (after st)
  | Star cl => greedy cl (fun b a => k (MState b a g)) (before st) (after st)
  | Plus cl =>
    one cl (greedy cl (fun b a => k (MState b a g))) (before st) (after st)
  | PlusLazy cl =>
    one cl (lazy cl (fun b a => k (MState b a g))) (before st) (after st)
  | Opt r1 => orelse (run r1 k st) (k st)
  | Seq r1 r2 => run r1 (run r2 k) st
  | Alt r1 r2 => orelse (run r1 k st) (run r2 k st)
  | Group n r1 =>
    run r1 (fun st' =>
              k (MState (before st') (after st')
                        ((n, matched st st') :: groups st'))) st
  end.

(** [re.match(r, s)]: a match that starts at the start of [s]. *)
Definition rmatch (r : regex) (s : str) : option mstate :=
  run r Some (MState [] s []).

(** [re.search(r, s)]: the leftmost match. *)
Fixpoint search_from (r : regex) (bef aft : str) : option mstate :=
  match run r Some (MState bef aft []) with
  | Some m => Some m
  | None =>
    match aft with
    | c :: aft' => search_from r (c :: bef) aft'
    | [] => None
    end
  end.

Definition search (r : regex) (s : str) : option mstate :=
  search_from r [] s.
End Matcher.

(** [m.group(n)] for a group that took part in the match (every use in
    [agent.py] is of such a group). *)
Fixpoint group_in (g : list (nat * str)) (n : nat) : str :=
  match g with
  | [] => []
  | (i, s) :: g' => if Nat.eqb i n then s else group_in g' n
  end.

Definition group (m : mstate) (n : nat) : str := group_in (groups m) n.

Definition is_match (m : option mstate) : bool :=
  match m with Some _ => true | None => false end.
End Re.

Declare Scope re_scope.
Delimit Scope re_scope with re.
Bind Scope re_scope with Re.regex.
Infix "--" := Re.Seq (at level 60, right associativity) : re_scope.
Infix "|:" := Re.Alt (at level 65, right associativity) : re_scope.

(** The classes and words the patterns are made of. *)
Definition ws : Re.cls := [Re.ISpace].
Definition dot : Re.cls := [Re.IAny].
Definition word (s : string) : Re.regex := Re.Chars (py s).

(** The patterns of [agent.py], in the order of the source. *)
Module Pattern.
Local Open Scope re_scope.
Import Re.

(** [^\s*(hi|hello|hey|hola|namaste|good\s*(morning|afternoon|evening)?)\b] *)
Definition greeting : regex :=
  Bol -- Star ws --
  Group 1 (word "hi" |: word "hello" |: word "hey" |: word "hola"
           |: word "namaste"
           |: (word "good" -- Star ws --
               Opt (Group 2 (word "morning" |: word "afternoon"
                             |: word "evening")))) --
  WordB.

(** [\b(explain (this|that)|in brief|briefly|why|how so)\b] *)
Definition followup : regex :=
  WordB --
  Group 1 ((word "explain " -- Group 2 (word "this" |: word "that"))
           |: word "in brief" |: word "briefly" |: word "why"
           |: word "how so") --
  WordB.

(** [^\s*(remember|save)\s+(.+?)\s*=\s*(.+?)\s*$] *)
Definition remember : regex :=
  Bol -- Star ws -- Group 1 (word "remember" |: word "save") -- Plus ws --
  Group 2 (PlusLazy dot) -- Star ws -- word "=" -- Star ws --
  Group 3 (PlusLazy dot) -- Star ws -- Eol.

(** [^\s*(recall|what did i save for)\s+(.+?)\s*$] *)
Definition recall : regex :=
  Bol -- Star ws -- Group 1 (word "recall" |: word "what did i save for") --
  Plus ws -- Group 2 (PlusLazy dot) -- Star ws -- Eol.

(** [\b(time|date|now)\b] *)
Definition time : regex :=
  WordB -- Group 1 (word "time" |: word "date" |: word "now") -- WordB.

(** [^\s*calculate\s+(.+)$] *)
Definition calculate : regex :=
  Bol -- Star ws -- word "calculate" -- Plus ws -- Group 1 (Plus dot) -- Eol.

(** [^[\d\.\s\+\-\*\/\(\)\%]+$] *)
Definition bare : regex :=
  Bol --
  Plus [IDigit; ILit 46; ISpace; ILit 43; ILit 45; ILit 42; ILit 47;
        ILit 40; ILit 41; ILit 37] --
  Eol.
End Pattern.

(** ** tools.py: trace objects *)

Module ToolEvent.
Record t := mk { name : str; input : str; ok : bool; output : str }.
End ToolEvent.

Module ToolResult.
Record t := mk { ok : bool; content : str; event : ToolEvent.t }.
End ToolResult.

(** ** tools.py: the facts store

    [_facts] is a dictionary from strings to strings; the methods thread the
    store, since [remember] updates it in place. *)
Module FactsStore.
Record t := mk { _facts : gmap str str }.

Definition __init__ : t := mk ∅.

Section Methods.
Context {U : UnicodeData}.

Definition remember (self : t) (key value : str) : ToolResult.t * t :=
  let k := lower (strip key) in
  let v := strip value in
  let self' := mk (<[k := v]> (_facts self)) in
  let evt := ToolEvent.mk (py "facts.remember") (k ++ py "=" ++ v) true
                          (py "Saved.") in
  (ToolResult.mk true (py "Noted.") evt, self').

Definition recall (self : t) (key : str) : ToolResult.t * t :=
  let k := lower (strip key) in
  match _facts self !! k with
  | None =>
    let evt := ToolEvent.mk (py "facts.recall") k false (py "Not found.") in
    (ToolResult.mk false (py "I don't have that saved yet.") evt, self)
  | Some v =>
    let evt := ToolEvent.mk (py "facts.recall") k true v in
    (ToolResult.mk true v evt, self)
  end.
End Methods.
End FactsStore.

(** ** Python's numbers

    A Python [float] is an IEEE 754 binary64 number. [spec_float] with
    precision 53 and maximal exponent 1024 is the Standard Library's
    specification of it; its operations round to nearest, ties to even. *)
Module Float.
Local Open Scope Z_scope.

Definition prec : Z := 53.
Definition emax : Z := 1024.

Abbreviation float := spec_float.

Definition add : float -> float -> float := SFadd prec emax.
Definition sub : float -> float -> float := SFsub prec emax.
Definition mul : float -> float -> float := SFmul prec emax.
Definition div : float -> float -> float := SFdiv prec emax.
Definition neg : float -> float := SFopp.
Definition abs : float -> float := SFabs.

Definition eqb : float -> float -> bool := SFeqb.
Definition ltb : float -> float -> bool := SFltb.

(** The nearest float to an integer, and to a ratio of two positive
    integers. *)
Definition of_Z (n : Z) : float := binary_normalize prec emax n 0 false.

Definition of_ratio (n d : positive) : float :=
  let '(q, e, l) := SFdiv_core_binary prec emax (Zpos n) 0 (Zpos d) 0 in
  binary_round_aux prec emax false q e l.

Definition zero : float := S754_zero false.
Definition one : float := of_Z 1.
Definition half : float := of_ratio 1 2.

(** [x == 0.0] *)
Definition is_zero (x : float) : bool :=
  match x with S754_zero _ => true | _ => false end.

Definition is_nan (x : float) : bool :=
  match x with S754_nan => true | _ => false end.

Definition is_inf (x : float) : bool :=
  match x with S754_infinity _ => true | _ => false end.

Definition is_finite (x : float) : bool :=
  match x with S754_zero _ | S754_finite _ _ _ => true | _ => false end.

(** The sign bit; C's [signbit]. *)
Definition signbit (x : float) : bool :=
  match x with
  | S754_zero s | S754_infinity s | S754_finite s _ _ => s
  | S754_nan => false
  end.

(** C's [copysign(0.0, y)]. *)
Definition zero_like (y : float) : float := S754_zero (signbit y).

(** A finite float as a signed integer mantissa at an exponent. *)
Definition mantissa (x : float) : Z :=
  match x with
  | S754_finite s m _ => if s then Zneg m else Zpos m
  | _ => 0
  end.

Definition exponent (x : float) : Z :=
  match x with S754_finite _ _ e => e | _ => 0 end.

(** C's [fmod]: the remainder of [x / y] truncated towards zero, with the
    sign of [x]; it is exact. *)
Definition fmod (x y : float) : float :=
  match x, y with
  | S754_nan, _ | _, S754_nan => S754_nan
  | S754_infinity _, _ => S754_nan
  | _, S754_zero _ => S754_nan
  | _, S754_infinity _ => x
  | S754_zero _, _ => x
  | S754_finite sx mx ex, S754_finite _ my ey =>
    let e := Z.min ex ey in
    let r := Z.rem (Z.shiftl (Zpos mx) (ex - e)) (Z.shiftl (Zpos my) (ey - e)) in
    binary_normalize prec emax (if sx then - r else r) e sx
  end.

(** C's [floor]. *)
Definition floor (x : float) : float :=
  match x with
  | S754_finite s m e =>
    if 0 <=? e then x
    else
      let q := Z.shiftr (Zpos m) (- e) in
      let exact := Z.shiftl q (- e) =? Zpos m in
      if s then binary_normalize prec emax (- (if exact then q else q + 1)) 0 true
      else binary_normalize prec emax q 0 false
  | _ => x
  end.

(** [DOUBLE_IS_ODD_INTEGER] of floatobject.c: [fmod(fabs(x), 2.0) == 1.0] *)
Definition is_odd_integer (x : float) : bool :=
  eqb (fmod (abs x) (of_Z 2)) one.
End Float.

(** ** Exceptions

    A computation returns a value or raises an exception; [message] is what
    [str(e)] gives. *)
Inductive exn_kind :=
| ValueError | TypeError | ZeroDivisionError | OverflowError
| SyntaxError | IndentationError.

Record exn := Exn { kind : exn_kind; message : str }.

Inductive result (A : Type) :=
| Return (a : A)
| Raise (e : exn).

Arguments Return {A} a.
Arguments Raise {A} e.

Definition raise {A} (k : exn_kind) (msg : string) : result A :=
  Raise (Exn k (py msg)).

Definition bind {A B} (m : result A) (f : A -> result B) : result B :=
  match m with
  | Return a => f a
  | Raise e => Raise e
  end.

Notation "x <- m ;; k" := (bind m (fun x => k))
  (at level 100, m at next level, right associativity).

(** A number the calculator can compute: a [float], or a [complex] (a
    negative float raised to a fractional power is complex). *)
Inductive value :=
| VFloat (x : spec_float)
| VComplex (re im : spec_float).

(** The functions of module [operator] that [_ALLOWED] holds. *)
Inductive pyfun :=
| operator_add | operator_sub | operator_mul | operator_truediv
| operator_pow | operator_neg | operator_mod | operator_floordiv.

(** What the platform decides. *)
Class Runtime := {
  (** C's [pow] on two finite, non-zero doubles ([x] positive), and whether
      it set [errno] to [ERANGE] *)
  libm_pow : spec_float -> spec_float -> spec_float * bool;
  (** Python's complex arithmetic ([+], [-], [*], [**], and [/] by a
      divisor that is not zero) when an operand is complex, or when a
      negative float is raised to a fractional power *)
  complex_op : pyfun -> value -> value -> result value;
  (** [datetime.now().strftime("%Y-%m-%d %H:%M:%S")] *)
  clock_now : str
}.

(** The arithmetic of floatobject.c and complexobject.c. *)
Module Number.
Import Float.

Section Ops.
Context {R : Runtime}.

Definition float_div (v w : float) : result value :=
  if is_zero w then raise ZeroDivisionError "float division by zero"
  else Return (VFloat (div v w)).

Definition float_rem (vx wx : float) : result value :=
  if is_zero wx then raise ZeroDivisionError "float modulo"
  else
    let mod_ := fmod vx wx in
    Return (VFloat
      (if negb (is_zero mod_) then
         (* the remainder takes the sign of the denominator *)
         if xorb (ltb wx zero) (ltb mod_ zero) then add mod_ wx else mod_
       else zero_like wx)).

Definition float_floor_div (vx wx : float) : result value :=
  if is_zero wx then raise ZeroDivisionError "float floor division by zero"
  else
    let mod_ := fmod vx wx in
    let div0 := div (sub vx mod_) wx in
    let div_ :=
      if negb (is_zero mod_) && xorb (ltb wx zero) (ltb mod_ zero)
      then sub div0 one else div0 in
    Return (VFloat
      (if negb (is_zero div_) then
         (* snap the quotient to the nearest integral value *)
         let floordiv := floor div_ in
         if ltb half (sub div_ floordiv) then add floordiv one else floordiv
       else zero_like (div vx wx))).

Definition float_pow (iv iw : float) : result value :=
  if is_zero iw then Return (VFloat one)               (* v**0 is 1, even 0**0 *)
  else if is_nan iv then Return (VFloat iv)            (* nan**w = nan *)
  else if is_nan iw then                               (* v**nan = nan, unless v == 1 *)
    Return (VFloat (if eqb iv one then one else iw))
  else if is_inf iw then
    let av := abs iv in
    if eqb av one then Return (VFloat one)
    else if Bool.eqb (ltb zero iw) (ltb one av) then Return (VFloat (abs iw))
    else Return (VFloat zero)
  else if is_inf iv then
    let odd := is_odd_integer iw in
    if ltb zero iw then Return (VFloat (if odd then iv else abs iv))
    else Return (VFloat (if odd then zero_like iv else zero))
  else if is_zero iv then
    if ltb iw zero then
      raise ZeroDivisionError "0.0 cannot be raised to a negative power"
    else Return (VFloat (if is_odd_integer iw then iv else zero))
  else if ltb iv zero && negb (eqb iw (floor iw)) then
    (* negative numbers raised to fractional powers become complex *)
    complex_op operator_pow (VFloat iv) (VFloat iw)
  else
    let negate_result := ltb iv zero && is_odd_integer iw in
    let av := abs iv in
    if eqb av one then Return (VFloat (if negate_result then neg one else one))
    else
      let '(ix, erange) := libm_pow av iw in
      (* _Py_ADJUST_ERANGE1: an infinite result is a range error, an
         underflow to zero is not *)
      let erange :=
        if is_inf ix then true else if is_zero ix then false else erange in
      if erange then
        raise OverflowError "(34, 'Numerical result out of range')"
      else Return (VFloat (if negate_result then neg ix else ix)).

Definition type_name (v : value) : str :=
  match v with VFloat _ => py "float" | VComplex _ _ => py "complex" end.

(** [v == 0], as the division of complexobject.c tests its divisor. *)
Definition is_zero_value (v : value) : bool :=
  match v with
  | VFloat x => is_zero x
  | VComplex re im => is_zero re && is_zero im
  end.

Definition unsupported (sym : string) (a b : value) : result value :=
  Raise (Exn TypeError
           (py "unsupported operand type(s) for " ++ py sym ++ py ": '"
            ++ type_name a ++ py "' and '" ++ type_name b ++ py "'")).

Definition float_binary (f : pyfun) (x y : float) : result value :=
  match f with
  | operator_add => Return (VFloat (add x y))
  | operator_sub => Return (VFloat (sub x y))
  | operator_mul => Return (VFloat (mul x y))
  | operator_truediv => float_div x y
  | operator_pow => float_pow x y
  | operator_mod => float_rem x y
  | operator_floordiv => float_floor_div x y
  | operator_neg => raise TypeError "_operator.neg() takes exactly one argument (2 given)"
  end.

Definition complex_binary (f : pyfun) (a b : value) : result value :=
  match f with
  | operator_mod => unsupported "%" a b
  | operator_floordiv => unsupported "//" a b
  | operator_truediv =>
    if is_zero_value b then raise ZeroDivisionError "complex division by zero"
    else complex_op f a b
  | operator_neg => raise TypeError "_operator.neg() takes exactly one argument (2 given)"
  | _ => complex_op f a b
  end.

Definition binary (f : pyfun) (a b : value) : result value :=
  match a, b with
  | VFloat x, VFloat y => float_binary f x y
  | _, _ => complex_binary f a b
  end.

Definition negative (a : value) : value :=
  match a with
  | VFloat x => VFloat (neg x)
  | VComplex re im => VComplex (neg re) (neg im)
  end.

Definition fun_name (f : pyfun) : string :=
  match f with
  | operator_add => "add" | operator_sub => "sub" | operator_mul => "mul"
  | operator_truediv => "truediv" | operator_pow => "pow"
  | operator_neg => "neg" | operator_mod => "mod"
  | operator_floordiv => "floordiv"
  end.

(** Calling [f] on the evaluated operands. *)
Definition call (f : pyfun) (args : list value) : result value :=
  match f, args with
  | operator_neg, [a] => Return (negative a)
  | operator_neg, _ => raise TypeError "_operator.neg() takes exactly one argument"
  | _, [a; b] => binary f a b
  | _, _ => Raise (Exn TypeError (py (fun_name f) ++ py " expected 2 arguments"))
  end.

(** [float(n)] for an [int]: the nearest float, or [OverflowError]. *)
Definition float_of_int (n : Z) : result value :=
  let x := of_Z n in
  if is_inf x then raise OverflowError "int too large to convert to float"
  else Return (VFloat x).
End Ops.
End Number.

(** ** Python's expression trees

    The node classes of module [ast] that an expression can contain.
    [opclass] is the class of a node's [op] field ([type(node.op)]). *)
Module ast.
Inductive opclass :=
| Add | Sub | Mult | MatMult | Div | Mod | Pow | LShift | RShift
| BitOr | BitXor | BitAnd | FloorDiv       (* binary operators *)
| Invert | Not | UAdd | USub.              (* unary operators *)

(** The value of a [Constant] node. *)
Inductive constant :=
| Int (n : Z)
| Float (x : spec_float)
| Complex (imag : spec_float)
| Bool (b : bool)
| NoneValue
| Ellipsis
| Str (s : str).

Inductive AST :=
| Constant (value : constant)
| BinOp (left : AST) (op : opclass) (right : AST)
| UnaryOp (op : opclass) (operand : AST)
| Name (id : str)
| Call (func : AST) (args : list AST) (keywords : list (option str * AST))
| Attribute (value : AST) (attr : str)
| Subscript (value : AST) (slice : AST)
| Compare (left : AST) (ops : list str) (comparators : list AST)
| BoolOp (op : str) (values : list AST)
| IfExp (test body orelse : AST)
| Lambda (body : AST)
| Tuple (elts : list AST)
| List_ (elts : list AST)
| Set_ (elts : list AST)
| Dict (keys values : list AST)
| Starred (value : AST).
End ast.

(** ** Reading an expression

    [Parser.parse] stands for [ast.parse(expr, mode="eval").body] on the
    arithmetic fragment of Python's grammar: numbers (decimal, hexadecimal,
    octal, binary, floating point, imaginary), names, [True], [False],
    [None], [...], the operators [+ - * / // % ** @ << >> & | ^ ~],
    parentheses, calls with at most one argument, attribute access,
    comments, line joining.  Python's grammar has more; every expression of
    it outside this fragment contains a node that [_eval] rejects, and here
    it is a syntax error: [calculator] fails on it either way, with another
    cause in its event. *)
Module Parser.
Import ast.

Inductive token :=
| NUMBER (c : constant)
| NAME (s : str)
| OP (s : string)
| NEWLINE.

Definition syntax_error {A} (msg : string) : result A :=
  Raise (Exn SyntaxError (py msg ++ py " (<unknown>, line 1)")).

Definition is_digit (c : N) : bool := (48 <=? c) && (c <=? 57).
Definition is_hex (c : N) : bool :=
  is_digit c || ((97 <=? c) && (c <=? 102)) || ((65 <=? c) && (c <=? 70)).
Definition is_oct (c : N) : bool := (48 <=? c) && (c <=? 55).
Definition is_bin (c : N) : bool := (c =? 48) || (c =? 49).

(** A character that can start or continue an identifier; every code
    point beyond ASCII is a candidate. *)
Definition is_ident_start (c : N) : bool :=
  ((97 <=? c) && (c <=? 122)) || ((65 <=? c) && (c <=? 90)) || (c =? 95)
  || (128 <=? c).
Definition is_ident_char (c : N) : bool := is_ident_start c || is_digit c.

(** The digits at the head of [s], with single underscores between digits
    allowed and dropped; each underscore must be followed by a digit. *)
Fixpoint digits_tail (isd : N -> bool) (s : str) : result (str * str) :=
  match s with
  | c :: t =>
    if isd c then
      r <- digits_tail isd t ;; Return (c :: fst r, snd r)
    else if c =? 95 then
      match t with
      | d :: t' =>
        if isd d then r <- digits_tail isd t' ;; Return (d :: fst r, snd r)
        else syntax_error "invalid decimal literal"
      | [] => syntax_error "invalid decimal literal"
      end
    else Return ([], s)
  | [] => Return ([], [])
  end.

Definition digit_value (c : N) : Z :=
  Z.of_N (if is_digit c then c - 48
          else if 97 <=? c then c - 87 else c - 55).

(** The integer a digit string denotes in a radix. *)
Definition int_of_digits (radix : Z) (ds : str) : Z :=
  fold_left (fun acc c => (acc * radix + digit_value c)%Z) ds 0%Z.

(** The float nearest to [m * 10^e], for [m >= 0]. *)
Definition float_of_decimal (m e : Z) : spec_float :=
  match m with
  | Zpos p =>
    match e with
    | Zneg k => Float.of_ratio p (Pos.pow 10 k)
    | _ => Float.of_Z (m * 10 ^ e)
    end
  | _ => Float.zero
  end.

Definition end_of_number (kind : string) (rest : str) : result unit :=
  match rest with
  | c :: _ =>
    if is_ident_char c
    then syntax_error ("invalid " ++ kind ++ " literal")
    else Return tt
  | [] => Return tt
  end.

(** A literal in radix 16, 8 or 2, after its two-character prefix. *)
Definition radix_number (radix : Z) (isd : N -> bool) (kind : string)
           (s : str) : result (token * str) :=
  match s with
  | c :: _ =>
    if isd c || ((c =? 95) && match s with _ :: d :: _ => isd d | _ => false end)
    then
      r <- digits_tail isd s ;;
      _ <- end_of_number kind (snd r) ;;
      Return (NUMBER (Int (int_of_digits radix (fst r))), snd r)
    else syntax_error ("invalid " ++ kind ++ " literal")
  | [] => syntax_error ("invalid " ++ kind ++ " literal")
  end.

(** The exponent of a float literal: [e], an optional sign, digits. *)
Definition exponent_part (s : str) : result (option Z * str) :=
  match s with
  | c :: t =>
    if (c =? 101) || (c =? 69) then
      let '(sign, t') :=
        match t with
        | x :: u => if x =? 43 then (1%Z, u) else if x =? 45 then ((-1)%Z, u) else (1%Z, t)
        | [] => (1%Z, t)
        end in
      match t' with
      | d :: _ =>
        if is_digit d then
          r <- digits_tail is_digit t' ;;
          Return (Some (sign * int_of_digits 10 (fst r))%Z, snd r)
        else syntax_error "invalid decimal literal"
      | [] => syntax_error "invalid decimal literal"
      end
    else Return (None, s)
  | [] => Return (None, s)
  end.

(** A decimal literal whose integer digits [ds] have been read;
    [rest] is what follows them. *)
Definition decimal_number (ds : str) (rest : str) : result (token * str) :=
  let '(point, rest1) :=
    match rest with
    | c :: t => if c =? 46 then (true, t) else (false, rest)
    | [] => (false, rest)
    end in
  fr <- (if point then
           match rest1 with
           | d :: _ => if is_digit d then digits_tail is_digit rest1
                       else Return ([], rest1)
           | [] => Return ([], rest1)
           end
         else Return ([], rest1)) ;;
  ex <- exponent_part (snd fr) ;;
  let rest2 := snd ex in
  let is_float := point || match fst ex with Some _ => true | None => false end in
  let x := float_of_decimal (int_of_digits 10 (ds ++ fst fr))
             (match fst ex with Some e => e | None => 0 end
              - Z.of_nat (List.length (fst fr)))%Z in
  match rest2 with
  | c :: rest3 =>
    if (c =? 106) || (c =? 74) then
      _ <- end_of_number "imaginary" rest3 ;;
      Return (NUMBER (Complex x), rest3)
    else
      _ <- end_of_number "decimal" rest2 ;;
      if is_float then Return (NUMBER (Float x), rest2)
      else
        let n := int_of_digits 10 ds in
        match ds with
        | 48 :: _ :: _ =>
          if (n =? 0)%Z then Return (NUMBER (Int n), rest2)
          else syntax_error "leading zeros in decimal integer literals are not permitted; use an 0o prefix for octal integers"
        | _ => Return (NUMBER (Int n), rest2)
        end
  | [] =>
    if is_float then Return (NUMBER (Float x), rest2)
    else
      let n := int_of_digits 10 ds in
      match ds with
      | 48 :: _ :: _ =>
        if (n =? 0)%Z then Return (NUMBER (Int n), rest2)
        else syntax_error "leading zeros in decimal integer literals are not permitted; use an 0o prefix for octal integers"
      | _ => Return (NUMBER (Int n), rest2)
      end
  end.

(** A number at the head of [s], which starts with a digit. *)
Definition number (s : str) : result (token * str) :=
  match s with
  | 48 :: x :: t =>
    if (x =? 120) || (x =? 88) then radix_number 16 is_hex "hexadecimal" t
    else if (x =? 111) || (x =? 79) then radix_number 8 is_oct "octal" t
    else if (x =? 98) || (x =? 66) then radix_number 2 is_bin "binary" t
    else r <- digits_tail is_digit s ;; decimal_number (fst r) (snd r)
  | _ => r <- digits_tail is_digit s ;; decimal_number (fst r) (snd r)
  end.

Fixpoint ident_tail (s : str) : str * str :=
  match s with
  | c :: t =>
    if is_ident_char c then let '(i, r) := ident_tail t in (c :: i, r)
    else ([], s)
  | [] => ([], [])
  end.

(** The operators and delimiters of the fragment, longest first. *)
Definition operator (s : str) : option (string * str) :=
  match s with
  | 42 :: 42 :: t => Some ("**"%string, t)
  | 47 :: 47 :: t => Some ("//"%string, t)
  | 60 :: 60 :: t => Some ("<<"%string, t)
  | 62 :: 62 :: t => Some (">>"%string, t)
  | 46 :: 46 :: 46 :: t => Some ("..."%string, t)
  | 40 :: t => Some ("("%string, t)
  | 41 :: t => Some (")"%string, t)
  | 43 :: t => Some ("+"%string, t)
  | 45 :: t => Some ("-"%string, t)
  | 42 :: t => Some ("*"%string, t)
  | 47 :: t => Some ("/"%string, t)
  | 37 :: t => Some ("%"%string, t)
  | 64 :: t => Some ("@"%string, t)
  | 38 :: t => Some ("&"%string, t)
  | 124 :: t => Some ("|"%string, t)
  | 94 :: t => Some ("^"%string, t)
  | 126 :: t => Some ("~"%string, t)
  | 46 :: t => Some ("."%string, t)
  | _ => None
  end.

Fixpoint skip_comment (s : str) : str :=
  match s with
  | c :: t => if (c =? 10) || (c =? 13) then s else skip_comment t
  | [] => []
  end.

(** The indentation of a line: the column of its first character that is
    not a blank, and the text from there. A form feed resets the column. *)
Fixpoint indentation (col : N) (s : str) : N * str :=
  match s with
  | c :: t =>
    if c =? 32 then indentation (col + 1) t
    else if c =? 9 then indentation ((col / 8 + 1) * 8) t
    else if c =? 12 then indentation 0 t
    else (col, s)
  | [] => (col, [])
  end.

(** [tokens fuel depth bol s]: [depth] counts the open parentheses,
    [bol] says that [s] is at the beginning of a line. Each step reads at
    least one character: the length of the text is fuel enough. *)
Fixpoint tokens (fuel : nat) (depth : nat) (bol : bool) (s : str)
  : result (list token) :=
  match fuel with
  | O => Return []
  | S fuel =>
    let '(col, s) := if bol then indentation 0 s else (0, s) in
    match s with
    | [] =>
      (* blanks that end the text are not a blank line *)
      if negb (col =? 0)
      then Raise (Exn IndentationError (py "unexpected indent (<unknown>, line 1)"))
      else Return []
    | c :: t =>
      if (c =? 10) || (c =? 13) then
        (* a line break: "\r\n" and "\r" read as "\n" *)
        let t := match c, t with
                 | 13, 10 :: t' => t'
                 | _, _ => t
                 end in
        match depth with
        | O => if bol then tokens fuel depth true t
               else r <- tokens fuel depth true t ;; Return (NEWLINE :: r)
        | _ => tokens fuel depth false t
        end
      else if c =? 35 then tokens fuel depth bol (skip_comment t)
      else if bol && negb (col =? 0) then
        Raise (Exn IndentationError (py "unexpected indent (<unknown>, line 1)"))
      else if (c =? 32) || (c =? 9) || (c =? 12) then
        tokens fuel depth false t
      else if c =? 92 then
        (* a backslash joins the line with the next one *)
        match t with
        | [10] | [13; 10] | [13] => syntax_error "unexpected EOF while parsing"
        | 10 :: t' => tokens fuel depth false t'
        | 13 :: 10 :: t' => tokens fuel depth false t'
        | 13 :: t' => tokens fuel depth false t'
        | _ => syntax_error "unexpected character after line continuation character"
        end
      else if is_digit c
              || ((c =? 46) && match t with d :: _ => is_digit d | [] => false end)
      then
        r <- (if is_digit c then number s else decimal_number [] s) ;;
        r' <- tokens fuel depth false (snd r) ;;
        Return (fst r :: r')
      else if is_ident_start c then
        if 128 <=? c then syntax_error "invalid character"
        else
          let '(i, r) := ident_tail s in
          r' <- tokens fuel depth false r ;;
          Return (NAME i :: r')
      else
        match operator s with
        | Some (o, r) =>
          let depth' :=
            if String.eqb o "(" then S depth
            else if String.eqb o ")" then Nat.pred depth
            else depth in
          if String.eqb o ")" && Nat.eqb depth 0
          then syntax_error "unmatched ')'"
          else r' <- tokens fuel depth' false r ;; Return (OP o :: r')
        | None => syntax_error "invalid syntax"
        end
    end
  end.

Definition tokenize (s : str) : result (list token) :=
  if existsb (N.eqb 0) s
  then raise ValueError "source code string cannot contain null bytes"
  else tokens (S (List.length s)) 0 true s.

Definition is_op (o : string) (t : token) : bool :=
  match t with OP o' => String.eqb o o' | _ => false end.

(** The binary operators of a precedence level, from [|] (level 0) to the
    multiplicative operators (level 5). *)
Definition binop_of (lvl : nat) (o : string) : option opclass :=
  match lvl with
  | 0%nat => if String.eqb o "|" then Some BitOr else None
  | 1%nat => if String.eqb o "^" then Some BitXor else None
  | 2%nat => if String.eqb o "&" then Some BitAnd else None
  | 3%nat => if String.eqb o "<<" then Some LShift else if String.eqb o ">>" then Some RShift else None
  | 4%nat => if String.eqb o "+" then Some Add else if String.eqb o "-" then Some Sub else None
  | 5%nat =>
    if String.eqb o "*" then Some Mult else if String.eqb o "/" then Some Div
    else if String.eqb o "//" then Some FloorDiv else if String.eqb o "%" then Some Mod
    else if String.eqb o "@" then Some MatMult else None
  | _ => None
  end.

Definition unop_of (o : string) : option opclass :=
  if String.eqb o "+" then Some UAdd
  else if String.eqb o "-" then Some USub
  else if String.eqb o "~" then Some Invert
  else None.

Definition keywords : list string :=
  ["and"; "as"; "assert"; "async"; "await"; "break"; "class"; "continue";
   "def"; "del"; "elif"; "else"; "except"; "finally"; "for"; "from";
   "global"; "if"; "import"; "in"; "is"; "lambda"; "nonlocal"; "not"; "or";
   "pass"; "raise"; "return"; "try"; "while"; "with"; "yield"]%string.

Definition str_eqb (a b : str) : bool :=
  if decide (a = b) then true else false.

(** A name token as an atom. *)
Definition name_atom (i : str) : result AST :=
  if str_eqb i (py "True") then Return (Constant (Bool true))
  else if str_eqb i (py "False") then Return (Constant (Bool false))
  else if str_eqb i (py "None") then Return (Constant NoneValue)
  else if existsb (fun k => str_eqb i (py k)) keywords
  then syntax_error "invalid syntax"
  else Return (Name i).

Definition out_of_fuel {A} : result A := syntax_error "too many nested parentheses".

(** Recursive descent over the token list. [expr fuel lvl ts] reads an
    expression of precedence level [lvl]: 0 to 5 are the left-associative
    binary operators, 6 is [factor] (unary operators), 7 is [power], 8 is
    [primary] (an atom and its trailers). *)
Fixpoint expr (fuel : nat) (lvl : nat) (ts : list token) {struct fuel}
  : result (AST * list token) :=
  match fuel with
  | O => out_of_fuel
  | S fuel =>
    if (lvl <? 6)%nat then
      l <- expr fuel (S lvl) ts ;; binary_tail fuel lvl (fst l) (snd l)
    else if (lvl =? 6)%nat then
      match ts with
      | OP o :: ts' =>
        match unop_of o with
        | Some op => r <- expr fuel 6 ts' ;; Return (UnaryOp op (fst r), snd r)
        | None => expr fuel 7 ts
        end
      | _ => expr fuel 7 ts
      end
    else if (lvl =? 7)%nat then
      p <- expr fuel 8 ts ;;
      match snd p with
      | OP o :: ts' =>
        if String.eqb o "**"
        then r <- expr fuel 6 ts' ;; Return (BinOp (fst p) Pow (fst r), snd r)
        else Return p
      | _ => Return p
      end
    else
      a <- atom fuel ts ;; trailers fuel (fst a) (snd a)
  end

with binary_tail (fuel : nat) (lvl : nat) (left : AST) (ts : list token)
     {struct fuel} : result (AST * list token) :=
  match fuel with
  | O => out_of_fuel
  | S fuel =>
    match ts with
    | OP o :: ts' =>
      match binop_of lvl o with
      | Some op =>
        r <- expr fuel (S lvl) ts' ;;
        binary_tail fuel lvl (BinOp left op (fst r)) (snd r)
      | None => Return (left, ts)
      end
    | _ => Return (left, ts)
    end
  end

with atom (fuel : nat) (ts : list token) {struct fuel}
     : result (AST * list token) :=
  match fuel with
  | O => out_of_fuel
  | S fuel =>
    match ts with
    | NUMBER c :: ts' => Return (Constant c, ts')
    | NAME i :: ts' => a <- name_atom i ;; Return (a, ts')
    | OP o :: ts' =>
      if String.eqb o "..." then Return (Constant Ellipsis, ts')
      else if String.eqb o "(" then
        match ts' with
        | OP o' :: ts'' =>
          if String.eqb o' ")" then Return (Tuple [], ts'')
          else group fuel ts'
        | _ => group fuel ts'
        end
      else syntax_error "invalid syntax"
    | _ => syntax_error "invalid syntax"
    end
  end

(** The inside of a parenthesis, up to and with the closing one. *)
with group (fuel : nat) (ts : list token) {struct fuel}
     : result (AST * list token) :=
  match fuel with
  | O => out_of_fuel
  | S fuel =>
    e <- expr fuel 0 ts ;;
    match snd e with
    | t :: ts' => if is_op ")" t then Return (fst e, ts')
                  else syntax_error "invalid syntax"
    | [] => syntax_error "'(' was never closed"
    end
  end

(** Calls and attribute references after an atom. *)
with trailers (fuel : nat) (left : AST) (ts : list token) {struct fuel}
     : result (AST * list token) :=
  match fuel with
  | O => out_of_fuel
  | S fuel =>
    match ts with
    | OP o :: ts' =>
      if String.eqb o "." then
        match ts' with
        | NAME i :: ts'' =>
          if existsb (fun k => str_eqb i (py k))
                     ("True" :: "False" :: "None" :: keywords)%string
          then syntax_error "invalid syntax"
          else trailers fuel (Attribute left i) ts''
        | _ => syntax_error "invalid syntax"
        end
      else if String.eqb o "(" then
        match ts' with
        | OP o' :: ts'' =>
          if String.eqb o' ")" then trailers fuel (Call left [] []) ts''
          else if String.eqb o' "*" then
            a <- group fuel ts'' ;;
            trailers fuel (Call left [Starred (fst a)] []) (snd a)
          else if String.eqb o' "**" then
            a <- group fuel ts'' ;;
            trailers fuel (Call left [] [(None, fst a)]) (snd a)
          else
            a <- group fuel ts' ;; trailers fuel (Call left [fst a] []) (snd a)
        | _ => a <- group fuel ts' ;; trailers fuel (Call left [fst a] []) (snd a)
        end
      else Return (left, ts)
    | _ => Return (left, ts)
    end
  end.

(** [ast.parse(s, mode="eval").body]: one expression, then line breaks
    only. *)
Definition parse (s : str) : result AST :=
  ts <- tokenize s ;;
  r <- expr (12 * S (List.length ts)) 0 ts ;;
  if forallb (fun t => match t with NEWLINE => true | _ => false end) (snd r)
  then Return (fst r)
  else syntax_error "invalid syntax".
End Parser.

(** ** Numbers as text

    [str(x)] of a float is the shortest decimal text that reads back as
    [x] (the digits of the free-format algorithm of Steele and White, as
    Burger and Dybvig state it), laid out by the rules of
    [PyOS_double_to_string] for format code [r]. *)
Module Repr.
Local Open Scope Z_scope.

Definition digit_char (d : Z) : N := Z.to_N (48 + d).

(** The decimal digits of a natural number, most significant first. *)
Fixpoint nat_digits (fuel : nat) (n : Z) (acc : str) : str :=
  match fuel with
  | O => acc
  | S fuel =>
    let acc := digit_char (n mod 10) :: acc in
    if n <? 10 then acc else nat_digits fuel (n / 10) acc
  end.

Definition decimal (n : Z) : str := nat_digits (S (Z.to_nat (Z.log2 n))) n [].

(** [x = r / s], and the halves of the gaps to the next float up and down
    are [mp / s] and [mm / s]. *)
Definition start (m : positive) (e : Z) : Z * Z * Z * Z :=
  let narrow := (Zpos m =? 2 ^ 52) && (-1074 <? e) in
  if 0 <=? e then
    let be := 2 ^ e in
    if narrow then (Zpos m * be * 4, 4, be * 2, be)
    else (Zpos m * be * 2, 2, be, be)
  else
    if narrow then (Zpos m * 4, 2 ^ (2 - e), 2, 1)
    else (Zpos m * 2, 2 ^ (1 - e), 1, 1).

(** Whether [(r + mp) / s] reaches 1: then the first digit is one place
    higher. The bound itself counts when the mantissa is even. *)
Definition too_low (even : bool) (r s mp : Z) : bool :=
  if even then s <=? r + mp else s <? r + mp.

Fixpoint scale_up (fuel : nat) (even : bool) (r s mp : Z) (k : Z) : Z * Z :=
  match fuel with
  | O => (s, k)
  | S fuel =>
    if too_low even r s mp then scale_up fuel even r (s * 10) mp (k + 1)
    else (s, k)
  end.

Fixpoint scale_down (fuel : nat) (even : bool) (r s mp mm : Z) (k : Z)
  : Z * Z * Z * Z :=
  match fuel with
  | O => (r, mp, mm, k)
  | S fuel =>
    if too_low even (r * 10) s (mp * 10) then (r, mp, mm, k)
    else scale_down fuel even (r * 10) s (mp * 10) (mm * 10) (k - 1)
  end.

(** The digits, until what is left is within the gap. *)
Fixpoint generate (fuel : nat) (even : bool) (r s mp mm : Z) : list Z :=
  match fuel with
  | O => []
  | S fuel =>
    let d := r * 10 / s in
    let r := r * 10 mod s in
    let mp := mp * 10 in
    let mm := mm * 10 in
    let low := if even then r <=? mm else r <? mm in
    let high := if even then s <=? r + mp else s <? r + mp in
    match low, high with
    | false, false => d :: generate fuel even r s mp mm
    | true, false => [d]
    | false, true => [d + 1]
    | true, true =>
      (* both neighbours read back: the closer one, the even one in a tie *)
      if r * 2 <? s then [d]
      else if s <? r * 2 then [d + 1]
      else if Z.even d then [d] else [d + 1]
    end
  end.

(** The shortest digits of [m * 2^e], and the position of the decimal
    point after them: the value is [0.d1d2... * 10^decpt]. *)
Definition shortest (m : positive) (e : Z) : list Z * Z :=
  let even := Z.even (Zpos m) in
  let '(r, s, mp, mm) := start m e in
  let '(s, k) := scale_up 400 even r s mp 0 in
  let '(r, mp, mm, k) := scale_down 400 even r s mp mm k in
  (generate 20 even r s mp mm, k).

Definition zeros (n : Z) : str := repeat 48%N (Z.to_nat n).

(** The layout of format code [r]: exponent notation from 1e16 on and
    below 1e-4. [add_dot_0] asks for [.0] after an integer. *)
Definition layout (ds : list Z) (decpt : Z) (add_dot_0 : bool) : str :=
  let digits := map digit_char ds in
  let n := Z.of_nat (List.length ds) in
  if (decpt <=? -4) || (16 <? decpt) then
    let ex := decpt - 1 in
    let exd := decimal (Z.abs ex) in
    (match digits with
     | d :: [] => [d]
     | d :: rest => d :: 46%N :: rest
     | [] => []
     end)
    ++ [101%N; if ex <? 0 then 45%N else 43%N]
    ++ (if Z.abs ex <? 10 then 48%N :: exd else exd)
  else if decpt <=? 0 then
    [48%N; 46%N] ++ zeros (- decpt) ++ digits
  else if n <=? decpt then
    digits ++ zeros (decpt - n) ++ (if add_dot_0 then [46%N; 48%N] else [])
  else
    take (Z.to_nat decpt) digits ++ [46%N] ++ drop (Z.to_nat decpt) digits.

(** [PyOS_double_to_string(x, 'r', 0, flags, NULL)] *)
Definition double_to_string (x : spec_float) (add_dot_0 always_sign : bool)
  : str :=
  let sign (s : bool) : str :=
    if s then [45%N] else if always_sign then [43%N] else [] in
  match x with
  | S754_nan => sign false ++ py "nan"
  | S754_infinity s => sign s ++ py "inf"
  | S754_zero s => sign s ++ layout [0] 1 add_dot_0
  | S754_finite s m e =>
    let '(ds, decpt) := shortest m e in
    sign s ++ layout ds decpt add_dot_0
  end.

(** [repr] of a float, which is also its [str]. *)
Definition float_repr (x : spec_float) : str := double_to_string x true false.

(** [repr] of a complex number. *)
Definition complex_repr (re im : spec_float) : str :=
  match re with
  | S754_zero false => double_to_string im false false ++ py "j"
  | _ =>
    py "(" ++ double_to_string re false false
    ++ double_to_string im false true ++ py "j)"
  end.

(** [str(value)] *)
Definition str_of (v : value) : str :=
  match v with
  | VFloat x => float_repr x
  | VComplex re im => complex_repr re im
  end.
End Repr.

(** ** tools.py: the calculator and the clock *)
Section Tools.
Context {R : Runtime}.
Import ast.

(** The table [_ALLOWED], from the class of a node's operator to the
    function that computes it. *)
Definition _ALLOWED (op : opclass) : option pyfun :=
  match op with
  | Add => Some operator_add
  | Sub => Some operator_sub
  | Mult => Some operator_mul
  | Div => Some operator_truediv
  | Pow => Some operator_pow
  | USub => Some operator_neg
  | Mod => Some operator_mod
  | FloorDiv => Some operator_floordiv
  | _ => None
  end.

(** [float(node.value)] for a value that is an [int] or a [float]; a
    [bool] is an [int]. *)
Definition number_of (c : constant) : option (result value) :=
  match c with
  | Int n => Some (Number.float_of_int n)
  | Float x => Some (Return (VFloat x))
  | Bool b => Some (Return (VFloat (if b then Float.one else Float.zero)))
  | _ => None
  end.

Fixpoint _eval (node : AST) : result value :=
  match node with
  | Constant v =>
    match number_of v with
    | Some x => x
    | None => raise ValueError "Only numbers are allowed."
    end
  | BinOp lhs op rhs =>
    match _ALLOWED op with
    | None => raise ValueError "Operation not allowed."
    | Some f =>
      l <- _eval lhs ;;
      r <- _eval rhs ;;
      Number.call f [l; r]
    end
  | UnaryOp op operand =>
    match _ALLOWED op with
    | None => raise ValueError "Operation not allowed."
    | Some f =>
      v <- _eval operand ;;
      Number.call f [v]
    end
  | _ => raise ValueError "Invalid expression."
  end.

Definition calculator (expr : str) : ToolResult.t :=
  match (tree <- Parser.parse expr ;; _eval tree) with
  | Return value =>
    let out := Repr.str_of value in
    let evt := ToolEvent.mk (py "calculator") expr true out in
    ToolResult.mk true out evt
  | Raise e =>
    let evt := ToolEvent.mk (py "calculator") expr false (message e) in
    ToolResult.mk false (py "Sorry, I couldn't compute that.") evt
  end.

Definition clock : ToolResult.t :=
  let now := clock_now in
  let evt := ToolEvent.mk (py "clock") (py "") true now in
  ToolResult.mk true now evt.
End Tools.

(** ** agent.py *)

Module AgentReply.
Record t := mk { text : str; tool_events : list ToolEvent.t }.
End AgentReply.

(** An entry of the history: a dictionary that may have a ["role"] and a
    ["content"]. *)
Module Turn.
Record t := mk { role : option str; content : option str }.
End Turn.

(** The chat-completion service behind [OpenAI()]: given the messages (role
    and content), it raises, or answers with a content that may be [None]. *)
Definition Client := list (str * str) -> result (option str).

Section Agent.
Context {U : UnicodeData} {R : Runtime}.

Definition _is_greeting (text : str) : bool :=
  Re.is_match (Re.rmatch true Pattern.greeting text).

Definition _is_followup (text : str) : bool :=
  Re.is_match (Re.search true Pattern.followup text).

Definition str_eqb (a b : str) : bool := if decide (a = b) then true else false.

Definition has_role (who : string) (m : Turn.t) : bool :=
  match Turn.role m with
  | Some r => str_eqb r (py who)
  | None => false
  end.

Definition has_content (m : Turn.t) : bool :=
  match Turn.content m with
  | Some c => truthy c
  | None => false
  end.

(** The content of the first entry of [l] that has the role and a
    content that is not empty. *)
Fixpoint first_with_role (who : string) (l : list Turn.t) : option str :=
  match l with
  | [] => None
  | m :: l' =>
    if has_role who m && has_content m then Turn.content m
    else first_with_role who l'
  end.

Definition _last_assistant_text (history : list Turn.t) : option str :=
  first_with_role "assistant" (rev history).

Definition _last_user_text (history : list Turn.t) : option str :=
  first_with_role "user" (rev history).

(** [x or y] for an optional string [x]. *)
Definition or_else (x : option str) (y : str) : str :=
  match x with
  | Some s => if truthy s then s else y
  | None => y
  end.

Definition _local_brief_explanation (prev_answer : str) (prev_user : option str)
  : str :=
  if negb (truthy prev_answer) then
    py "I can explain — could you repeat the part you want clarified?"
  else if (List.length prev_answer <=? 160)%nat && (count 46 prev_answer <=? 1)%nat
  then py "In short: " ++ prev_answer
  else
    let sent := strip (split_first 46 prev_answer) in
    if negb (truthy sent) then py "Briefly: it follows from the previous result."
    else
      match prev_user with
      | Some u =>
        if truthy u then
          py "Briefly: " ++ sent ++ py ". (Related to your earlier message: “"
          ++ u ++ py "”.)"
        else py "Briefly: " ++ sent ++ py "."
      | None => py "Briefly: " ++ sent ++ py "."
      end.

End Agent.

Module ReasoningAgent.
Record t := mk { facts : FactsStore.t; _client : option Client }.

Section Methods.
Context {U : UnicodeData} {R : Runtime}.

(** [api_key] is the environment's [OPENAI_API_KEY] (empty when it is
    not set), [openai] the service a client would reach. *)
Definition __init__ (api_key : str) (openai : Client) : t :=
  mk FactsStore.__init__
     (if truthy (strip api_key) then Some openai else None).

(** The two long fixed replies. *)
Definition hello_text : str :=
  py "Hello! I remember this session. Ask me anything, or say “help” to see capabilities.".

Definition capabilities_text : str :=
  py "I keep our chat in memory for this session. I can do quick math (e.g., `12*(3+4)`), tell the time, remember simple facts (e.g., `remember project = Apollo` → `recall project`), and handle follow-ups like “explain this in brief?”. For richer chat, set OPENAI_API_KEY in a .env file.".

Definition system_prompt : str :=
  py "You are a warm, concise assistant inside a teaching demo. Use chat history for context. Be brief (1–3 sentences). Avoid chain-of-thought.".

(** The last [n] elements of a list: [l[-n:]]. *)
Definition last_n {A} (n : nat) (l : list A) : list A :=
  drop (List.length l - n) l.

Definition _openai_reply (self : t) (user : str) (history : list Turn.t)
  : option str :=
  match _client self with
  | None => None
  | Some client =>
    let msgs := [(py "system", system_prompt)] in
    let compact :=
      omap (fun m =>
              if (has_role "user" m || has_role "assistant" m) && has_content m
              then match Turn.role m, Turn.content m with
                   | Some r, Some c => Some (r, c)
                   | _, _ => None
                   end
              else None) history in
    let msgs := msgs ++ last_n 6 compact in
    let msgs := msgs ++ [(py "user", user)] in
    match client msgs with
    | Return c => Some (strip (match c with Some s => s | None => [] end))
    | Raise _ => None
    end
  end.

Definition chat (self : t) (user : str) (history : option (list Turn.t))
  : AgentReply.t * t :=
  let events : list ToolEvent.t := [] in
  let history := match history with Some h => h | None => [] end in
  (* 0) Greeting *)
  if _is_greeting user then
    let text := or_else (_openai_reply self user history) hello_text in
    (AgentReply.mk text events, self)
  else
  (* 1) Memory: remember key = value *)
  match Re.rmatch true Pattern.remember user with
  | Some m =>
    let key := Re.group m 2 in
    let val := Re.group m 3 in
    let '(r, facts') := FactsStore.remember (facts self) key val in
    let events := events ++ [ToolResult.event r] in
    (AgentReply.mk (py "Got it — I saved that.") events,
     mk facts' (_client self))
  | None =>
  (* 2) Memory: recall key *)
  match Re.rmatch true Pattern.recall user with
  | Some m =>
    let key := Re.group m 2 in
    let '(r, facts') := FactsStore.recall (facts self) key in
    let events := events ++ [ToolResult.event r] in
    (AgentReply.mk (if ToolResult.ok r then ToolResult.content r
                    else py "I don't have that saved yet.") events,
     mk facts' (_client self))
  | None =>
  (* 3) Time *)
  if Re.is_match (Re.search true Pattern.time user) then
    let r := clock in
    let events := events ++ [ToolResult.event r] in
    (AgentReply.mk (py "The time is " ++ ToolResult.content r ++ py ".") events,
     self)
  else
  (* 4) Calculator *)
  let calc_match := Re.rmatch true Pattern.calculate user in
  let expr :=
    match calc_match with
    | Some m => Some (Re.group m 1)
    | None => None
    end in
  let expr :=
    match expr with
    | None =>
      if Re.is_match (Re.rmatch false Pattern.bare user)
      then Some (strip user) else None
    | Some _ => expr
    end in
  match (match expr with
         | Some e => if truthy e then Some e else None
         | None => None
         end) with
  | Some e =>
    let r := calculator e in
    let events := events ++ [ToolResult.event r] in
    (AgentReply.mk (if ToolResult.ok r then ToolResult.content r
                    else py "That expression didn't work for me.") events,
     self)
  | None =>
  (* 5) Follow-up clarification *)
  if _is_followup user then
    let prev_answer := or_else (_last_assistant_text history) (py "") in
    let prev_user := _last_user_text history in
    let ai :=
      _openai_reply self
        (user ++ [10; 10] ++ py "Context:" ++ [10] ++ py "Previous answer: "
         ++ prev_answer) history in
    match ai with
    | Some a =>
      if truthy a then (AgentReply.mk a events, self)
      else (AgentReply.mk (_local_brief_explanation prev_answer prev_user)
                          events, self)
    | None =>
      (AgentReply.mk (_local_brief_explanation prev_answer prev_user) events,
       self)
    end
  else
  (* 6) General fallback *)
  let ai := _openai_reply self user history in
  match (match ai with
         | Some a => if truthy a then Some a else None
         | None => None
         end) with
  | Some a => (AgentReply.mk a events, self)
  | None =>
    (AgentReply.mk capabilities_text events, self)
  end
  end
  end
  end.
End Methods.
End ReasoningAgent.



(** ** Sample platforms

    The examples below run on ASCII text and on arithmetic that needs
    neither [pow] nor complex numbers: there the platform is not consulted.
    These two instances stand for it when a statement is run on a concrete
    input. *)
Definition ascii_tables : UnicodeData :=
  {| uc_isalnum := fun _ => false;
     uc_isdecimal := fun _ => false;
     uc_tolower := fun c => c;
     uc_lower := fun _ c _ => [c] |}.

Definition sample_runtime : Runtime :=
  {| libm_pow := fun _ _ => (S754_nan, false);
     complex_op := fun _ _ _ => raise OverflowError "complex exponentiation";
     clock_now := py "2024-05-17 09:30:00" |}.

(** [needle in hay] *)
Fixpoint starts_with (prefix s : str) : bool :=
  match prefix, s with
  | [], _ => true
  | p :: prefix', c :: s' => (p =? c) && starts_with prefix' s'
  | _ :: _, [] => false
  end.

Fixpoint contains (needle hay : str) : bool :=
  starts_with needle hay
  || match hay with
     | [] => false
     | _ :: hay' => contains needle hay'
     end.

(** The names of the tools a reply's events record. *)
Definition tools_fired (r : AgentReply.t) : list str :=
  map ToolEvent.name (AgentReply.tool_events r).

(** ** The vocabulary of the statements about the router *)
Section RouterVocabulary.
Context {U : UnicodeData} {R : Runtime}.
Import ReasoningAgent.

Definition history_of (history : option (list Turn.t)) : list Turn.t :=
  match history with Some h => h | None => [] end.

(** The expression rule 4 hands to the calculator: the text after
    [calculate], or the whole trimmed utterance when it is made of digits,
    blanks and [. + - * / ( ) %] only; none when that text is empty. *)
Definition calculator_input (user : str) : option str :=
  let expr :=
    match Re.rmatch true Pattern.calculate user with
    | Some m => Some (Re.group m 1)
    | None => None
    end in
  let expr :=
    match expr with
    | None =>
      if Re.is_match (Re.rmatch false Pattern.bare user)
      then Some (strip user) else None
    | Some _ => expr
    end in
  match expr with
  | Some e => if truthy e then Some e else None
  | None => None
  end.

(** What the delegate yields, an empty answer counting as none. *)
Definition delegate_answer (self : t) (prompt : str) (history : list Turn.t)
  : option str :=
  match _openai_reply self prompt history with
  | Some a => if truthy a then Some a else None
  | None => None
  end.

Definition followup_prompt (user : str) (history : list Turn.t) : str :=
  user ++ [10; 10] ++ py "Context:" ++ [10] ++ py "Previous answer: "
  ++ or_else (_last_assistant_text history) (py "").
End RouterVocabulary.

(** ** The vocabulary of the statements about words *)
Section Words.
Context {U : UnicodeData}.

(** [w], a word in lower-case ASCII letters, stands in [s] as a whole word,
    in either case: what is before it does not end, and what is after it
    does not start, with a character of a word. *)
Definition whole_word (w s : str) : Prop :=
  exists pre w' post,
    s = pre ++ w' ++ post /\ map ascii_lower w' = w
    /\ match rev pre with c :: _ => isword c = false | [] => True end
    /\ match post with c :: _ => isword c = false | [] => True end.

Definition has_time_word (s : str) : Prop :=
  whole_word (py "time") s \/ whole_word (py "date") s \/ whole_word (py "now") s.
End Words.

(** ** The vocabulary of the statements about numbers as text *)



(** ** The vocabulary of the statements about the calculator *)
Section CalculatorVocabulary.
Context {R : Runtime}.
Import ast.

(** The operands [_eval] descends into. *)
Inductive operand_of : AST -> AST -> Prop :=
| operand_left lhs op rhs : operand_of lhs (BinOp lhs op rhs)
| operand_right lhs op rhs : operand_of rhs (BinOp lhs op rhs)
| operand_unary op e : operand_of e (UnaryOp op e).

(** A part of an expression: the expression itself, or a part of one of
    its operands. *)
Inductive part_of : AST -> AST -> Prop :=
| part_self e : part_of e e
| part_operand s m e : part_of s m -> operand_of m e -> part_of s e.

Definition is_division (op : opclass) : bool :=
  match op with
  | Div | Mod | FloorDiv => true
  | _ => false
  end.

(** An expression divides by zero: one of its parts is a division ([/],
    [%] or [//]) whose operands evaluate and whose divisor is zero. *)
Definition divides_by_zero (e : AST) : Prop :=
  exists lhs op rhs a b,
    part_of (BinOp lhs op rhs) e /\ is_division op = true
    /\ _eval lhs = Return a /\ _eval rhs = Return b
    /\ Number.is_zero_value b = true.

(** The expressions the whitelist is meant to let through, and the
    Boolean constants. *)
Fixpoint accepted (e : AST) : bool :=
  match e with
  | Constant (Int _) | Constant (Float _) | Constant (Bool _) => true
  | BinOp lhs op rhs =>
    match op with
    | Add | Sub | Mult | Div | Mod | FloorDiv | Pow => accepted lhs && accepted rhs
    | _ => false
    end
  | UnaryOp USub e' => accepted e'
  | _ => false
  end.
End CalculatorVocabulary.


(** ** The vocabulary of the statements about results *)
Section ResultVocabulary.
Import ast.

(** An expression in which [**] occurs. *)
Fixpoint uses_power (e : AST) : bool :=
  match e with
  | BinOp lhs op rhs =>
    match op with Pow => true | _ => uses_power lhs || uses_power rhs end
  | UnaryOp _ e' => uses_power e'
  | _ => false
  end.
End ResultVocabulary.

(** ** The vocabulary of the statements about replies *)

(** The reply text that goes with a tool event: what [chat] says after
    each of the four tools, given the event the tool recorded. *)
Definition reply_of_event (e : ToolEvent.t) : option str :=
  if str_eqb (ToolEvent.name e) (py "facts.remember") then Some (py "Got it — I saved that.")
  else if str_eqb (ToolEvent.name e) (py "facts.recall") then
    Some (if ToolEvent.ok e then ToolEvent.output e
          else py "I don't have that saved yet.")
  else if str_eqb (ToolEvent.name e) (py "clock") then Some (py "The time is " ++ ToolEvent.output e ++ py ".")
  else if str_eqb (ToolEvent.name e) (py "calculator") then
    Some (if ToolEvent.ok e then ToolEvent.output e
          else py "That expression didn't work for me.")
  else None.

(** ** The vocabulary of the statements about the history *)
Section HistoryVocabulary.
Context {U : UnicodeData} {R : Runtime}.

(** An entry of the history that counts as a text of [who]: it has that
    role and a content that is not empty. *)
Definition speaks (who : string) (m : Turn.t) : bool :=
  has_role who m && has_content m.

(** [t] is the text of the last entry of [history] in which [who]
    speaks. *)
Definition last_spoken (who : string) (history : list Turn.t) (t : str) : Prop :=
  exists earlier m later,
    history = earlier ++ m :: later
    /\ Turn.role m = Some (py who) /\ Turn.content m = Some t
    /\ Forall (fun m' => speaks who m' = false) later.
End HistoryVocabulary.

(** ** The vocabulary of the statements about phrases *)
Section PhraseVocabulary.
Context {U : UnicodeData}.

(** The words the greeting pattern starts with. *)
Definition greeting_words : list str :=
  [py "hi"; py "hello"; py "hey"; py "hola"; py "namaste"; py "good"].

(** The text opens, after blanks if any, with a greeting word as a whole
    word, in either case. *)
Definition opens_with_greeting (s : str) : Prop :=
  exists lead w' post,
    s = lead ++ w' ++ post /\ blank lead
    /\ In (map ascii_lower w') greeting_words
    /\ match post with c :: _ => isword c = false | [] => True end.

(** The phrases of the follow-up pattern. *)
Definition followup_phrases : list str :=
  [py "explain this"; py "explain that"; py "in brief"; py "briefly";
   py "why"; py "how so"].

Definition has_followup_phrase (s : str) : Prop :=
  exists w, In w followup_phrases /\ whole_word w s.
End PhraseVocabulary.

(** ** The vocabulary of the statements about bare arithmetic *)

(** A character of a bare arithmetic utterance, in ASCII: a digit, one of
    [. + - * / ( ) %], or a blank. *)
Definition arithmetic_char (c : N) : bool :=
  is_ascii_digit c
  || existsb (N.eqb c) [46; 43; 45; 42; 47; 40; 41; 37]
  || ((9 <=? c) && (c <=? 13)) || ((28 <=? c) && (c <=? 32)).

(** ** The vocabulary of the statements about sessions *)
Section SessionVocabulary.
Context {U : UnicodeData} {R : Runtime}.
Import ReasoningAgent.

(** The agent after a run of turns, each an utterance with the history the
    caller sends along. *)
Fixpoint session (self : t) (turns : list (str * option (list Turn.t))) : t :=
  match turns with
  | [] => self
  | (user, history) :: rest => session (snd (chat self user history)) rest
  end.

(** The key an utterance writes, when the memory-write rule takes it. *)
Definition written_key (user : str) : option str :=
  if _is_greeting user then None
  else
    match Re.rmatch true Pattern.remember user with
    | Some m => Some (lower (strip (Re.group m 2)))
    | None => None
    end.
End SessionVocabulary.

(** ** server.py

    The models of the JSON bodies and the [/chat] endpoint. [AGENT], the
    one agent of the process, is an argument and a result of the endpoint:
    each request finds it as the request before left it. *)
Module Server.
Record ToolEventModel := {
  name : str;
  input : str;
  ok : bool;
  output : str
}.

Record AgentReplyModel := {
  text : str;
  tool_events : list ToolEventModel
}.

Record ChatRequest := {
  message : str;
  history : list Turn.t
}.

Section Endpoints.
Context {U : UnicodeData} {R : Runtime}.

(** [x or []] for a list [x]. *)
Definition or_empty {A} (x : list A) : list A :=
  match x with [] => [] | _ => x end.

Definition chat (AGENT : ReasoningAgent.t) (req : ChatRequest)
  : AgentReplyModel * ReasoningAgent.t :=
  let '(reply, AGENT) :=
    ReasoningAgent.chat AGENT (message req) (Some (or_empty (history req))) in
  (* Convert dataclass ToolEvent -> Pydantic model *)
  let events :=
    map (fun e =>
           {| name := ToolEvent.name e; input := ToolEvent.input e;
              ok := ToolEvent.ok e; output := ToolEvent.output e |})
        (or_empty (AgentReply.tool_events reply)) in
  ({| text := AgentReply.text reply; tool_events := events |}, AGENT).
End Endpoints.
End Server.

(** ** The rules of the router, as the specification lists them

    The specification describes the router as a table of seven rules, tried
    in a fixed order, the first that applies handling the turn. The
    definitions below are that table; the theorem on routing relates
    [ReasoningAgent.chat] to it. *)
Inductive rule :=
| greeting_rule | memory_write_rule | memory_read_rule | time_rule
| arithmetic_rule | followup_rule | fallback_rule.

Definition rule_order : list rule :=
  [greeting_rule; memory_write_rule; memory_read_rule; time_rule;
   arithmetic_rule; followup_rule; fallback_rule].

(** The tool a rule calls, as the name its event carries. *)
Definition tools_of (r : rule) : list str :=
  match r with
  | memory_write_rule => [py "facts.remember"]
  | memory_read_rule => [py "facts.recall"]
  | time_rule => [py "clock"]
  | arithmetic_rule => [py "calculator"]
  | greeting_rule | followup_rule | fallback_rule => []
  end.

Section RuleTable.
Context {U : UnicodeData} {R : Runtime}.
Import ReasoningAgent.

(** The check of each rule, on the utterance alone. *)
Definition applies (r : rule) (user : str) : bool :=
  match r with
  | greeting_rule => _is_greeting user
  | memory_write_rule => Re.is_match (Re.rmatch true Pattern.remember user)
  | memory_read_rule => Re.is_match (Re.rmatch true Pattern.recall user)
  | time_rule => Re.is_match (Re.search true Pattern.time user)
  | arithmetic_rule =>
    match calculator_input user with Some _ => true | None => false end
  | followup_rule => _is_followup user
  | fallback_rule => true
  end.

(** First match wins. *)
Definition winner (user : str) : option rule :=
  List.find (fun r => applies r user) rule_order.

(** What a rule does with a turn: the reply and the agent it leaves. *)
Definition handled_by (r : rule) (self : t) (user : str)
           (history : list Turn.t) (out : AgentReply.t * t) : Prop :=
  match r with
  | greeting_rule =>
    out = (AgentReply.mk
             (match delegate_answer self user history with
              | Some a => a
              | None => hello_text
              end) [],
           self)
  | memory_write_rule =>
    exists m,
      Re.rmatch true Pattern.remember user = Some m
      /\ let w := FactsStore.remember (facts self) (Re.group m 2) (Re.group m 3) in
         out = (AgentReply.mk (py "Got it — I saved that.")
                  [ToolResult.event (fst w)],
                mk (snd w) (_client self))
  | memory_read_rule =>
    exists m,
      Re.rmatch true Pattern.recall user = Some m
      /\ let r := fst (FactsStore.recall (facts self) (Re.group m 2)) in
         out = (AgentReply.mk
                  (if ToolResult.ok r then ToolResult.content r
                   else py "I don't have that saved yet.")
                  [ToolResult.event r],
                self)
  | time_rule =>
    out = (AgentReply.mk (py "The time is " ++ clock_now ++ py ".")
             [ToolEvent.mk (py "clock") (py "") true clock_now],
           self)
  | arithmetic_rule =>
    exists e,
      calculator_input user = Some e
      /\ let r := calculator e in
         out = (AgentReply.mk
                  (if ToolResult.ok r then ToolResult.content r
                   else py "That expression didn't work for me.")
                  [ToolResult.event r],
                self)
  | followup_rule =>
    out = (AgentReply.mk
             (match delegate_answer self (followup_prompt user history) history with
              | Some a => a
              | None =>
                _local_brief_explanation
                  (or_else (_last_assistant_text history) (py ""))
                  (_last_user_text history)
              end) [],
           self)
  | fallback_rule =>
    out = (AgentReply.mk
             (match delegate_answer self user history with
              | Some a => a
              | None => capabilities_text
              end) [],
           self)
  end.
End RuleTable.

(** ** The follow-up resolver, as the specification words it *)
Section ResolverVocabulary.

(** [m] is a turn of [who] with the text [t], which is not empty. *)
Definition authored (who : string) (m : Turn.t) (t : str) : Prop :=
  Turn.role m = Some (py who) /\ Turn.content m = Some t /\ t <> [].

Definition silent (who : string) (m : Turn.t) : Prop :=
  forall t, ~ authored who m t.

(** The text of the most recent turn of [who] in the history, scanning from
    the latest turn backward; none when [who] has no turn. *)
Definition most_recent (who : string) (history : list Turn.t)
           (text : option str) : Prop :=
  match text with
  | Some t =>
    exists earlier m later,
      history = earlier ++ m :: later /\ authored who m t
      /\ Forall (silent who) later
  | None => Forall (silent who) history
  end.

(** The sentence terminator is the full stop. A text has at most one when
    it cannot be cut at two. *)
Definition at_most_one_stop (p : str) : Prop :=
  forall a b c, p <> a ++ 46 :: b ++ 46 :: c.

(** Short: at most 160 characters and at most one sentence terminator. *)
Definition short (p : str) : Prop :=
  (List.length p <= 160)%nat /\ at_most_one_stop p.

(** [s] is the text of [p] up to its first full stop, all of [p] when it
    has none. *)
Definition first_sentence (p s : str) : Prop :=
  ~ In 46 s /\ (p = s \/ exists rest, p = s ++ 46 :: rest).

(** [summary] is [s] without the blanks at its two ends. *)
Definition condensed (s summary : str) : Prop :=
  exists lead trail,
    s = lead ++ summary ++ trail /\ blank lead /\ blank trail /\ trimmed summary.

(** The prompt of a follow-up: the utterance, and the previous answer as
    context. *)
Definition prompt_with_context (user : str) (prev : option str) : str :=
  user ++ [10; 10] ++ py "Context:" ++ [10] ++ py "Previous answer: "
  ++ match prev with Some p => p | None => [] end.
End ResolverVocabulary.
(** * Properties *)

(** ** The facts store *)
Section FactsStoreProperties.
Context {U : UnicodeData}.
Import FactsStore.

Lemma remember_store (s : t) (k v : str) :
  _facts (snd (remember s k v)) = <[lower (strip k) := strip v]> (_facts s).
Proof. reflexivity. Qed.

Lemma recall_present (s : t) (k v : str) :
  _facts s !! lower (strip k) = Some v ->
  recall s k =
  (ToolResult.mk true v (ToolEvent.mk (py "facts.recall") (lower (strip k)) true v), s).
Proof. intros H. unfold recall. rewrite H. reflexivity. Qed.

Lemma recall_absent (s : t) (k : str) :
  _facts s !! lower (strip k) = None ->
  recall s k =
  (ToolResult.mk false (py "I don't have that saved yet.")
     (ToolEvent.mk (py "facts.recall") (lower (strip k)) false (py "Not found.")),
   s).
Proof. intros H. unfold recall. rewrite H. reflexivity. Qed.

Lemma recall_keeps_store (s : t) (k : str) : snd (recall s k) = s.
Proof. unfold recall. destruct (_facts s !! lower (strip k)); reflexivity. Qed.

(** C4. A value written under a key is read back, trimmed and with
    [ok = true], under every key with the same normal form (trimmed, then
    lower-cased); writing again under such a key replaces the value: the
    store is the one a single write of the latest value gives. *)
Theorem remember_then_recall (s : t) (k k' v v2 : str) :
  lower (strip k') = lower (strip k) ->
  let s1 := snd (remember s k v) in
  let s2 := snd (remember s1 k' v2) in
  ToolResult.ok (fst (recall s1 k')) = true
  /\ ToolResult.content (fst (recall s1 k')) = strip v
  /\ ToolResult.ok (fst (recall s2 k)) = true
  /\ ToolResult.content (fst (recall s2 k)) = strip v2
  /\ s2 = snd (remember s k' v2).
Proof.
  intros Hk s1 s2.
  assert (H1 : _facts s1 !! lower (strip k') = Some (strip v)).
  { subst s1. rewrite remember_store, Hk. apply lookup_insert_eq. }
  assert (H2 : _facts s2 !! lower (strip k) = Some (strip v2)).
  { subst s2. rewrite remember_store, Hk. apply lookup_insert_eq. }
  rewrite (recall_present _ _ _ H1), (recall_present _ _ _ H2).
  do 4 (split; [reflexivity |]).
  subst s2 s1. unfold remember, snd. f_equal.
  rewrite Hk. apply insert_insert_eq.
Qed.

(** C7. Reading a key that was never written fails with the same fixed
    outcome each time, and leaves the store as it was: reading again gives
    the same result on the same store. No read changes the store. *)
Theorem recall_unwritten_key (s : t) (k : str) :
  _facts s !! lower (strip k) = None ->
  let r := fst (recall s k) in
  let s' := snd (recall s k) in
  s' = s
  /\ ToolResult.ok r = false
  /\ ToolResult.content r = py "I don't have that saved yet."
  /\ ToolResult.event r =
     ToolEvent.mk (py "facts.recall") (lower (strip k)) false (py "Not found.")
  /\ recall s' k = (r, s')
  /\ (forall k2, snd (recall s k2) = s).
Proof.
  intros H r s'. subst r s'. rewrite (recall_absent _ _ H).
  do 4 (split; [reflexivity |]).
  split.
  - apply recall_absent, H.
  - apply recall_keeps_store.
Qed.
End FactsStoreProperties.

(** C4 on the keys ["Project"] and [" project "], written twice. *)
Lemma remember_then_recall_project :
  let s1 := snd (FactsStore.remember (U := ascii_tables) FactsStore.__init__
                   (py "Project") (py " Apollo ")) in
  let s2 := snd (FactsStore.remember (U := ascii_tables) s1 (py " project ")
                   (py "Artemis")) in
  ToolResult.ok (fst (FactsStore.recall (U := ascii_tables) s1 (py " project "))) = true
  /\ ToolResult.content (fst (FactsStore.recall (U := ascii_tables) s1 (py " project ")))
     = py "Apollo"
  /\ ToolResult.ok (fst (FactsStore.recall (U := ascii_tables) s2 (py "Project"))) = true
  /\ ToolResult.content (fst (FactsStore.recall (U := ascii_tables) s2 (py "Project")))
     = py "Artemis"
  /\ s2 = snd (FactsStore.remember (U := ascii_tables) FactsStore.__init__
                 (py " project ") (py "Artemis")).
Proof.
  apply (remember_then_recall (U := ascii_tables) FactsStore.__init__
           (py "Project") (py " project ") (py " Apollo ") (py "Artemis")).
  reflexivity.
Defined.

(** C7 on the empty store and the key ["mission"]. *)
Lemma recall_unwritten_mission :
  let r := fst (FactsStore.recall (U := ascii_tables) FactsStore.__init__ (py "mission")) in
  let s' := snd (FactsStore.recall (U := ascii_tables) FactsStore.__init__ (py "mission")) in
  s' = FactsStore.__init__
  /\ ToolResult.ok r = false
  /\ ToolResult.content r = py "I don't have that saved yet."
  /\ ToolResult.event r =
     ToolEvent.mk (py "facts.recall")
       (lower (U := ascii_tables) (strip (py "mission"))) false (py "Not found.")
  /\ FactsStore.recall (U := ascii_tables) s' (py "mission") = (r, s')
  /\ (forall k2, snd (FactsStore.recall (U := ascii_tables) FactsStore.__init__ k2)
                 = FactsStore.__init__).
Proof.
  apply (recall_unwritten_key (U := ascii_tables) FactsStore.__init__ (py "mission")).
  reflexivity.
Defined.

(** ** The calculator on concrete inputs *)
Section CalculatorRuns.
Context {U : UnicodeData} {R : Runtime}.

(** C1, at the input [True]: the calculator accepts a name that is not a
    number, an operator or a parenthesis, and reports the value 1.0 as a
    success. *)
Theorem calculator_accepts_True :
  calculator (py "True")
  = ToolResult.mk true (py "1.0")
      (ToolEvent.mk (py "calculator") (py "True") true (py "1.0")).
Proof. vm_compute. reflexivity. Qed.

(** C5, as amended. Whatever the router's state and the history, the
    utterance [12*(3+4)] is answered with the text [84.0], with exactly one
    event, of the calculator, with [ok = true]; the router's state is
    unchanged. *)
Theorem chat_twelve_times_seven (self : ReasoningAgent.t)
        (history : option (list Turn.t)) :
  ReasoningAgent.chat self (py "12*(3+4)") history
  = (AgentReply.mk (py "84.0")
       [ToolEvent.mk (py "calculator") (py "12*(3+4)") true (py "84.0")],
     self).
Proof. vm_compute. reflexivity. Qed.

(** C6, at the failing input: after [remember x = ] (a value of blanks
    only), [recall x] is answered with the empty text. *)
Theorem recall_of_blank_value_is_empty (client : option Client)
        (h1 h2 : option (list Turn.t)) :
  let a0 := ReasoningAgent.mk FactsStore.__init__ client in
  let a1 := snd (ReasoningAgent.chat a0 (py "remember x = ") h1) in
  AgentReply.text (fst (ReasoningAgent.chat a1 (py "recall x") h2)) = [].
Proof. vm_compute. reflexivity. Qed.
End CalculatorRuns.

(** C5 as the claim states it fails: the text for [12*(3+4)] is [84.0],
    and holds no [49]. *)
Lemma chat_twelve_times_seven_is_not_49 :
  let reply :=
    fst (ReasoningAgent.chat (U := ascii_tables) (R := sample_runtime)
           (ReasoningAgent.mk FactsStore.__init__ None) (py "12*(3+4)") None) in
  AgentReply.text reply = py "84.0"
  /\ contains (py "49") (AgentReply.text reply) = false.
Proof. vm_compute. split; reflexivity. Qed.

(** ** Whole words *)
Section WholeWords.
Context {U : UnicodeData}.
Local Open Scope re_scope.

Lemma search_from_eq (r : Re.regex) (bef aft : str) :
  Re.search_from true r bef aft
  = match Re.run true r Some (Re.MState bef aft []) with
    | Some m => Some m
    | None =>
      match aft with
      | c :: aft' => Re.search_from true r (c :: bef) aft'
      | [] => None
      end
    end.
Proof. destruct aft; reflexivity. Qed.

(** A match that starts after [pre] is found by the search, unless an
    earlier one is. *)
Lemma search_from_later (r : Re.regex) (pre : str) :
  forall bef rest,
    Re.is_match (Re.run true r Some (Re.MState (rev pre ++ bef) rest [])) = true ->
    Re.is_match (Re.search_from true r bef (pre ++ rest)) = true.
Proof.
  induction pre as [| c pre IH]; intros bef rest H; rewrite search_from_eq.
  - cbn [rev app] in *. destruct (Re.run true r Some _); [reflexivity | discriminate H].
  - cbn [app].
    destruct (Re.run true r Some (Re.MState bef (c :: pre ++ rest) []));
      [reflexivity |].
    apply IH. cbn [rev] in H. rewrite <- app_assoc in H. exact H.
Qed.

Lemma lower_letter (p c : N) :
  is_ascii_lower p = true -> ascii_lower c = p ->
  Re.lit_match true p c = true /\ isword c = true.
Proof.
  intros Hp Hc.
  assert (Hp' : (97 <= p <= 122)%N).
  { unfold is_ascii_lower in Hp. apply andb_prop in Hp as [H1 H2].
    apply N.leb_le in H1, H2. lia. }
  assert (Hcase : c = p \/ (c + 32 = p /\ 65 <= c <= 90)%N).
  { unfold ascii_lower, is_ascii_upper in Hc.
    destruct (N.leb_spec 65 c), (N.leb_spec c 90); cbn [andb] in Hc; lia. }
  assert (Hlow : ascii_lower c = p /\ (c <? 128)%N = true
                 /\ is_ascii_upper c || is_ascii_lower c = true).
  { split; [exact Hc |]. split; [apply N.ltb_lt; lia |].
    unfold is_ascii_upper, is_ascii_lower.
    destruct Hcase as [-> | [_ Hu]].
    - assert (E : (97 <=? p)%N && (p <=? 122)%N = true)
        by (apply andb_true_intro; split; apply N.leb_le; lia).
      rewrite E. apply orb_true_r.
    - assert (E : (65 <=? c)%N && (c <=? 90)%N = true)
        by (apply andb_true_intro; split; apply N.leb_le; lia).
      rewrite E. reflexivity. }
  destruct Hlow as (_ & Hlt & Hletter). split.
  - unfold Re.lit_match, Re.is_ascii_letter. rewrite Hp, orb_true_r.
    cbn [andb]. unfold sre_tolower. rewrite Hlt, Hc.
    assert (E : ascii_lower p = p).
    { unfold ascii_lower, is_ascii_upper.
      destruct (N.leb_spec p 90); [lia |]. rewrite andb_false_r. reflexivity. }
    rewrite E, N.eqb_refl. reflexivity.
  - unfold isword. rewrite Hlt.
    apply orb_true_iff in Hletter as [H | H]; rewrite H;
      rewrite ?orb_true_r; reflexivity.
Qed.

(** Literal text under [re.I] takes a text with the same letters in either
    case. *)
Lemma eat_letters (w : str) :
  forall w' bef rest,
    forallb is_ascii_lower w = true -> map ascii_lower w' = w ->
    Re.eat true w bef (w' ++ rest) = Some (rev w' ++ bef, rest).
Proof.
  induction w as [| p w IH]; intros w' bef rest Hw Hm.
  - destruct w'; [reflexivity | discriminate Hm].
  - destruct w' as [| c w']; [discriminate Hm |].
    cbn in Hw, Hm. apply andb_prop in Hw as [Hp Hw]. injection Hm as Hc Hm.
    cbn [Re.eat app]. rewrite (proj1 (lower_letter p c Hp Hc)).
    rewrite (IH w' (c :: bef) rest Hw Hm). cbn [rev]. rewrite <- app_assoc.
    reflexivity.
Qed.

(** After such a text, and before a character that is not of a word, there
    is a word boundary. *)
Lemma boundary_after_letters (w w' bef post : str) :
  w <> [] -> forallb is_ascii_lower w = true -> map ascii_lower w' = w ->
  match post with c :: _ => isword c = false | [] => True end ->
  Re.at_word_boundary (rev w' ++ bef) post = true.
Proof.
  intros Hne Hw Hm Hpost.
  assert (Hall : forall c, In c w' -> isword c = true).
  { intros c Hc. rewrite forallb_forall in Hw.
    apply (lower_letter (ascii_lower c) c); [| reflexivity].
    apply Hw. rewrite <- Hm. apply in_map, Hc. }
  destruct (rev w') as [| y t] eqn:E.
  - apply (f_equal (@rev N)) in E. rewrite rev_involutive in E. subst w'.
    cbn in Hm. congruence.
  - assert (Hy : isword y = true).
    { apply Hall, in_rev. rewrite E. left. reflexivity. }
    unfold Re.at_word_boundary. cbn [app]. rewrite Hy.
    destruct post as [| c post]; [reflexivity |]. rewrite Hpost. reflexivity.
Qed.

Lemma is_match_orelse (x y : option Re.mstate) :
  Re.is_match (Re.orelse x y) = Re.is_match x || Re.is_match y.
Proof. destruct x; reflexivity. Qed.

(** The pattern of the time rule finds each of its three words where it
    stands as a whole word. *)
Lemma time_word_found (s : str) :
  has_time_word s -> Re.is_match (Re.search true Pattern.time s) = true.
Proof.
  assert (Hword : forall w pre w' post g,
             w <> [] -> forallb is_ascii_lower w = true -> map ascii_lower w' = w ->
             match rev pre with c :: _ => isword c = false | [] => True end ->
             match post with c :: _ => isword c = false | [] => True end ->
             Re.at_word_boundary (rev pre) (w' ++ post) = true
             /\ Re.is_match
                  (Re.run true (Re.Chars w -- Re.WordB) Some
                          (Re.MState (rev pre) (w' ++ post) g)) = true).
  { intros w pre w' post g Hne Hw Hm Hpre Hpost. split.
    - unfold Re.at_word_boundary.
      destruct w' as [| c w']; [cbn in Hm; congruence |].
      destruct w as [| p w]; [congruence |].
      cbn in Hw, Hm. apply andb_prop in Hw as [Hp _]. injection Hm as Hc _.
      cbn [app]. rewrite (proj2 (lower_letter p c Hp Hc)).
      destruct (rev pre) as [| y t]; [reflexivity |]. rewrite Hpre. reflexivity.
    - cbn [Re.run Re.before Re.after Re.groups].
      rewrite (eat_letters w w' (rev pre) post Hw Hm).
      rewrite (boundary_after_letters w w' (rev pre) post Hne Hw Hm Hpost).
      reflexivity. }
  unfold Re.search.
  intros [H | [H | H]]; destruct H as (pre & w' & post & -> & Hm & Hpre & Hpost);
    apply search_from_later; rewrite app_nil_r;
    unfold Pattern.time, word;
    cbn [Re.run Re.before Re.after Re.groups];
    match type of Hm with
    | _ = ?w =>
      destruct (Hword w pre w' post [] ltac:(discriminate) eq_refl Hm Hpre Hpost)
        as [Hb Hr]
    end;
    rewrite Hb; cbn [Re.run Re.before Re.after Re.groups] in Hr;
    rewrite !is_match_orelse.
  - destruct (Re.eat true (py "time") _ _) as [[b a] |]; [| discriminate Hr].
    destruct (Re.at_word_boundary b a); [reflexivity | discriminate Hr].
  - destruct (Re.eat true (py "date") _ _) as [[b a] |]; [| discriminate Hr].
    destruct (Re.at_word_boundary b a); [| discriminate Hr].
    cbn. apply orb_true_r.
  - destruct (Re.eat true (py "now") _ _) as [[b a] |]; [| discriminate Hr].
    destruct (Re.at_word_boundary b a); [| discriminate Hr].
    cbn. rewrite !orb_true_r. reflexivity.
Qed.
End WholeWords.

(** ** The router

    [chat] tries its rules in a fixed order. The lemmas below give its
    result rule by rule, each under the tests of the source that lead
    there. *)
Section Router.
Context {U : UnicodeData} {R : Runtime}.
Import ReasoningAgent.

Lemma chat_greeting self user history :
  _is_greeting user = true ->
  chat self user history
  = (AgentReply.mk (or_else (_openai_reply self user (history_of history)) hello_text) [],
     self).
Proof. intros H. unfold chat. rewrite H. reflexivity. Qed.

Lemma chat_remember self user history m :
  _is_greeting user = false ->
  Re.rmatch true Pattern.remember user = Some m ->
  chat self user history
  = (AgentReply.mk (py "Got it — I saved that.")
       [ToolResult.event (fst (FactsStore.remember (facts self) (Re.group m 2) (Re.group m 3)))],
     mk (snd (FactsStore.remember (facts self) (Re.group m 2) (Re.group m 3)))
        (_client self)).
Proof. intros H1 H2. unfold chat. rewrite H1, H2. reflexivity. Qed.

Lemma chat_recall self user history m :
  _is_greeting user = false ->
  Re.rmatch true Pattern.remember user = None ->
  Re.rmatch true Pattern.recall user = Some m ->
  chat self user history
  = (let r := fst (FactsStore.recall (facts self) (Re.group m 2)) in
     (AgentReply.mk (if ToolResult.ok r then ToolResult.content r
                     else py "I don't have that saved yet.")
        [ToolResult.event r],
      self)).
Proof.
  intros H1 H2 H3. unfold chat. rewrite H1, H2, H3. cbv zeta.
  pose proof (recall_keeps_store (facts self) (Re.group m 2)) as Hs.
  destruct (FactsStore.recall (facts self) (Re.group m 2)) as [r f'].
  cbn [fst snd] in *. subst f'. destruct self. reflexivity.
Qed.

Lemma chat_time self user history :
  _is_greeting user = false ->
  Re.rmatch true Pattern.remember user = None ->
  Re.rmatch true Pattern.recall user = None ->
  Re.is_match (Re.search true Pattern.time user) = true ->
  chat self user history
  = (AgentReply.mk (py "The time is " ++ clock_now ++ py ".")
       [ToolEvent.mk (py "clock") (py "") true clock_now],
     self).
Proof. intros H1 H2 H3 H4. unfold chat. rewrite H1, H2, H3, H4. reflexivity. Qed.

Lemma chat_calculator self user history e :
  _is_greeting user = false ->
  Re.rmatch true Pattern.remember user = None ->
  Re.rmatch true Pattern.recall user = None ->
  Re.is_match (Re.search true Pattern.time user) = false ->
  calculator_input user = Some e ->
  chat self user history
  = (AgentReply.mk (if ToolResult.ok (calculator e) then ToolResult.content (calculator e)
                    else py "That expression didn't work for me.")
       [ToolResult.event (calculator e)],
     self).
Proof.
  intros H1 H2 H3 H4 H5. unfold chat. rewrite H1, H2, H3, H4.
  unfold calculator_input in H5. cbv zeta in *. rewrite H5. reflexivity.
Qed.

Lemma chat_followup self user history :
  _is_greeting user = false ->
  Re.rmatch true Pattern.remember user = None ->
  Re.rmatch true Pattern.recall user = None ->
  Re.is_match (Re.search true Pattern.time user) = false ->
  calculator_input user = None ->
  _is_followup user = true ->
  chat self user history
  = (AgentReply.mk
       (match delegate_answer self (followup_prompt user (history_of history))
                (history_of history) with
        | Some a => a
        | None =>
          _local_brief_explanation
            (or_else (_last_assistant_text (history_of history)) (py ""))
            (_last_user_text (history_of history))
        end) [],
     self).
Proof.
  intros H1 H2 H3 H4 H5 H6. unfold chat. rewrite H1, H2, H3, H4.
  unfold calculator_input in H5. cbv zeta in *. rewrite H5, H6.
  unfold delegate_answer, followup_prompt, history_of.
  destruct (_openai_reply self _ _) as [a |]; [destruct (truthy a) |]; reflexivity.
Qed.

Lemma chat_fallback self user history :
  _is_greeting user = false ->
  Re.rmatch true Pattern.remember user = None ->
  Re.rmatch true Pattern.recall user = None ->
  Re.is_match (Re.search true Pattern.time user) = false ->
  calculator_input user = None ->
  _is_followup user = false ->
  chat self user history
  = (AgentReply.mk
       (match delegate_answer self user (history_of history) with
        | Some a => a
        | None => capabilities_text
        end) [],
     self).
Proof.
  intros H1 H2 H3 H4 H5 H6. unfold chat. rewrite H1, H2, H3, H4.
  unfold calculator_input in H5. cbv zeta in *. rewrite H5, H6.
  unfold delegate_answer, history_of.
  destruct (_openai_reply self _ _) as [a |]; [destruct (truthy a) |]; reflexivity.
Qed.

(** The tools an utterance fires are decided by the utterance alone:
    neither the store, the delegate nor the history changes them. *)
Lemma tools_fired_by_utterance (a1 a2 : t) (user : str)
      (h1 h2 : option (list Turn.t)) :
  tools_fired (fst (chat a1 user h1)) = tools_fired (fst (chat a2 user h2)).
Proof.
  destruct (_is_greeting user) eqn:H1.
  { rewrite !chat_greeting by assumption. reflexivity. }
  destruct (Re.rmatch true Pattern.remember user) as [m |] eqn:H2.
  { rewrite !(chat_remember _ _ _ m) by assumption. reflexivity. }
  destruct (Re.rmatch true Pattern.recall user) as [m |] eqn:H3.
  { rewrite !(chat_recall _ _ _ m) by assumption. cbv zeta. unfold tools_fired. cbn [fst AgentReply.tool_events map].
    unfold FactsStore.recall.
    destruct (FactsStore._facts (facts a1) !! _), (FactsStore._facts (facts a2) !! _);
      reflexivity. }
  destruct (Re.is_match (Re.search true Pattern.time user)) eqn:H4.
  { rewrite !chat_time by assumption. reflexivity. }
  destruct (calculator_input user) as [e |] eqn:H5.
  { rewrite !(chat_calculator _ _ _ e) by assumption. reflexivity. }
  destruct (_is_followup user) eqn:H6.
  { rewrite !chat_followup by assumption. reflexivity. }
  rewrite !chat_fallback by assumption. reflexivity.
Qed.

End Router.

(** C3 as the claim states it fails: [recall time] holds the word [time]
    and is handled by the memory, not by the clock. *)
Lemma recall_time_is_not_clock :
  has_time_word (U := ascii_tables) (py "recall time")
  /\ tools_fired
       (fst (ReasoningAgent.chat (U := ascii_tables) (R := sample_runtime)
               (ReasoningAgent.mk FactsStore.__init__ None) (py "recall time") None))
     = [py "facts.recall"].
Proof.
  split; [| vm_compute; reflexivity].
  left. exists (py "recall "), (py "time"), []. repeat split; reflexivity.
Qed.

(** ** The evaluator *)
Section Evaluator.
Context {R : Runtime}.
Import ast.

Lemma bind_raise {A B} (m : result A) (f : A -> result B) (x : exn) :
  m = Raise x -> bind m f = Raise x.
Proof. intros ->. reflexivity. Qed.

(** An exception raised in an operand is raised by the expression, or
    another one is raised before it. *)
Lemma operand_raises (s e : AST) (x : exn) :
  operand_of s e -> _eval s = Raise x -> exists y, _eval e = Raise y.
Proof.
  intros Ho Hs. destruct Ho as [lhs op rhs | lhs op rhs | op e]; cbn.
  - destruct (_ALLOWED op); [| eexists; reflexivity].
    rewrite Hs. eexists; reflexivity.
  - destruct (_ALLOWED op); [| eexists; reflexivity].
    destruct (_eval lhs); [| eexists; reflexivity].
    rewrite Hs. eexists; reflexivity.
  - destruct (_ALLOWED op); [| eexists; reflexivity].
    rewrite Hs. eexists; reflexivity.
Qed.

Lemma part_raises (s e : AST) :
  part_of s e -> forall x, _eval s = Raise x -> exists y, _eval e = Raise y.
Proof.
  induction 1 as [e | s m e _ IH Ho]; intros x Hx.
  - exists x. exact Hx.
  - destruct (IH x Hx) as [y Hy]. exact (operand_raises _ _ _ Ho Hy).
Qed.

(** A division whose divisor is zero raises. *)
Lemma division_by_zero_raises (lhs rhs : AST) (op : opclass) (a b : value) :
  is_division op = true ->
  _eval lhs = Return a -> _eval rhs = Return b ->
  Number.is_zero_value b = true ->
  exists x, _eval (BinOp lhs op rhs) = Raise x.
Proof.
  intros Hop Ha Hb Hz. cbn.
  destruct op; try discriminate Hop; cbn; rewrite Ha, Hb; cbn;
    destruct a as [x | re im], b as [y | re' im']; cbn in *;
    unfold Number.float_div, Number.float_rem, Number.float_floor_div,
           Number.unsupported;
    rewrite ?Hz; eexists; reflexivity.
Qed.

(** C2. When an expression parses and its evaluation divides by zero
    through [/], [%] or [//], the evaluation raises, and the calculator
    returns a failure: [ok = false] in the result and in the event, the
    fixed apology as content, and the exception's message as the event's
    output. *)
Theorem division_by_zero_is_reported (expr : str) (tree : AST) :
  Parser.parse expr = Return tree ->
  divides_by_zero tree ->
  exists x,
    _eval tree = Raise x
    /\ calculator expr
       = ToolResult.mk false (py "Sorry, I couldn't compute that.")
           (ToolEvent.mk (py "calculator") expr false (message x)).
Proof.
  intros Hp (lhs & op & rhs & a & b & Hpart & Hop & Ha & Hb & Hz).
  destruct (division_by_zero_raises lhs rhs op a b Hop Ha Hb Hz) as [x Hx].
  destruct (part_raises _ _ Hpart x Hx) as [y Hy].
  exists y. split; [exact Hy |].
  unfold calculator. rewrite Hp. cbn [bind]. rewrite Hy. reflexivity.
Qed.

(** What evaluates is made of numbers, Boolean constants, the seven binary
    operators and the unary minus: every other construct raises. *)
Lemma evaluated_is_accepted (e : AST) (v : value) :
  _eval e = Return v -> accepted e = true.
Proof.
  revert v. induction e as [c | lhs IHl op rhs IHr | op e IHe | | | | | | | | | | | | |];
    intros v H; try discriminate H.
  - destruct c; try discriminate H; reflexivity.
  - cbn [_eval] in H.
    destruct (_ALLOWED op) as [f |] eqn:Ef; [| discriminate H].
    destruct (_eval lhs) as [a |] eqn:Ea; [| discriminate H].
    destruct (_eval rhs) as [b |] eqn:Eb; [| discriminate H].
    cbn [bind] in H. cbn [accepted]. rewrite (IHl _ eq_refl), (IHr _ eq_refl).
    destruct op; try discriminate Ef; try reflexivity.
    injection Ef as <-. discriminate H.
  - cbn [_eval] in H.
    destruct (_ALLOWED op) as [f |] eqn:Ef; [| discriminate H].
    destruct (_eval e) as [a |] eqn:Ea; [| discriminate H].
    cbn [bind] in H. cbn [accepted].
    destruct op; try discriminate Ef;
      try (injection Ef as <-; discriminate H).
    exact (IHe _ eq_refl).
Qed.
End Evaluator.

(** C2 on [1/0]. *)
Lemma division_by_zero_is_reported_one_over_zero :
  exists x,
    _eval (R := sample_runtime)
      (ast.BinOp (ast.Constant (ast.Int 1)) ast.Div (ast.Constant (ast.Int 0)))
    = Raise x
    /\ calculator (R := sample_runtime) (py "1/0")
       = ToolResult.mk false (py "Sorry, I couldn't compute that.")
           (ToolEvent.mk (py "calculator") (py "1/0") false (message x)).
Proof.
  apply (division_by_zero_is_reported (R := sample_runtime) (py "1/0")).
  - reflexivity.
  - exists (ast.Constant (ast.Int 1)), ast.Div, (ast.Constant (ast.Int 0)),
           (VFloat Float.one), (VFloat Float.zero).
    repeat split; try reflexivity. apply part_self.
Defined.

(** ** Trimming *)
Section Trimming.
Context {U : UnicodeData}.

Lemma lstrip_spec (s : str) :
  exists lead, s = lead ++ lstrip s /\ blank lead
               /\ match lstrip s with [] => True | x :: _ => isspace x = false end.
Proof.
  induction s as [| c s (lead & Hs & Hb & Hh)].
  - exists []. repeat split. constructor.
  - cbn [lstrip]. destruct (isspace c) eqn:Ec.
    + exists (c :: lead). split; [cbn; congruence |]. split; [| exact Hh].
      constructor; assumption.
    + exists []. split; [reflexivity |]. split; [constructor | exact Ec].
Qed.

Lemma blank_rev (s : str) : blank s -> blank (rev s).
Proof. unfold blank. rewrite !List.Forall_forall. intros H x Hx. apply H, in_rev, Hx. Qed.

Lemma strip_decompose (s : str) :
  exists lead trail,
    s = lead ++ strip s ++ trail /\ blank lead /\ blank trail /\ trimmed (strip s).
Proof.
  destruct (lstrip_spec s) as (lead & Hs & Hl & Hh).
  destruct (lstrip_spec (rev (lstrip s))) as (tl & Hr & Ht & Hy).
  exists lead, (rev tl). unfold strip, rstrip.
  assert (Hu : lstrip s = rev (lstrip (rev (lstrip s))) ++ rev tl).
  { rewrite <- rev_app_distr, <- Hr, rev_involutive. reflexivity. }
  split; [rewrite <- Hu; exact Hs |].
  split; [exact Hl |]. split; [apply blank_rev, Ht |].
  split.
  - destruct (rev (lstrip (rev (lstrip s)))) as [| x t] eqn:E; [exact I |].
    rewrite Hu in Hh. exact Hh.
  - rewrite rev_involutive. exact Hy.
Qed.

Lemma lstrip_trimmed (t : str) :
  match t with [] => True | x :: _ => isspace x = false end -> lstrip t = t.
Proof. destruct t as [| x t]; [reflexivity |]. cbn. intros ->. reflexivity. Qed.

Lemma strip_trimmed (t : str) : trimmed t -> strip t = t.
Proof.
  intros [Hh Hl]. unfold strip, rstrip.
  rewrite (lstrip_trimmed t Hh), (lstrip_trimmed (rev t) Hl).
  apply rev_involutive.
Qed.

Lemma strip_strip (s : str) : strip (strip s) = strip s.
Proof.
  destruct (strip_decompose s) as (_ & _ & _ & _ & _ & H).
  apply strip_trimmed, H.
Qed.

Lemma strip_blank_head (c : N) (s : str) :
  isspace c = true -> strip (c :: s) = strip s.
Proof. intros H. unfold strip. cbn [lstrip]. rewrite H. reflexivity. Qed.

Lemma blank_no_visible (s : str) (x : N) :
  blank s -> In x s -> isspace x = false -> False.
Proof.
  unfold blank. rewrite List.Forall_forall. intros H Hx Hf.
  rewrite (H x Hx) in Hf. discriminate Hf.
Qed.

Lemma strip_visible (s : str) :
  (exists x, In x s /\ isspace x = false) -> strip s <> [].
Proof.
  intros (x & Hx & Hf) E.
  destruct (strip_decompose s) as (lead & trail & Hs & Hl & Ht & _).
  rewrite E in Hs. cbn in Hs. rewrite Hs in Hx.
  apply in_app_or in Hx as [Hx | Hx];
    [exact (blank_no_visible _ _ Hl Hx Hf) | exact (blank_no_visible _ _ Ht Hx Hf)].
Qed.
End Trimming.

(** ** Matching: repetition *)
Section Repetition.
Context {U : UnicodeData}.
Variable ic : bool.

Lemma cls_match_ws (c : N) : Re.cls_match ic ws c = isspace c.
Proof. cbn. apply orb_false_r. Qed.

Lemma cls_match_dot (c : N) : Re.cls_match ic dot c = negb (c =? 10).
Proof. cbn. apply orb_false_r. Qed.

(** A greedy repetition that can take all of [w] and no more, and whose
    continuation succeeds there, succeeds with that result. *)
Lemma greedy_all {A} (cl : Re.cls) (k : str -> str -> option A) (w : str) :
  forall bef rest m,
    Forall (fun c => Re.cls_match ic cl c = true) w ->
    match rest with [] => True | c :: _ => Re.cls_match ic cl c = false end ->
    k (rev w ++ bef) rest = Some m ->
    Re.greedy ic cl k bef (w ++ rest) = Some m.
Proof.
  induction w as [| a w IH]; intros bef rest m Hw Hr Hk.
  - destruct rest as [| c rest]; cbn; [exact Hk |]. rewrite Hr. exact Hk.
  - inversion Hw as [| ? ? Ha Hw']; subst. cbn. rewrite Ha.
    rewrite (IH (a :: bef) rest m Hw' Hr); [reflexivity |].
    cbn in Hk. rewrite <- app_assoc in Hk. exact Hk.
Qed.

(** A greedy repetition fails when its continuation fails after each of
    the prefixes it can take. *)
Lemma greedy_none {A} (cl : Re.cls) (k : str -> str -> option A) (s : str) :
  forall bef,
    (forall w rest, s = w ++ rest ->
                    Forall (fun c => Re.cls_match ic cl c = true) w ->
                    k (rev w ++ bef) rest = None) ->
    Re.greedy ic cl k bef s = None.
Proof.
  induction s as [| a s IH]; intros bef H.
  - exact (H [] [] eq_refl (List.Forall_nil _)).
  - cbn. destruct (Re.cls_match ic cl a) eqn:Ea.
    + rewrite IH.
      * exact (H [] (a :: s) eq_refl (List.Forall_nil _)).
      * intros w rest Hs Hw.
        specialize (H (a :: w) rest). cbn in H. rewrite <- app_assoc in H.
        apply H; [rewrite Hs; reflexivity | constructor; assumption].
    + exact (H [] (a :: s) eq_refl (List.Forall_nil _)).
Qed.

Lemma lazy_eq {A} (cl : Re.cls) (k : str -> str -> option A) (bef aft : str) :
  Re.lazy ic cl k bef aft
  = match k bef aft with
    | Some m => Some m
    | None =>
      match aft with
      | c :: aft' => if Re.cls_match ic cl c then Re.lazy ic cl k (c :: bef) aft' else None
      | [] => None
      end
    end.
Proof. destruct aft; reflexivity. Qed.

(** A lazy repetition stops at the first prefix after which its
    continuation succeeds. *)
Lemma lazy_first {A} (cl : Re.cls) (k : str -> str -> option A) (p : str) :
  forall bef rest m,
    Forall (fun c => Re.cls_match ic cl c = true) p ->
    (forall q q', p = q ++ q' -> q' <> [] -> k (rev q ++ bef) (q' ++ rest) = None) ->
    k (rev p ++ bef) rest = Some m ->
    Re.lazy ic cl k bef (p ++ rest) = Some m.
Proof.
  induction p as [| a p IH]; intros bef rest m Hp Hq Hk; rewrite lazy_eq.
  - cbn in *. rewrite Hk. reflexivity.
  - pose proof (Hq [] (a :: p) eq_refl ltac:(discriminate)) as H0.
    cbn [rev app] in H0. cbn [app]. rewrite H0.
    inversion Hp as [| ? ? Ha Hp']; subst. rewrite Ha.
    apply IH; [exact Hp' | |].
    + intros q q' Hs Hne. specialize (Hq (a :: q) q'). cbn in Hq.
      rewrite <- app_assoc in Hq. apply Hq; [rewrite Hs; reflexivity | exact Hne].
    + cbn in Hk. rewrite <- app_assoc in Hk. exact Hk.
Qed.

(** Where a blank prefix of [q' ++ rest] ends, when [q'] has a character
    that is not a blank: inside [q']. *)
Lemma after_blank_prefix (w r q' rest : str) :
  w ++ r = q' ++ rest -> blank w ->
  (exists y, In y q' /\ isspace y = false) ->
  exists z r', r = z :: r' /\ In z q'.
Proof.
  revert q'. induction w as [| c w IH]; intros q' Hs Hw (y & Hy & Hf).
  - destruct q' as [| z t]; [destruct Hy |]. cbn in Hs. subst r.
    exists z, (t ++ rest). split; [reflexivity | left; reflexivity].
  - destruct q' as [| z t]; [destruct Hy |].
    cbn in Hs. injection Hs as Hc Hs. subst z.
    inversion Hw as [| ? ? Hc Hw']; subst.
    destruct Hy as [Hy | Hy]; [subst y; congruence |].
    destruct (IH t Hs Hw' (ex_intro _ y (conj Hy Hf))) as (z & r' & Hr & Hz).
    exists z, r'. split; [exact Hr | right; exact Hz].
Qed.

Lemma matched_app (bef p a a' : str) (g g' : list (nat * str)) :
  Re.matched (Re.MState bef a g) (Re.MState (rev p ++ bef) a' g') = p.
Proof.
  unfold Re.matched. cbn [Re.before].
  rewrite length_app, length_rev.
  replace (List.length p + List.length bef - List.length bef)%nat
    with (List.length (rev p)) by (rewrite length_rev; lia).
  rewrite take_app_length. apply rev_involutive.
Qed.
End Repetition.

(** ** Matching: the memory-write pattern *)
Section RememberPattern.
Context {U : UnicodeData}.
Local Open Scope re_scope.

Lemma blank_cls (w : str) :
  blank w -> Forall (fun c => Re.cls_match true ws c = true) w.
Proof.
  unfold blank. rewrite !List.Forall_forall. intros H x Hx.
  rewrite cls_match_ws. apply H, Hx.
Qed.

Lemma cls_blank (w : str) :
  Forall (fun c => Re.cls_match true ws c = true) w -> blank w.
Proof.
  unfold blank. rewrite !List.Forall_forall. intros H x Hx.
  rewrite <- (cls_match_ws true). apply H, Hx.
Qed.

Lemma no_line_feed_cls (p : str) :
  ~ In 10 p -> Forall (fun c => Re.cls_match true dot c = true) p.
Proof.
  intros H. apply List.Forall_forall. intros c Hc. rewrite cls_match_dot.
  destruct (N.eqb_spec c 10) as [-> | _]; [contradiction | reflexivity].
Qed.

(** The last character of a text that does not end with a blank is in
    each of its suffixes. *)
Lemma suffix_visible (q q' : str) :
  q' <> [] ->
  match rev (q ++ q') with [] => True | y :: _ => isspace y = false end ->
  exists y, In y q' /\ isspace y = false.
Proof.
  intros Hne H. rewrite rev_app_distr in H.
  destruct (rev q') as [| y r] eqn:E.
  - apply (f_equal (@rev N)) in E. rewrite rev_involutive in E. contradiction.
  - exists y. split; [| exact H].
    apply in_rev. rewrite E. left. reflexivity.
Qed.

Lemma matched_cons (bef p a a' : str) (x : N) (g g' : list (nat * str)) :
  Re.matched (Re.MState bef a g) (Re.MState (rev p ++ x :: bef) a' g') = x :: p.
Proof.
  replace (rev p ++ x :: bef) with (rev (x :: p) ++ bef)
    by (cbn; rewrite <- app_assoc; reflexivity).
  apply matched_app.
Qed.

(** [\s*(.+?)\s*$] on a text without line feed takes the text trimmed as
    its group. *)
Lemma value_part (bef lead core trail : str) (g : list (nat * str)) :
  blank lead -> blank trail -> trimmed core -> core <> [] -> ~ In 10 core ->
  exists bef',
    Re.run true (Re.Star ws -- Re.Group 3 (Re.PlusLazy dot) -- Re.Star ws -- Re.Eol)
           Some (Re.MState bef (lead ++ core ++ trail) g)
    = Some (Re.MState bef' [] ((3%nat, core) :: g)).
Proof.
  intros Hl Ht [Hh Hy] Hne Hnl.
  destruct core as [| x core']; [contradiction |].
  eexists. cbn [Re.run Re.before Re.after Re.groups].
  apply greedy_all; [apply blank_cls, Hl | cbn [app]; rewrite cls_match_ws; exact Hh |].
  unfold Re.one. cbn [app]. rewrite cls_match_dot.
  destruct (N.eqb_spec x 10) as [-> | _]; [exfalso; apply Hnl; left; reflexivity |].
  cbn [negb].
  apply lazy_first.
  - apply no_line_feed_cls. intros H. apply Hnl. right. exact H.
  - intros q q' Hs Hq. apply greedy_none. intros w r Hw Hb.
    assert (Hv : exists y, In y q' /\ isspace y = false).
    { apply (suffix_visible (x :: q) q' Hq). cbn [app]. rewrite <- Hs. exact Hy. }
    destruct (after_blank_prefix w r q' trail (eq_sym Hw) (cls_blank _ Hb) Hv)
      as (z & r' & -> & Hz).
    assert (Hz10 : z <> 10).
    { intros ->. apply Hnl. right. rewrite Hs. apply in_or_app. right. exact Hz. }
    cbn [Re.at_end]. destruct r'; [| reflexivity].
    destruct (N.eqb_spec z 10); [contradiction | reflexivity].
  - rewrite <- (app_nil_r trail) at 1.
    apply greedy_all; [apply blank_cls, Ht | exact I |].
    cbn [Re.at_end]. rewrite matched_cons. reflexivity.
Qed.

Lemma run_seq (r1 r2 : Re.regex) (k : Re.mstate -> option Re.mstate) (st : Re.mstate) :
  Re.run true (r1 -- r2) k st = Re.run true r1 (Re.run true r2 k) st.
Proof. reflexivity. Qed.

(** [(.+?)\s*=] followed by the value: when the text starts with a key
    that holds no [=] and no line feed and is trimmed, the key is the
    group. *)
Lemma key_part (bef core trail lead vcore vtrail : str) (g : list (nat * str)) :
  trimmed core -> core <> [] -> ~ In 10 core -> ~ In 61 core -> blank trail ->
  blank lead -> blank vtrail -> trimmed vcore -> vcore <> [] -> ~ In 10 vcore ->
  exists bef',
    Re.run true
      (Re.Group 2 (Re.PlusLazy dot) -- Re.Star ws -- Re.Chars [61] -- Re.Star ws
       -- Re.Group 3 (Re.PlusLazy dot) -- Re.Star ws -- Re.Eol)
      Some (Re.MState bef (core ++ trail ++ 61 :: lead ++ vcore ++ vtrail) g)
    = Some (Re.MState bef' [] ((3%nat, vcore) :: (2%nat, core) :: g)).
Proof.
  intros [Hh Hy] Hne Hnl Hneq Ht Hl Hvt Hv Hvne Hvnl.
  destruct core as [| x core']; [contradiction |].
  destruct (value_part (61 :: rev trail ++ rev core' ++ x :: bef) lead vcore vtrail
              ((2%nat, x :: core') :: g) Hl Hvt Hv Hvne Hvnl) as [bef' Hval].
  exists bef'.
  cbn [Re.run Re.before Re.after Re.groups] in *.
  unfold Re.one. cbn [app]. rewrite cls_match_dot.
  destruct (N.eqb_spec x 10) as [-> | _]; [exfalso; apply Hnl; left; reflexivity |].
  cbn [negb].
  apply lazy_first.
  - apply no_line_feed_cls. intros H. apply Hnl. right. exact H.
  - intros q q' Hs Hq.
    apply greedy_none. intros w r Hw Hb.
    assert (Hvis : exists y, In y q' /\ isspace y = false).
    { apply (suffix_visible (x :: q) q' Hq). cbn [app]. rewrite <- Hs. exact Hy. }
    destruct (after_blank_prefix w r q' _ (eq_sym Hw) (cls_blank _ Hb) Hvis)
      as (z & r' & -> & Hz).
    assert (Hz61 : z <> 61).
    { intros ->. apply Hneq. right. rewrite Hs. apply in_or_app. right. exact Hz. }
    cbn [Re.eat]. unfold Re.lit_match.
    replace (Re.is_ascii_letter 61) with false by reflexivity. cbn [andb].
    destruct (N.eqb_spec z 61); [contradiction | reflexivity].
  - apply greedy_all; [apply blank_cls, Ht | reflexivity |].
    cbn [Re.eat]. unfold Re.lit_match.
    replace (Re.is_ascii_letter 61) with false by reflexivity.
    cbn [andb]. rewrite N.eqb_refl.
    rewrite matched_cons.
    exact Hval.
Qed.

Lemma eat_self (s bef rest : str) :
  forallb (fun c => Re.lit_match true c c) s = true ->
  Re.eat true s bef (s ++ rest) = Some (rev s ++ bef, rest).
Proof.
  revert bef. induction s as [| c s IH]; intros bef H; [reflexivity |].
  cbn in H. apply andb_prop in H as [Hc Hs].
  cbn [Re.eat app]. rewrite Hc, (IH _ Hs). cbn [rev]. rewrite <- app_assoc.
  reflexivity.
Qed.

(** The whole pattern on [remember <a>=<R>], with [a] and [R] given by
    their blank margins and their trimmed cores. *)
Lemma remember_match_parts (la sa ta lr sR tr : str) :
  blank la -> blank ta -> trimmed sa -> sa <> [] -> ~ In 10 sa -> ~ In 61 sa ->
  blank lr -> blank tr -> trimmed sR -> sR <> [] -> ~ In 10 sR ->
  exists m,
    Re.rmatch true Pattern.remember
      (py "remember " ++ (la ++ sa ++ ta) ++ 61 :: (lr ++ sR ++ tr)) = Some m
    /\ Re.group m 2 = sa /\ Re.group m 3 = sR.
Proof.
  intros Hla Hta Htra Hane Hanl Haeq Hlr Htr HtrR HRne HRnl.
  set (remember_ := [114; 101; 109; 101; 109; 98; 101; 114]).
  destruct (key_part (rev la ++ 32 :: rev remember_ ++ []) sa ta lr sR tr
              [(1%nat, remember_)] Htra Hane Hanl Haeq Hta Hlr Htr HtrR HRne HRnl)
    as [bef' Hkey].
  exists (Re.MState bef' [] [(3%nat, sR); (2%nat, sa); (1%nat, remember_)]).
  split; [| split; reflexivity].
  unfold Re.rmatch, Pattern.remember, word.
  replace (py "remember ") with (remember_ ++ [32]) by reflexivity.
  replace (py "remember") with remember_ by reflexivity.
  replace (py "save") with [115; 97; 118; 101] by reflexivity.
  replace (py "=") with [61] by reflexivity.
  rewrite <- !app_assoc.
  cbn [Re.run Re.before Re.after Re.groups] in *.
  apply (greedy_all true ws _ []); [constructor | reflexivity |].
  cbv beta. change (rev [] ++ []) with (@nil N).
  match goal with
  | |- context [Re.eat true remember_ [] ?s] =>
    change s with (remember_ ++ 32 :: la ++ sa ++ ta ++ 61 :: lr ++ sR ++ tr)
  end.
  rewrite eat_self by reflexivity.
  unfold Re.one at 1. cbn [app]. rewrite cls_match_ws.
  replace (isspace 32) with true by reflexivity.
  match goal with |- Re.orelse ?x _ = _ => assert (Hx : x = Some (Re.MState bef' [] [(3%nat, sR); (2%nat, sa); (1%nat, remember_)])); [| rewrite Hx; reflexivity] end.
  destruct Htra as [Hh Hy].
  destruct sa as [| x sa']; [contradiction |].
  apply greedy_all; [apply blank_cls, Hla | cbn [app]; rewrite cls_match_ws; exact Hh |].
  rewrite !matched_app.
  exact Hkey.
Qed.

End RememberPattern.

(** ** The memory-write rule *)
Section MemoryWrite.
Context {U : UnicodeData} {R : Runtime}.
Import ReasoningAgent.

Lemma not_greeting_r (rest : str) : _is_greeting (114 :: rest) = false.
Proof. vm_compute. reflexivity. Qed.

Lemma strip_keeps_visible (s : str) (x : N) :
  In x s -> isspace x = false -> In x (strip s).
Proof.
  intros Hx Hf.
  destruct (strip_decompose s) as (lead & trail & Hs & Hl & Ht & _).
  rewrite Hs in Hx. apply in_app_or in Hx as [Hx | Hx].
  - destruct (blank_no_visible _ _ Hl Hx Hf).
  - apply in_app_or in Hx as [Hx | Hx]; [exact Hx |].
    destruct (blank_no_visible _ _ Ht Hx Hf).
Qed.

(** C9, as amended. On [remember <a> = <b> = <c>], where [a] has a
    character that is not a blank, no [=] and no line feed, and [b] and
    [c] have no line feed, the utterance is split at its first [=]: the key
    stored is [a] trimmed and lower-cased, the value stored is
    [<b> = <c>] trimmed, and it holds an [=]. *)
Theorem remember_splits_at_first_equals (self : t) (a b c : str)
        (history : option (list Turn.t)) :
  (exists x, In x a /\ isspace x = false) ->
  ~ In 61 a -> ~ In 10 a -> ~ In 10 b -> ~ In 10 c ->
  let user := py "remember " ++ a ++ py " = " ++ b ++ py " = " ++ c in
  let k := lower (strip a) in
  let v := strip (b ++ py " = " ++ c) in
  chat self user history
  = (AgentReply.mk (py "Got it — I saved that.")
       [ToolEvent.mk (py "facts.remember") (k ++ py "=" ++ v) true (py "Saved.")],
     mk (FactsStore.mk (<[k := v]> (FactsStore._facts (facts self)))) (_client self))
  /\ In 61 v.
Proof.
  intros Ha Haeq Hanl Hbnl Hcnl. cbv zeta.
  replace (py " = ") with [32; 61; 32] by reflexivity.
  set (rest := b ++ [32; 61; 32] ++ c).
  set (user := py "remember " ++ a ++ [32; 61; 32] ++ rest).
  assert (Hrnl : ~ In 10 rest).
  { subst rest. intros H. apply in_app_or in H as [H | H]; [exact (Hbnl H) |].
    apply in_app_or in H as [H | H]; [| exact (Hcnl H)].
    repeat (destruct H as [H | H]; [discriminate H |]). exact H. }
  assert (Hrv : In 61 rest /\ isspace 61 = false).
  { split; [| reflexivity]. subst rest. apply in_or_app. right.
    right. left. reflexivity. }
  destruct (strip_decompose a) as (la & ta & Hsa & Hla & Hta & Htra).
  destruct (strip_decompose rest) as (lr & tr & Hsr & Hlr & Htr & Htrr).
  pose proof (strip_visible a Ha) as Hane.
  pose proof (strip_visible rest (ex_intro _ 61 Hrv)) as Hrne.
  assert (Hanl' : ~ In 10 (strip a)).
  { intros H. apply Hanl. rewrite Hsa. apply in_or_app. right.
    apply in_or_app. left. exact H. }
  assert (Haeq' : ~ In 61 (strip a)).
  { intros H. apply Haeq. rewrite Hsa. apply in_or_app. right.
    apply in_or_app. left. exact H. }
  assert (Hrnl' : ~ In 10 (strip rest)).
  { intros H. apply Hrnl. rewrite Hsr. apply in_or_app. right.
    apply in_or_app. left. exact H. }
  assert (Hta' : blank (ta ++ [32])).
  { apply Forall_app. split; [exact Hta |]. constructor; [reflexivity | constructor]. }
  assert (Hlr' : blank (32 :: lr)).
  { constructor; [reflexivity | exact Hlr]. }
  destruct (remember_match_parts la (strip a) (ta ++ [32]) (32 :: lr) (strip rest) tr
              Hla Hta' Htra Hane Hanl' Haeq' Hlr' Htr Htrr Hrne Hrnl')
    as (m & Hm & H2 & H3).
  assert (Hu : user
               = py "remember "
                 ++ (la ++ strip a ++ ta ++ [32]) ++ 61 :: (32 :: lr) ++ strip rest ++ tr).
  { subst user. f_equal.
    transitivity ((la ++ strip a ++ ta) ++ [32; 61; 32] ++ lr ++ strip rest ++ tr).
    - rewrite <- Hsa, <- Hsr. reflexivity.
    - rewrite <- !app_assoc. reflexivity. }
  rewrite <- Hu in Hm.
  split.
  - rewrite (chat_remember self user history m); [| | exact Hm].
    + rewrite H2, H3. unfold FactsStore.remember. cbn [fst snd ToolResult.event].
      rewrite !strip_strip. reflexivity.
    + subst user. apply not_greeting_r.
  - apply strip_keeps_visible; [apply Hrv | reflexivity].
Qed.
End MemoryWrite.

(** C9 as the claim states it fails: [remember == 5] stores the value [5]
    under the key [=]. *)
Lemma remember_key_with_equals_sign :
  let a1 :=
    snd (ReasoningAgent.chat (U := ascii_tables) (R := sample_runtime)
           (ReasoningAgent.mk FactsStore.__init__ None) (py "remember == 5") None) in
  FactsStore._facts (ReasoningAgent.facts a1) !! [61] = Some (py "5")
  /\ In 61 [61].
Proof. split; [vm_compute; reflexivity | left; reflexivity]. Qed.

(** C9 on [remember Project = Apollo = 11]. *)
Lemma remember_splits_project_apollo :
  let self := ReasoningAgent.mk FactsStore.__init__ None in
  ReasoningAgent.chat (U := ascii_tables) (R := sample_runtime) self
    (py "remember " ++ py "Project" ++ py " = " ++ py "Apollo" ++ py " = " ++ py "11")
    None
  = (AgentReply.mk (py "Got it — I saved that.")
       [ToolEvent.mk (py "facts.remember") (py "project=Apollo = 11") true (py "Saved.")],
     ReasoningAgent.mk
       (FactsStore.mk (<[py "project" := py "Apollo = 11"]> ∅)) None)
  /\ In 61 (py "Apollo = 11").
Proof.
  apply (remember_splits_at_first_equals (U := ascii_tables) (R := sample_runtime)
           (ReasoningAgent.mk FactsStore.__init__ None)
           (py "Project") (py "Apollo") (py "11") None).
  - exists 80. split; [left; reflexivity | reflexivity].
  - intros H. repeat (destruct H as [H | H]; [discriminate H |]). exact H.
  - intros H. repeat (destruct H as [H | H]; [discriminate H |]). exact H.
  - intros H. repeat (destruct H as [H | H]; [discriminate H |]). exact H.
  - intros H. repeat (destruct H as [H | H]; [discriminate H |]). exact H.
Defined.

(** ** Numbers as text: integers *)
Section IntegerText.
Local Open Scope Z_scope.
Import Repr.








End IntegerText.

(** ** The calculator's text *)
Section CalculatorText.
Context {R : Runtime}.

End CalculatorText.



(** * Further properties *)

(** ** The store *)
Section StoreFrame.
Context {U : UnicodeData}.
Import FactsStore.

(** X1. Remembering under one key leaves every other key as it was: a
    recall of a key with another normal form gives the same result before
    and after. *)
Theorem remember_keeps_other_keys (s : t) (k v k' : str) :
  lower (strip k') <> lower (strip k) ->
  fst (recall (snd (remember s k v)) k') = fst (recall s k').
Proof.
  intros Hne. unfold recall. rewrite remember_store.
  rewrite lookup_insert_ne by (intros E; apply Hne; symmetry; exact E).
  destruct (_facts s !! lower (strip k')); reflexivity.
Qed.
End StoreFrame.

(** X1 on a store that holds [project]: remembering [owner] does not touch
    it. *)
Lemma remember_keeps_other_keys_project :
  let s := snd (FactsStore.remember (U := ascii_tables) FactsStore.__init__
                  (py "project") (py "Apollo")) in
  fst (FactsStore.recall (U := ascii_tables)
         (snd (FactsStore.remember (U := ascii_tables) s (py "Owner") (py "Ada")))
         (py "project"))
  = fst (FactsStore.recall (U := ascii_tables) s (py "project")).
Proof.
  intros s.
  apply (remember_keeps_other_keys (U := ascii_tables) s (py "Owner") (py "Ada")
           (py "project")).
  vm_compute. discriminate.
Defined.

(** ** The calculator *)
Section CalculatorOutcomes.
Context {R : Runtime}.
Import ast.

(** X2. When the calculator succeeds, the text it was given parsed to an
    expression made only of numeric (or Boolean) constants, the seven
    binary operators of [_ALLOWED] and the unary minus: no name, call,
    attribute, string, comparison or other construct is ever evaluated. *)
Theorem calculator_success_is_whitelisted (expr : str) :
  ToolResult.ok (calculator expr) = true ->
  exists tree v,
    Parser.parse expr = Return tree /\ _eval tree = Return v
    /\ accepted tree = true
    /\ calculator expr
       = ToolResult.mk true (Repr.str_of v)
           (ToolEvent.mk (py "calculator") expr true (Repr.str_of v)).
Proof.
  unfold calculator.
  destruct (Parser.parse expr) as [tree | x] eqn:Hp; cbn [bind];
    [| intros H; discriminate H].
  destruct (_eval tree) as [v | x] eqn:Hv; [| intros H; discriminate H].
  intros _. exists tree, v. repeat split.
  - exact Hv.
  - exact (evaluated_is_accepted tree v Hv).
Qed.

Lemma float_binary_is_float (f : pyfun) (x y : spec_float) (v : value) :
  f <> operator_pow -> Number.float_binary f x y = Return v ->
  exists z, v = VFloat z.
Proof.
  intros Hf H. destruct f; try (exfalso; apply Hf; reflexivity);
    cbn [Number.float_binary] in H;
    unfold Number.float_div, Number.float_rem, Number.float_floor_div, raise in H;
    try discriminate H;
    try (destruct (Float.is_zero y); [discriminate H |]);
    injection H as <-; eexists; reflexivity.
Qed.

(** X3. An expression without [**] that evaluates gives a float: complex
    results come from powers only. *)
Theorem evaluation_without_power_is_float (e : AST) (v : value) :
  uses_power e = false -> _eval e = Return v -> exists x, v = VFloat x.
Proof.
  revert v.
  induction e as [c | lhs IHl op rhs IHr | op e IHe | | | | | | | | | | | | |];
    intros v Hp H; try discriminate H.
  - destruct c; try discriminate H.
    + cbn in H. unfold Number.float_of_int in H.
      destruct (Float.is_inf (Float.of_Z n)); [discriminate H |].
      injection H as <-. eexists; reflexivity.
    + injection H as <-. eexists; reflexivity.
    + injection H as <-. eexists; reflexivity.
  - cbn [_eval] in H.
    destruct (_ALLOWED op) as [f |] eqn:Ef; [| discriminate H].
    destruct (_eval lhs) as [a |] eqn:Ea; [| discriminate H].
    destruct (_eval rhs) as [b |] eqn:Eb; [| discriminate H].
    cbn [bind] in H. cbn [uses_power] in Hp.
    assert (Hop : op <> Pow) by (intros ->; discriminate Hp).
    assert (Hlr : uses_power lhs = false /\ uses_power rhs = false).
    { destruct op; try congruence; apply orb_false_elim in Hp; exact Hp. }
    destruct (IHl a (proj1 Hlr) eq_refl) as [x ->].
    destruct (IHr b (proj2 Hlr) eq_refl) as [y ->].
    destruct op; try discriminate Ef; try congruence;
      injection Ef as <-; cbn [Number.call Number.binary] in H;
      try discriminate H;
      refine (float_binary_is_float _ x y v _ H); discriminate.
  - cbn [_eval] in H.
    destruct (_ALLOWED op) as [f |] eqn:Ef; [| discriminate H].
    destruct (_eval e) as [a |] eqn:Ea; [| discriminate H].
    cbn [bind] in H. cbn [uses_power] in Hp.
    destruct (IHe a Hp eq_refl) as [x ->].
    destruct op; try discriminate Ef; injection Ef as <-;
      cbn [Number.call Number.negative] in H; try discriminate H.
    injection H as <-. eexists; reflexivity.
Qed.

(** X4. The calculator does not recover from a failing part: when any
    part of the parsed expression raises, whatever its place (so also in
    [0 * (1/0)]), the result is the failure with the fixed apology. *)
Theorem failing_part_fails_calculator (expr : str) (tree s : AST) (x : exn) :
  Parser.parse expr = Return tree ->
  part_of s tree -> _eval s = Raise x ->
  exists y,
    calculator expr
    = ToolResult.mk false (py "Sorry, I couldn't compute that.")
        (ToolEvent.mk (py "calculator") expr false (message y)).
Proof.
  intros Hp Hpart Hx.
  destruct (part_raises s tree Hpart x Hx) as [y Hy].
  exists y. unfold calculator. rewrite Hp. cbn [bind]. rewrite Hy. reflexivity.
Qed.

(** X5. Zero raised to a negative finite power is reported like a division
    by zero: the calculator fails, and the event carries the message of
    Python's [ZeroDivisionError]. *)
Theorem zero_to_negative_power_is_reported
        (expr : str) (lhs rhs : AST) (x y : spec_float) :
  Parser.parse expr = Return (BinOp lhs Pow rhs) ->
  _eval lhs = Return (VFloat x) -> _eval rhs = Return (VFloat y) ->
  Float.is_zero x = true ->
  Float.ltb y Float.zero = true -> Float.is_inf y = false ->
  _eval (BinOp lhs Pow rhs)
  = Raise (Exn ZeroDivisionError (py "0.0 cannot be raised to a negative power"))
  /\ calculator expr
     = ToolResult.mk false (py "Sorry, I couldn't compute that.")
         (ToolEvent.mk (py "calculator") expr false
            (py "0.0 cannot be raised to a negative power")).
Proof.
  intros Hp Hl Hr Hz Hneg Hinf.
  assert (He : _eval (BinOp lhs Pow rhs)
               = Raise (Exn ZeroDivisionError
                          (py "0.0 cannot be raised to a negative power"))).
  { cbn [_eval _ALLOWED]. rewrite Hl, Hr. cbn [bind Number.call Number.binary Number.float_binary].
    unfold Number.float_pow.
    destruct y as [sy | sy | | sy my ey]; try discriminate Hneg; try discriminate Hinf.
    destruct x as [sx | sx | | sx mx ex]; try discriminate Hz.
    cbn [Float.is_zero Float.is_nan Float.is_inf]. rewrite Hneg. reflexivity. }
  split; [exact He |].
  unfold calculator. rewrite Hp. cbn [bind]. rewrite He. reflexivity.
Qed.
End CalculatorOutcomes.

(** X2 on [-(1+2)*3]. *)
Lemma calculator_success_is_whitelisted_example :
  exists tree v,
    Parser.parse (py "-(1+2)*3") = Return tree
    /\ _eval (R := sample_runtime) tree = Return v
    /\ accepted tree = true
    /\ calculator (R := sample_runtime) (py "-(1+2)*3")
       = ToolResult.mk true (Repr.str_of v)
           (ToolEvent.mk (py "calculator") (py "-(1+2)*3") true (Repr.str_of v)).
Proof.
  apply (calculator_success_is_whitelisted (R := sample_runtime) (py "-(1+2)*3")).
  vm_compute. reflexivity.
Defined.

(** X3 on [7 // 2 - 0]. *)
Lemma evaluation_without_power_is_float_example :
  let e :=
    ast.BinOp
      (ast.BinOp (ast.Constant (ast.Int 7)) ast.FloorDiv (ast.Constant (ast.Int 2)))
      ast.Sub (ast.Constant (ast.Int 0)) in
  uses_power e = false
  /\ _eval (R := sample_runtime) e = Return (VFloat (Float.of_Z 3))
  /\ exists x, VFloat (Float.of_Z 3) = VFloat x.
Proof.
  intros e.
  assert (Hp : uses_power e = false) by reflexivity.
  assert (He : _eval (R := sample_runtime) e = Return (VFloat (Float.of_Z 3)))
    by (vm_compute; reflexivity).
  split; [exact Hp |]. split; [exact He |].
  exact (evaluation_without_power_is_float (R := sample_runtime) e
           (VFloat (Float.of_Z 3)) Hp He).
Defined.

(** X4 on [0 * (1/0)]. *)
Lemma failing_part_fails_calculator_example :
  exists y,
    calculator (R := sample_runtime) (py "0 * (1/0)")
    = ToolResult.mk false (py "Sorry, I couldn't compute that.")
        (ToolEvent.mk (py "calculator") (py "0 * (1/0)") false (message y)).
Proof.
  apply (failing_part_fails_calculator (R := sample_runtime) (py "0 * (1/0)")
           (ast.BinOp (ast.Constant (ast.Int 0)) ast.Mult
              (ast.BinOp (ast.Constant (ast.Int 1)) ast.Div
                         (ast.Constant (ast.Int 0))))
           (ast.BinOp (ast.Constant (ast.Int 1)) ast.Div (ast.Constant (ast.Int 0)))
           (Exn ZeroDivisionError (py "float division by zero"))).
  - vm_compute. reflexivity.
  - eapply part_operand; [apply part_self | apply operand_right].
  - vm_compute. reflexivity.
Defined.

(** X5 on [0 ** -1]. *)
Lemma zero_to_negative_power_is_reported_example :
  _eval (R := sample_runtime)
    (ast.BinOp (ast.Constant (ast.Int 0)) ast.Pow
               (ast.UnaryOp ast.USub (ast.Constant (ast.Int 1))))
  = Raise (Exn ZeroDivisionError (py "0.0 cannot be raised to a negative power"))
  /\ calculator (R := sample_runtime) (py "0 ** -1")
     = ToolResult.mk false (py "Sorry, I couldn't compute that.")
         (ToolEvent.mk (py "calculator") (py "0 ** -1") false
            (py "0.0 cannot be raised to a negative power")).
Proof.
  apply (zero_to_negative_power_is_reported (R := sample_runtime) (py "0 ** -1")
           (ast.Constant (ast.Int 0))
           (ast.UnaryOp ast.USub (ast.Constant (ast.Int 1)))
           (S754_zero false) (Float.neg Float.one)).
  - vm_compute. reflexivity.
  - reflexivity.
  - vm_compute. reflexivity.
  - reflexivity.
  - vm_compute. reflexivity.
  - reflexivity.
Defined.

(** ** The router, rule by rule *)

(** The case analysis of [chat]: one goal per rule, each rewritten with
    the rule's equation. *)
Ltac by_rule user :=
  let m := fresh "m" in
  let e := fresh "e" in
  destruct (_is_greeting user) eqn:Hgreet;
  [ rewrite ?chat_greeting by assumption
  | destruct (Re.rmatch true Pattern.remember user) as [m |] eqn:Hremember;
    [ rewrite ?(chat_remember _ _ _ m) by assumption
    | destruct (Re.rmatch true Pattern.recall user) as [m |] eqn:Hrecall;
      [ rewrite ?(chat_recall _ _ _ m) by assumption
      | destruct (Re.is_match (Re.search true Pattern.time user)) eqn:Htime;
        [ rewrite ?chat_time by assumption
        | destruct (calculator_input user) as [e |] eqn:Hcalc;
          [ rewrite ?(chat_calculator _ _ _ e) by assumption
          | destruct (_is_followup user) eqn:Hfollowup;
            [ rewrite ?chat_followup by assumption
            | rewrite ?chat_fallback by assumption ] ] ] ] ] ].

Section RouterInvariants.
Context {U : UnicodeData} {R : Runtime}.
Import ReasoningAgent.

Lemma calculator_event_ok (e : str) :
  ToolEvent.name (ToolResult.event (calculator e)) = py "calculator"
  /\ ToolEvent.ok (ToolResult.event (calculator e)) = ToolResult.ok (calculator e)
  /\ (ToolResult.ok (calculator e) = true ->
      ToolEvent.output (ToolResult.event (calculator e))
      = ToolResult.content (calculator e)).
Proof.
  unfold calculator.
  destruct (tree <- Parser.parse e;; _eval tree); repeat split; intros H; discriminate H.
Qed.

Lemma reply_of_event_remember (input output : str) (ok : bool) :
  reply_of_event (ToolEvent.mk (py "facts.remember") input ok output)
  = Some (py "Got it — I saved that.").
Proof. vm_compute. reflexivity. Qed.

Lemma reply_of_event_recall (input output : str) (ok : bool) :
  reply_of_event (ToolEvent.mk (py "facts.recall") input ok output)
  = Some (if ok then output else py "I don't have that saved yet.").
Proof. destruct ok; vm_compute; reflexivity. Qed.

Lemma reply_of_event_clock (input output : str) (ok : bool) :
  reply_of_event (ToolEvent.mk (py "clock") input ok output)
  = Some (py "The time is " ++ output ++ py ".").
Proof. vm_compute. reflexivity. Qed.

Lemma reply_of_event_calculator (input output : str) (ok : bool) :
  reply_of_event (ToolEvent.mk (py "calculator") input ok output)
  = Some (if ok then output else py "That expression didn't work for me.").
Proof. destruct ok; vm_compute; reflexivity. Qed.

(** X6. A turn fires at most one tool, and the reply's text is the one
    that goes with the event in the trace: the fixed acknowledgement after
    [facts.remember]; the event's output after a successful [facts.recall]
    or [calculator], and a fixed sentence after a failed one; the event's
    output between [The time is ] and a full stop after [clock]. *)
Theorem reply_follows_the_trace (self : t) (user : str)
        (history : option (list Turn.t)) :
  let reply := fst (chat self user history) in
  match AgentReply.tool_events reply with
  | [] => True
  | [e] => reply_of_event e = Some (AgentReply.text reply)
  | _ => False
  end.
Proof.
  cbv zeta. by_rule user; cbn [fst AgentReply.tool_events AgentReply.text];
    try exact I.
  - unfold FactsStore.remember. cbn [fst ToolResult.event].
    apply reply_of_event_remember.
  - unfold FactsStore.recall.
    destruct (FactsStore._facts (facts self) !! _);
      cbn [fst ToolResult.event ToolResult.ok ToolResult.content];
      apply reply_of_event_recall.
  - apply reply_of_event_clock.
  - unfold calculator.
    destruct (tree <- Parser.parse e;; _eval tree);
      cbn [ToolResult.event ToolResult.ok ToolResult.content];
      apply reply_of_event_calculator.
Qed.

(** X7. A turn never changes the delegate, changes nothing at all unless
    it fires [facts.remember], and then sets one key of the store and
    leaves the others. *)
Theorem chat_changes_one_key_at_most (self : t) (user : str)
        (history : option (list Turn.t)) :
  let reply := fst (chat self user history) in
  let self' := snd (chat self user history) in
  _client self' = _client self
  /\ (tools_fired reply <> [py "facts.remember"] -> self' = self)
  /\ (tools_fired reply = [py "facts.remember"] ->
      exists k v,
        FactsStore._facts (facts self') = <[k := v]> (FactsStore._facts (facts self))).
Proof.
  cbv zeta. destruct self as [f c].
  assert (Nclock : [py "clock"] <> [py "facts.remember"])
    by (vm_compute; discriminate).
  assert (Nrecall : [py "facts.recall"] <> [py "facts.remember"])
    by (vm_compute; discriminate).
  assert (Ncalc : [py "calculator"] <> [py "facts.remember"])
    by (vm_compute; discriminate).
  by_rule user; unfold tools_fired;
    cbn [snd fst _client facts AgentReply.tool_events map];
    (split; [reflexivity |]).
  - split; [intros _; reflexivity | intros H; discriminate H].
  - split.
    + intros H. exfalso. apply H. reflexivity.
    + intros _. eexists _, _. apply remember_store.
  - split; [intros _; reflexivity |].
    unfold FactsStore.recall.
    destruct (FactsStore._facts f !! _);
      cbn [fst ToolResult.event ToolEvent.name]; intros H; contradiction.
  - split; [intros _; reflexivity |].
    cbn [ToolEvent.name]. intros H. contradiction.
  - split; [intros _; reflexivity |].
    rewrite (proj1 (calculator_event_ok e)). intros H. contradiction.
  - split; [intros _; reflexivity | intros H; discriminate H].
  - split; [intros _; reflexivity | intros H; discriminate H].
Qed.
End RouterInvariants.

(** ** Replies are not empty *)
Section NonEmptyText.

Lemma truthy_app_l (a b : str) : truthy a = true -> truthy (a ++ b) = true.
Proof. destruct a; [discriminate | reflexivity]. Qed.

Lemma truthy_app_r (a b : str) : truthy b = true -> truthy (a ++ b) = true.
Proof. destruct a; [intros H; exact H | reflexivity]. Qed.

Lemma layout_not_empty (ds : list Z) (decpt : Z) (add_dot_0 : bool) :
  truthy (Repr.layout ds decpt add_dot_0) = true.
Proof.
  unfold Repr.layout.
  destruct ((decpt <=? -4)%Z || (16 <? decpt)%Z).
  - apply truthy_app_r. reflexivity.
  - destruct (Z.leb_spec decpt 0); [reflexivity |].
    destruct (Z.leb_spec (Z.of_nat (List.length ds)) decpt).
    + destruct ds as [| d ds]; [| reflexivity].
      cbn [List.length map app]. apply truthy_app_l.
      unfold Repr.zeros.
      destruct (Z.to_nat (decpt - Z.of_nat 0)) eqn:E; [lia | reflexivity].
    + apply truthy_app_r. reflexivity.
Qed.

Lemma double_to_string_not_empty (x : spec_float) (add_dot_0 always_sign : bool) :
  truthy (Repr.double_to_string x add_dot_0 always_sign) = true.
Proof.
  unfold Repr.double_to_string. destruct x as [s | s | | s m e].
  - apply truthy_app_r, layout_not_empty.
  - apply truthy_app_r. reflexivity.
  - apply truthy_app_r. reflexivity.
  - destruct (Repr.shortest m e) as [ds decpt].
    apply truthy_app_r, layout_not_empty.
Qed.

(** The text of a number is never empty. *)
Lemma str_of_not_empty (v : value) : truthy (Repr.str_of v) = true.
Proof.
  destruct v as [x | re im]; cbn [Repr.str_of].
  - apply double_to_string_not_empty.
  - unfold Repr.complex_repr.
    destruct re as [[|] | | |]; try reflexivity;
      apply truthy_app_r; reflexivity.
Qed.

Context {U : UnicodeData} {R : Runtime}.
Import ReasoningAgent.

Lemma or_else_not_empty (x : option str) (y : str) :
  truthy y = true -> truthy (or_else x y) = true.
Proof.
  intros Hy. unfold or_else. destruct x as [s |]; [| exact Hy].
  destruct (truthy s) eqn:E; [exact E | exact Hy].
Qed.

Lemma local_explanation_not_empty (prev_answer : str) (prev_user : option str) :
  truthy (_local_brief_explanation prev_answer prev_user) = true.
Proof.
  unfold _local_brief_explanation.
  destruct (negb (truthy prev_answer)); [reflexivity |].
  destruct ((List.length prev_answer <=? 160)%nat && (count 46 prev_answer <=? 1)%nat);
    [reflexivity |].
  destruct (negb (truthy (strip (split_first 46 prev_answer)))); [reflexivity |].
  destruct prev_user as [u |]; [destruct (truthy u) |]; reflexivity.
Qed.

Lemma delegate_answer_not_empty (self : t) (prompt : str) (history : list Turn.t)
      (a : str) :
  delegate_answer self prompt history = Some a -> truthy a = true.
Proof.
  unfold delegate_answer.
  destruct (_openai_reply self prompt history) as [s |]; [| discriminate].
  destruct (truthy s) eqn:E; [| discriminate].
  intros H. injection H as <-. exact E.
Qed.

(** X8. As long as no empty value is in the store, no reply has an empty
    text, whatever the utterance, the history and the delegate's answers. *)
Theorem reply_text_is_not_empty (self : t) (user : str)
        (history : option (list Turn.t)) :
  (forall k, FactsStore._facts (facts self) !! k <> Some []) ->
  truthy (AgentReply.text (fst (chat self user history))) = true.
Proof.
  intros Hstore. by_rule user; cbn [fst AgentReply.text].
  - apply or_else_not_empty. reflexivity.
  - reflexivity.
  - unfold FactsStore.recall.
    destruct (FactsStore._facts (facts self) !! _) as [v |] eqn:E;
      cbn [fst ToolResult.ok ToolResult.content]; [| reflexivity].
    destruct v as [| c v]; [| reflexivity].
    exfalso. exact (Hstore _ E).
  - reflexivity.
  - unfold calculator.
    destruct (tree <- Parser.parse e;; _eval tree) as [v | x];
      cbn [ToolResult.ok ToolResult.content]; [| reflexivity].
    apply str_of_not_empty.
  - destruct (delegate_answer self _ _) as [a |] eqn:E.
    + exact (delegate_answer_not_empty _ _ _ _ E).
    + apply local_explanation_not_empty.
  - destruct (delegate_answer self _ _) as [a |] eqn:E.
    + exact (delegate_answer_not_empty _ _ _ _ E).
    + reflexivity.
Qed.

(** X9. The tools an utterance fires are decided by the utterance alone,
    whatever the store, the delegate and the history. When a tool fires,
    the whole reply and the new state do not depend on the history; and
    without a delegate the history matters to follow-up requests only. *)
Theorem history_matters_to_followups_only (a1 a2 : t) (user : str)
        (h1 h2 : option (list Turn.t)) :
  tools_fired (fst (chat a1 user h1)) = tools_fired (fst (chat a2 user h2))
  /\ (tools_fired (fst (chat a1 user h1)) <> [] ->
      chat a1 user h1 = chat a1 user h2)
  /\ (_client a1 = None -> _is_followup user = false ->
      chat a1 user h1 = chat a1 user h2).
Proof.
  split; [apply tools_fired_by_utterance |].
  assert (Hnone : forall prompt h, _client a1 = None ->
                                   _openai_reply a1 prompt h = None).
  { intros prompt h Hc. unfold _openai_reply. rewrite Hc. reflexivity. }
  by_rule user; cbn [fst]; unfold tools_fired; cbn [AgentReply.tool_events map];
    (split; [try (intros H; exfalso; apply H; reflexivity); try reflexivity |]);
    try (intros _ _; reflexivity).
  - intros Hc _. rewrite !Hnone by exact Hc. reflexivity.
  - intros _ Hf. discriminate Hf.
  - intros Hc _. unfold delegate_answer. rewrite !Hnone by exact Hc. reflexivity.
Qed.
End NonEmptyText.

(** X8 on a fresh agent. *)
Lemma reply_text_is_not_empty_fresh :
  truthy
    (AgentReply.text
       (fst (ReasoningAgent.chat (U := ascii_tables) (R := sample_runtime)
               (ReasoningAgent.mk FactsStore.__init__ None) (py "recall x") None)))
  = true.
Proof.
  apply (reply_text_is_not_empty (U := ascii_tables) (R := sample_runtime)
           (ReasoningAgent.mk FactsStore.__init__ None) (py "recall x") None).
  intros k H. unfold FactsStore.__init__ in H. cbn in H.
  rewrite lookup_empty in H. discriminate H.
Defined.

(** ** The history *)
Section History.
Context {U : UnicodeData} {R : Runtime}.
Import ReasoningAgent.

Lemma has_role_eq (who : string) (m : Turn.t) :
  has_role who m = true -> Turn.role m = Some (py who).
Proof.
  unfold has_role, str_eqb. destruct (Turn.role m) as [r |]; [| discriminate].
  destruct (decide (r = py who)) as [-> |]; [reflexivity | discriminate].
Qed.

Lemma has_content_eq (m : Turn.t) :
  has_content m = true -> exists c, Turn.content m = Some c /\ truthy c = true.
Proof.
  unfold has_content. destruct (Turn.content m) as [c |]; [| discriminate].
  intros H. exists c. split; [reflexivity | exact H].
Qed.

(** The search from the end: the first entry (from the end) in which [who]
    speaks gives the text, and there is none when nobody does. *)
Lemma first_with_role_rev (who : string) (history : list Turn.t) :
  match first_with_role who (rev history) with
  | Some t => truthy t = true /\ last_spoken who history t
  | None => Forall (fun m => speaks who m = false) history
  end.
Proof.
  induction history as [| m h IH] using rev_ind.
  - constructor.
  - rewrite rev_unit. cbn [first_with_role].
    destruct (has_role who m && has_content m) eqn:E.
    + apply andb_prop in E as [Hr Hc].
      destruct (has_content_eq m Hc) as (c & Ec & Ht). rewrite Ec.
      split; [exact Ht |].
      exists h, m, []. repeat split.
      * exact (has_role_eq who m Hr).
      * exact Ec.
      * constructor.
    + destruct (first_with_role who (rev h)) as [t |].
      * destruct IH as (Ht & earlier & m0 & later & -> & Hr & Hc & Hl).
        split; [exact Ht |].
        exists earlier, m0, (later ++ [m]). repeat split.
        -- rewrite <- app_assoc. reflexivity.
        -- exact Hr.
        -- exact Hc.
        -- apply Forall_app. split; [exact Hl |]. constructor; [exact E | constructor].
      * apply Forall_app. split; [exact IH |]. constructor; [exact E | constructor].
Qed.

(** X10. [_last_assistant_text] and [_last_user_text] give the content of
    the latest entry with the role and a content that is not empty,
    skipping later entries of other roles or without content; the text
    they give is never empty, and they give none exactly when the history
    has no such entry. *)
Theorem last_texts_are_the_latest (history : list Turn.t) :
  match _last_assistant_text history with
  | Some t => truthy t = true /\ last_spoken "assistant" history t
  | None => Forall (fun m => speaks "assistant" m = false) history
  end
  /\ match _last_user_text history with
     | Some t => truthy t = true /\ last_spoken "user" history t
     | None => Forall (fun m => speaks "user" m = false) history
     end.
Proof.
  split; [apply (first_with_role_rev "assistant") | apply (first_with_role_rev "user")].
Qed.

Lemma last_n_length {A} (n : nat) (l : list A) : (List.length (last_n n l) <= n)%nat.
Proof. unfold last_n. rewrite length_drop. lia. Qed.

Lemma last_n_in {A} (n : nat) (l : list A) (x : A) : In x (last_n n l) -> In x l.
Proof.
  unfold last_n. intros H.
  rewrite <- (take_drop (List.length l - n) l). apply in_or_app. right. exact H.
Qed.

Lemma trimmed_strip (s : str) : trimmed (strip s).
Proof. destruct (strip_decompose s) as (_ & _ & _ & _ & _ & H). exact H. Qed.

(** X11. What the delegate is asked: the system prompt, then at most six
    entries of the history, each a user's or an assistant's with a content
    that is not empty, then the prompt as a user's message; eight messages
    at most, however long the history. Its answer is trimmed, and an error
    of the service gives no answer instead of an exception. *)
Theorem delegate_context_is_bounded (store : FactsStore.t) (client : Client)
        (user : str) (history : list Turn.t) :
  exists context,
    (List.length context <= 6)%nat
    /\ Forall (fun rc =>
                 (fst rc = py "user" \/ fst rc = py "assistant")
                 /\ truthy (snd rc) = true
                 /\ exists m, In m history /\ Turn.role m = Some (fst rc)
                              /\ Turn.content m = Some (snd rc)) context
    /\ _openai_reply (mk store (Some client)) user history
       = match client ((py "system", system_prompt) :: context ++ [(py "user", user)]) with
         | Return (Some answer) => Some (strip answer)
         | Return None => Some []
         | Raise _ => None
         end
    /\ forall t, _openai_reply (mk store (Some client)) user history = Some t ->
                 trimmed t.
Proof.
  unfold _openai_reply. cbn [_client].
  set (compact := omap _ history).
  exists (last_n 6 compact). split; [apply last_n_length |]. split.
  - apply List.Forall_forall. intros [r c] Hin. apply last_n_in in Hin.
    unfold compact in Hin. apply list_elem_of_In, list_elem_of_omap in Hin.
    destruct Hin as (m & Hm & Hf). apply list_elem_of_In in Hm.
    destruct ((has_role "user" m || has_role "assistant" m) && has_content m) eqn:E;
      [| discriminate Hf].
    apply andb_prop in E as [Hr Hc].
    destruct (has_content_eq m Hc) as (c' & Ec & Ht).
    destruct (Turn.role m) as [r' |] eqn:Er; [| discriminate Hf].
    rewrite Ec in Hf. injection Hf as <- <-. cbn [fst snd].
    split.
    + apply orb_prop in Hr as [Hr | Hr]; apply has_role_eq in Hr;
        rewrite Er in Hr; injection Hr as ->; [left | right]; reflexivity.
    + split; [exact Ht |]. exists m. repeat split; assumption.
  - split.
    + cbn [app]. destruct (client _) as [[answer |] |]; reflexivity.
    + intros t. cbn [app]. destruct (client _) as [c |]; [| discriminate].
      intros H. injection H as <-. apply trimmed_strip.
Qed.
End History.

(** ** Greetings and follow-up phrases *)
Section Phrases.
Context {U : UnicodeData} {R : Runtime}.
Import ReasoningAgent.
Local Open Scope re_scope.

Lemma greedy_zero (cl : Re.cls) (k : str -> str -> option Re.mstate)
      (bef aft : str) :
  Re.is_match (k bef aft) = true ->
  Re.is_match (Re.greedy true cl k bef aft) = true.
Proof.
  intros H. destruct aft as [| c aft]; cbn [Re.greedy]; [exact H |].
  destruct (Re.cls_match true cl c); [| exact H].
  rewrite is_match_orelse, H. apply orb_true_r.
Qed.

(** [\s*] gets past the blanks a text starts with. *)
Lemma greedy_blank_prefix (k : str -> str -> option Re.mstate) (lead : str) :
  forall bef rest,
    blank lead -> Re.is_match (k (rev lead ++ bef) rest) = true ->
    Re.is_match (Re.greedy true ws k bef (lead ++ rest)) = true.
Proof.
  induction lead as [| c lead IH]; intros bef rest Hb H.
  - apply greedy_zero. exact H.
  - apply Forall_cons in Hb as [Hc Hb]. cbn [app Re.greedy].
    rewrite (cls_match_ws true), Hc, is_match_orelse.
    rewrite IH; [reflexivity | exact Hb |].
    cbn [rev] in H. rewrite <- app_assoc in H. exact H.
Qed.

(** X12. A text that opens with a greeting word is a greeting, and the
    greeting rule comes first: the reply fires no tool and changes nothing,
    whatever follows the word (a time word, an expression, a memory
    command); without a delegate its text is the fixed welcome. *)
Theorem greeting_comes_first (self : t) (user : str)
        (history : option (list Turn.t)) :
  opens_with_greeting user ->
  _is_greeting user = true
  /\ chat self user history
     = (AgentReply.mk
          (or_else (_openai_reply self user (history_of history)) hello_text) [],
        self)
  /\ (_client self = None ->
      chat self user history = (AgentReply.mk hello_text [], self)).
Proof.
  intros (lead & w' & post & -> & Hlead & Hw & Hpost).
  assert (Hg : _is_greeting (lead ++ w' ++ post) = true).
  { unfold _is_greeting, Re.rmatch, Pattern.greeting, word.
    cbn [Re.run Re.before Re.after Re.groups].
    apply greedy_blank_prefix; [exact Hlead |]. rewrite app_nil_r.
    rewrite !is_match_orelse.
    assert (Hword : forall w, w <> [] -> forallb is_ascii_lower w = true ->
                              w = map ascii_lower w' ->
                              Re.eat true w (rev lead) (w' ++ post)
                              = Some (rev w' ++ rev lead, post)
                              /\ Re.at_word_boundary (rev w' ++ rev lead) post = true).
    { intros w Hne Hl Hm. split.
      - apply eat_letters; [exact Hl | symmetry; exact Hm].
      - exact (boundary_after_letters w w' (rev lead) post Hne Hl (eq_sym Hm) Hpost). }
    unfold greeting_words in Hw. cbn [In] in Hw.
    destruct Hw as [Hw | [Hw | [Hw | [Hw | [Hw | [Hw | []]]]]]];
      match type of Hw with
      | ?w = _ =>
        destruct (Hword w ltac:(discriminate) eq_refl Hw) as [He Hb]
      end;
      rewrite He; cbn [Re.run Re.before Re.after Re.groups].
    1-5: rewrite Hb; cbn [Re.is_match];
      repeat rewrite ?orb_true_l, ?orb_true_r; reflexivity.
    match goal with
    | |- context [Re.greedy true ws ?k ?b ?a] =>
      rewrite (greedy_zero ws k b a)
    end.
    - repeat rewrite ?orb_true_l, ?orb_true_r; reflexivity.
    - rewrite is_match_orelse, Hb. apply orb_true_r. }
  split; [exact Hg |]. split; [exact (chat_greeting self _ history Hg) |].
  intros Hc. rewrite (chat_greeting self _ history Hg).
  unfold _openai_reply. rewrite Hc. reflexivity.
Qed.

Lemma phrase_char_match (p c : N) :
  is_ascii_lower p || (p =? 32) = true -> ascii_lower c = p ->
  Re.lit_match true p c = true.
Proof.
  intros Hp Hc. apply orb_prop in Hp as [Hp | Hp].
  - exact (proj1 (lower_letter p c Hp Hc)).
  - apply N.eqb_eq in Hp. subst p.
    assert (c = 32).
    { unfold ascii_lower, is_ascii_upper in Hc.
      destruct (N.leb_spec 65 c), (N.leb_spec c 90); cbn [andb] in Hc; lia. }
    subst c. reflexivity.
Qed.

(** Literal text of letters and spaces under [re.I] takes a text with the
    same letters in either case. *)
Lemma eat_phrase (w : str) :
  forall w' bef rest,
    forallb (fun p => is_ascii_lower p || (p =? 32)) w = true ->
    map ascii_lower w' = w ->
    Re.eat true w bef (w' ++ rest) = Some (rev w' ++ bef, rest).
Proof.
  induction w as [| p w IH]; intros w' bef rest Hw Hm.
  - destruct w'; [reflexivity | discriminate Hm].
  - destruct w' as [| c w']; [discriminate Hm |].
    cbn [forallb] in Hw. cbn [map] in Hm.
    apply andb_prop in Hw as [Hp Hw]. injection Hm as Hc Hm.
    cbn [Re.eat app]. rewrite (phrase_char_match p c Hp Hc).
    rewrite (IH w' (c :: bef) rest Hw Hm). cbn [rev]. rewrite <- app_assoc.
    reflexivity.
Qed.

Lemma eat_app (w1 w2 : str) :
  forall bef aft,
    Re.eat true (w1 ++ w2) bef aft
    = match Re.eat true w1 bef aft with
      | Some (b, a) => Re.eat true w2 b a
      | None => None
      end.
Proof.
  induction w1 as [| p w1 IH]; intros bef aft; [reflexivity |].
  cbn [app Re.eat]. destruct aft as [| c aft]; [reflexivity |].
  destruct (Re.lit_match true p c); [apply IH | reflexivity].
Qed.

Lemma starts_with_letter (w w' : str) :
  map ascii_lower w' = w ->
  match w with p :: _ => is_ascii_lower p = true | [] => False end ->
  match w' with c :: _ => isword c = true | [] => False end.
Proof.
  intros <-. destruct w' as [| c w']; [intros [] |]. cbn [map].
  intros Hp. exact (proj2 (lower_letter _ c Hp eq_refl)).
Qed.

Lemma ends_with_letter (w w' : str) :
  map ascii_lower w' = w ->
  match rev w with p :: _ => is_ascii_lower p = true | [] => False end ->
  match rev w' with c :: _ => isword c = true | [] => False end.
Proof.
  intros <-. rewrite <- map_rev. apply starts_with_letter. reflexivity.
Qed.

Lemma boundary_before (bef aft : str) :
  match bef with c :: _ => isword c = false | [] => True end ->
  match aft with c :: _ => isword c = true | [] => False end ->
  Re.at_word_boundary bef aft = true.
Proof.
  unfold Re.at_word_boundary. destruct aft as [| c aft]; [intros _ [] |].
  intros Hb ->. destruct bef as [| y bef]; [reflexivity |]. rewrite Hb. reflexivity.
Qed.

Lemma boundary_after (bef aft : str) :
  match bef with c :: _ => isword c = true | [] => False end ->
  match aft with c :: _ => isword c = false | [] => True end ->
  Re.at_word_boundary bef aft = true.
Proof.
  unfold Re.at_word_boundary. destruct bef as [| y bef]; [intros [] |].
  intros -> Ha. destruct aft as [| c aft]; [reflexivity |]. rewrite Ha. reflexivity.
Qed.

Lemma head_of_app (a b : str) (P : N -> Prop) :
  match a with c :: _ => P c | [] => False end ->
  match a ++ b with c :: _ => P c | [] => False end.
Proof. destruct a; [intros [] | intros H; exact H]. Qed.

(** X13. [_is_followup] finds each of its six phrases, in either case,
    wherever it stands in the text as whole words. *)
Theorem followup_phrase_found (s : str) :
  has_followup_phrase s -> _is_followup s = true.
Proof.
  intros (w & Hin & pre & w' & post & -> & Hm & Hpre & Hpost).
  assert (Hphrase : forallb (fun p => is_ascii_lower p || (p =? 32)) w = true
                    /\ match w with p :: _ => is_ascii_lower p = true | [] => False end
                    /\ match rev w with p :: _ => is_ascii_lower p = true | [] => False end).
  { unfold followup_phrases in Hin. cbn [In] in Hin.
    destruct Hin as [<- | [<- | [<- | [<- | [<- | [<- | []]]]]]];
      repeat split; reflexivity. }
  destruct Hphrase as (Hchars & Hfirst & Hlast).
  pose proof (boundary_before (rev pre) (w' ++ post) Hpre
                (head_of_app w' post _ (starts_with_letter w w' Hm Hfirst))) as Hb1.
  pose proof (boundary_after (rev w' ++ rev pre) post
                (head_of_app (rev w') (rev pre) _ (ends_with_letter w w' Hm Hlast))
                Hpost) as Hb2.
  pose proof (eat_phrase w w' (rev pre) post Hchars Hm) as He.
  unfold _is_followup, Re.search. apply search_from_later. rewrite app_nil_r.
  unfold Pattern.followup, word.
  cbn [Re.run Re.before Re.after Re.groups].
  rewrite Hb1, !is_match_orelse.
  unfold followup_phrases in Hin. cbn [In] in Hin.
  destruct Hin as [<- | [<- | [<- | [<- | [<- | [<- | []]]]]]].
  3-6: rewrite He, Hb2; cbn [Re.is_match];
    repeat rewrite ?orb_true_l, ?orb_true_r; reflexivity.
  - change (py "explain this") with (py "explain " ++ py "this") in He.
    rewrite eat_app in He.
    destruct (Re.eat true (py "explain ") _ _) as [[b a] |]; [| discriminate He].
    rewrite is_match_orelse, He, Hb2. reflexivity.
  - change (py "explain that") with (py "explain " ++ py "that") in He.
    rewrite eat_app in He.
    destruct (Re.eat true (py "explain ") _ _) as [[b a] |]; [| discriminate He].
    rewrite is_match_orelse, He, Hb2. cbn [Re.is_match].
    repeat rewrite ?orb_true_l, ?orb_true_r; reflexivity.
Qed.
End Phrases.

(** ** Bare arithmetic *)
Section BareArithmetic.
Context {U : UnicodeData} {R : Runtime}.
Import ReasoningAgent.
Local Open Scope re_scope.

Lemma arithmetic_char_cases (c : N) :
  arithmetic_char c = true ->
  is_ascii_digit c = true
  \/ In c [46; 43; 45; 42; 47; 40; 41; 37]
  \/ (9 <= c <= 13) \/ (28 <= c <= 32).
Proof.
  unfold arithmetic_char. intros H.
  apply orb_prop in H as [H | H]; [| right; right; right].
  - apply orb_prop in H as [H | H]; [| right; right; left].
    + apply orb_prop in H as [H | H]; [left; exact H | right; left].
      apply existsb_exists in H as (x & Hx & E). apply N.eqb_eq in E. subst x.
      exact Hx.
    + apply andb_prop in H as [H1 H2]. apply N.leb_le in H1, H2. lia.
  - apply andb_prop in H as [H1 H2]. apply N.leb_le in H1, H2. lia.
Qed.

Lemma arithmetic_char_bound (c : N) : arithmetic_char c = true -> c <= 57.
Proof.
  intros H. destruct (arithmetic_char_cases c H) as [Hd | [Hi | [Hb | Hb]]];
    try lia.
  - unfold is_ascii_digit in Hd. apply andb_prop in Hd as [_ Hd].
    apply N.leb_le in Hd. exact Hd.
  - cbn [In] in Hi. lia.
Qed.

(** No letter of a pattern matches a character of arithmetic. *)
Lemma letter_mismatch (p c : N) :
  Re.is_ascii_letter p = true -> arithmetic_char c = true ->
  Re.lit_match true p c = false.
Proof.
  intros Hp Hc. apply arithmetic_char_bound in Hc.
  unfold Re.lit_match. rewrite Hp. cbn [andb].
  assert (Hlo : 97 <= ascii_lower p).
  { unfold Re.is_ascii_letter, ascii_lower, is_ascii_upper, is_ascii_lower in *.
    destruct (N.leb_spec 65 p), (N.leb_spec p 90), (N.leb_spec 97 p),
      (N.leb_spec p 122); cbn [andb orb] in *; try discriminate Hp; lia. }
  assert (Hs : sre_tolower c = c).
  { unfold sre_tolower, ascii_lower, is_ascii_upper.
    destruct (N.ltb_spec c 128); [| lia].
    destruct (N.leb_spec 65 c); [lia | reflexivity]. }
  rewrite Hs.
  destruct (N.eqb_spec c (ascii_lower p)); [lia |].
  destruct (N.eqb_spec c 305); [lia |].
  destruct (N.eqb_spec c 383); [lia |].
  rewrite !andb_false_r. reflexivity.
Qed.

(** Literal text that starts with a letter is not found at the head of a
    text of arithmetic. *)
Lemma eat_letter_first (w bef aft : str) :
  match w with p :: _ => Re.is_ascii_letter p = true | [] => False end ->
  Forall (fun c => arithmetic_char c = true) aft ->
  Re.eat true w bef aft = None.
Proof.
  destruct w as [| p w]; [intros [] |]. intros Hp Ha.
  destruct aft as [| c aft]; [reflexivity |].
  apply Forall_cons in Ha as [Hc _]. cbn [Re.eat].
  rewrite (letter_mismatch p c Hp Hc). reflexivity.
Qed.

Lemma suffix_arithmetic (s w rest : str) :
  s = w ++ rest -> Forall (fun c => arithmetic_char c = true) s ->
  Forall (fun c => arithmetic_char c = true) rest.
Proof. intros -> H. apply Forall_app in H. exact (proj2 H). Qed.

(** The eats of a goal, each refuted by [eat_letter_first]. *)
Ltac refute_eats Ha :=
  repeat match goal with
         | |- context [Re.eat true ?w ?b ?a] =>
           rewrite (eat_letter_first w b a eq_refl Ha)
         end.

Section Refusals.
Variable user : str.
Hypothesis Harith : Forall (fun c => arithmetic_char c = true) user.

Lemma arithmetic_is_no_greeting : _is_greeting user = false.
Proof.
  unfold _is_greeting, Re.rmatch, Pattern.greeting, word.
  cbn [Re.run Re.before Re.after Re.groups].
  rewrite greedy_none; [reflexivity |].
  intros w rest Hs _. pose proof (suffix_arithmetic _ _ _ Hs Harith) as Ha.
  refute_eats Ha. reflexivity.
Qed.

Lemma arithmetic_is_no_memory_write : Re.rmatch true Pattern.remember user = None.
Proof.
  unfold Re.rmatch, Pattern.remember, word.
  cbn [Re.run Re.before Re.after Re.groups].
  apply greedy_none.
  intros w rest Hs _. pose proof (suffix_arithmetic _ _ _ Hs Harith) as Ha.
  refute_eats Ha. reflexivity.
Qed.

Lemma arithmetic_is_no_memory_read : Re.rmatch true Pattern.recall user = None.
Proof.
  unfold Re.rmatch, Pattern.recall, word.
  cbn [Re.run Re.before Re.after Re.groups].
  apply greedy_none.
  intros w rest Hs _. pose proof (suffix_arithmetic _ _ _ Hs Harith) as Ha.
  refute_eats Ha. reflexivity.
Qed.

Lemma arithmetic_is_no_calculate : Re.rmatch true Pattern.calculate user = None.
Proof.
  unfold Re.rmatch, Pattern.calculate, word.
  cbn [Re.run Re.before Re.after Re.groups].
  apply greedy_none.
  intros w rest Hs _. pose proof (suffix_arithmetic _ _ _ Hs Harith) as Ha.
  refute_eats Ha. reflexivity.
Qed.
End Refusals.

Lemma arithmetic_has_no_time_word (aft : str) :
  Forall (fun c => arithmetic_char c = true) aft ->
  forall bef, Re.search_from true Pattern.time bef aft = None.
Proof.
  induction aft as [| c aft IH]; intros Ha bef; rewrite search_from_eq.
  - unfold Pattern.time, word. cbn [Re.run Re.before Re.after Re.groups].
    refute_eats Ha. destruct (Re.at_word_boundary bef []); reflexivity.
  - assert (Hrun : Re.run true Pattern.time Some (Re.MState bef (c :: aft) []) = None).
    { unfold Pattern.time, word. cbn [Re.run Re.before Re.after Re.groups].
      refute_eats Ha. destruct (Re.at_word_boundary bef (c :: aft)); reflexivity. }
    rewrite Hrun. apply IH. apply Forall_cons in Ha. exact (proj2 Ha).
Qed.

Lemma arithmetic_in_class (c : N) :
  arithmetic_char c = true ->
  Re.cls_match false
    [Re.IDigit; Re.ILit 46; Re.ISpace; Re.ILit 43; Re.ILit 45; Re.ILit 42;
     Re.ILit 47; Re.ILit 40; Re.ILit 41; Re.ILit 37] c = true.
Proof.
  intros H. pose proof (arithmetic_char_bound c H) as Hb.
  destruct (arithmetic_char_cases c H) as [Hd | [Hi | Hs]].
  - unfold Re.cls_match. cbn [existsb Re.item_match]. unfold isdecimal.
    destruct (N.ltb_spec c 128); [| lia]. rewrite Hd. reflexivity.
  - cbn [In] in Hi.
    repeat (destruct Hi as [<- | Hi]; [vm_compute; reflexivity |]).
    destruct Hi.
  - assert (Hsp : isspace c = true).
    { unfold isspace.
      destruct Hs as [[H1 H2] | [H1 H2]];
        apply N.leb_le in H1, H2; rewrite H1, H2;
        cbn [andb orb]; rewrite ?orb_true_r; reflexivity. }
    unfold Re.cls_match. cbn [existsb Re.item_match]. rewrite Hsp.
    rewrite !orb_true_r. reflexivity.
Qed.

(** X14. An utterance made of ASCII digits, blanks and the characters
    [. + - * / ( ) %] only, with one at least that is not a blank, goes to
    the calculator, trimmed: no other rule takes it, the delegate is not
    asked, and the reply is the calculator's text or, when it fails, a
    fixed sentence. *)
Theorem bare_arithmetic_goes_to_the_calculator (self : t) (user : str)
        (history : option (list Turn.t)) :
  Forall (fun c => arithmetic_char c = true) user ->
  strip user <> [] ->
  let r := calculator (strip user) in
  chat self user history
  = (AgentReply.mk (if ToolResult.ok r then ToolResult.content r
                    else py "That expression didn't work for me.")
       [ToolResult.event r],
     self).
Proof.
  intros Ha Hne r.
  apply chat_calculator.
  - exact (arithmetic_is_no_greeting user Ha).
  - exact (arithmetic_is_no_memory_write user Ha).
  - exact (arithmetic_is_no_memory_read user Ha).
  - unfold Re.search. rewrite (arithmetic_has_no_time_word user Ha). reflexivity.
  - unfold calculator_input.
    rewrite (arithmetic_is_no_calculate user Ha).
    assert (Hb : Re.is_match (Re.rmatch false Pattern.bare user) = true).
    { destruct user as [| c rest]; [exfalso; apply Hne; reflexivity |].
      apply Forall_cons in Ha as [Hc Hrest].
      unfold Re.rmatch, Pattern.bare.
      cbn [Re.run Re.before Re.after Re.groups Re.one].
      rewrite (arithmetic_in_class c Hc).
      rewrite <- (app_nil_r rest).
      erewrite greedy_all; [reflexivity | | exact I | reflexivity].
      apply List.Forall_forall. intros x Hx.
      rewrite List.Forall_forall in Hrest. exact (arithmetic_in_class x (Hrest x Hx)). }
    rewrite Hb. destruct (strip user); [contradiction | reflexivity].
Qed.
End BareArithmetic.

(** ** The [calculate] command *)
Section CalculateCommand.
Context {U : UnicodeData} {R : Runtime}.
Import ReasoningAgent.
Local Open Scope re_scope.

Lemma initial_c_is_no_earlier_rule (c : N) (rest : str) :
  ascii_lower c = 99 ->
  isspace c = false
  /\ _is_greeting (c :: rest) = false
  /\ Re.rmatch true Pattern.remember (c :: rest) = None
  /\ Re.rmatch true Pattern.recall (c :: rest) = None.
Proof.
  intros Hc.
  assert (H : c = 99 \/ c = 67).
  { unfold ascii_lower, is_ascii_upper in Hc.
    destruct (N.leb_spec 65 c), (N.leb_spec c 90); cbn [andb] in Hc; lia. }
  destruct H as [-> | ->]; vm_compute; repeat split; reflexivity.
Qed.

(** A greedy repetition over a text all of its class reaches the end. *)
Lemma greedy_to_end {A} (cl : Re.cls) (k : str -> str -> option A)
      (w bef : str) (m : A) :
  Forall (fun c => Re.cls_match true cl c = true) w ->
  k (rev w ++ bef) [] = Some m ->
  Re.greedy true cl k bef w = Some m.
Proof.
  intros Hw Hk. pose proof (greedy_all true cl k w bef [] m Hw I Hk) as H.
  rewrite app_nil_r in H. exact H.
Qed.

(** [^\s*calculate\s+(.+)$] on the keyword, blanks, and a text without line
    feed that does not start with a blank: the group is that text. *)
Lemma calculate_match (kw sep e : str) :
  map ascii_lower kw = py "calculate" ->
  sep <> [] -> blank sep ->
  match e with c :: _ => isspace c = false | [] => False end ->
  ~ In 10 e ->
  exists m, Re.rmatch true Pattern.calculate (kw ++ sep ++ e) = Some m
            /\ Re.group m 1 = e.
Proof.
  intros Hkw Hsep Hblank Hhead Hnl.
  destruct kw as [| c1 kw']; [discriminate Hkw |].
  assert (Hc1 : ascii_lower c1 = 99) by (cbn [map] in Hkw; injection Hkw as H _; exact H).
  destruct (initial_c_is_no_earlier_rule c1 [] Hc1) as (Hsp & _).
  destruct sep as [| s1 sep']; [contradiction |].
  apply Forall_cons in Hblank as [Hs1 Hblank].
  destruct e as [| x e']; [contradiction |].
  assert (Hx : x <> 10) by (intros ->; apply Hnl; left; reflexivity).
  eexists. split.
  - unfold Re.rmatch, Pattern.calculate, word.
    cbn [Re.run Re.before Re.after Re.groups].
    refine (greedy_all true ws _ [] [] _ _ (List.Forall_nil _) _ _);
      [cbn [app]; rewrite (cls_match_ws true); exact Hsp |].
    cbv beta. change (rev [] ++ []) with (@nil N).
    rewrite (eat_letters (py "calculate") (c1 :: kw') [] _ eq_refl Hkw).
    cbn [Re.one app]. rewrite (cls_match_ws true), Hs1.
    apply greedy_all;
      [apply blank_cls; exact Hblank | rewrite (cls_match_ws true); exact Hhead |].
    cbn [Re.run Re.before Re.after Re.groups Re.one].
    rewrite (cls_match_dot true).
    destruct (N.eqb_spec x 10) as [E | _]; [contradiction |]. cbn [negb].
    apply greedy_to_end; [| reflexivity].
    apply no_line_feed_cls. intros H. apply Hnl. right. exact H.
  - unfold Re.group. cbn [Re.groups Re.group_in Nat.eqb].
    apply matched_cons.
Qed.

(** X15. [calculate], in either case, then blanks, then a text: the text
    goes to the calculator as it stands, whatever it holds, unless the
    utterance has a time word (then the clock answers). *)
Theorem calculate_hands_over_the_text (self : t) (kw sep e : str)
        (history : option (list Turn.t)) :
  map ascii_lower kw = py "calculate" ->
  sep <> [] -> blank sep ->
  match e with c :: _ => isspace c = false | [] => False end ->
  ~ In 10 e ->
  Re.is_match (Re.search true Pattern.time (kw ++ sep ++ e)) = false ->
  let r := calculator e in
  chat self (kw ++ sep ++ e) history
  = (AgentReply.mk (if ToolResult.ok r then ToolResult.content r
                    else py "That expression didn't work for me.")
       [ToolResult.event r],
     self).
Proof.
  intros Hkw Hsep Hblank Hhead Hnl Htime r.
  destruct (calculate_match kw sep e Hkw Hsep Hblank Hhead Hnl) as (m & Hm & Hg).
  destruct kw as [| c1 kw']; [discriminate Hkw |].
  assert (Hc1 : ascii_lower c1 = 99) by (cbn [map] in Hkw; injection Hkw as H _; exact H).
  destruct (initial_c_is_no_earlier_rule c1 (kw' ++ sep ++ e) Hc1)
    as (_ & Hg1 & Hg2 & Hg3).
  apply chat_calculator; try assumption.
  unfold calculator_input. rewrite Hm, Hg.
  destruct e; [contradiction | reflexivity].
Qed.
End CalculateCommand.

(** ** Memory across turns *)
Section MemoryAcrossTurns.
Context {U : UnicodeData} {R : Runtime}.
Import ReasoningAgent.
Local Open Scope re_scope.

(** [(.+?)\s*$] on a trimmed text without line feed, followed by blanks:
    the group is the text. *)
Lemma text_part (n : nat) (bef core trail : str) (g : list (nat * str)) :
  trimmed core -> core <> [] -> ~ In 10 core -> blank trail ->
  exists bef',
    Re.run true (Re.Group n (Re.PlusLazy dot) -- Re.Star ws -- Re.Eol)
           Some (Re.MState bef (core ++ trail) g)
    = Some (Re.MState bef' [] ((n, core) :: g)).
Proof.
  intros [Hh Hy] Hne Hnl Ht.
  destruct core as [| x core']; [contradiction |].
  eexists. cbn [Re.run Re.before Re.after Re.groups].
  unfold Re.one. cbn [app]. rewrite (cls_match_dot true).
  destruct (N.eqb_spec x 10) as [-> | _]; [exfalso; apply Hnl; left; reflexivity |].
  cbn [negb].
  apply lazy_first.
  - apply no_line_feed_cls. intros H. apply Hnl. right. exact H.
  - intros q q' Hs Hq. apply greedy_none. intros w r Hw Hb.
    assert (Hv : exists y, In y q' /\ isspace y = false).
    { apply (suffix_visible (x :: q) q' Hq). cbn [app]. rewrite <- Hs. exact Hy. }
    destruct (after_blank_prefix w r q' trail (eq_sym Hw) (cls_blank _ Hb) Hv)
      as (z & r' & -> & Hz).
    assert (Hz10 : z <> 10).
    { intros ->. apply Hnl. right. rewrite Hs. apply in_or_app. right. exact Hz. }
    cbn [Re.at_end]. destruct r'; [| reflexivity].
    destruct (N.eqb_spec z 10); [contradiction | reflexivity].
  - rewrite <- (app_nil_r trail) at 1.
    apply greedy_all; [apply blank_cls, Ht | exact I |].
    cbn [Re.at_end]. rewrite matched_cons. reflexivity.
Qed.

(** The memory-read pattern on [recall <a>], with [a] given by its blank
    margins and its trimmed core. *)
Lemma recall_match_parts (la sa ta : str) :
  blank la -> blank ta -> trimmed sa -> sa <> [] -> ~ In 10 sa ->
  exists m,
    Re.rmatch true Pattern.recall (py "recall " ++ la ++ sa ++ ta) = Some m
    /\ Re.group m 2 = sa.
Proof.
  intros Hla Hta Htra Hane Hanl.
  set (recall_ := [114; 101; 99; 97; 108; 108]).
  destruct (text_part 2 (rev la ++ 32 :: rev recall_ ++ []) sa ta
              [(1%nat, recall_)] Htra Hane Hanl Hta) as [bef' Hkey].
  exists (Re.MState bef' [] [(2%nat, sa); (1%nat, recall_)]).
  split; [| reflexivity].
  unfold Re.rmatch, Pattern.recall, word.
  replace (py "recall ") with (recall_ ++ [32]) by reflexivity.
  replace (py "recall") with recall_ by reflexivity.
  rewrite <- !app_assoc.
  cbn [Re.run Re.before Re.after Re.groups] in *.
  apply (greedy_all true ws _ []); [constructor | reflexivity |].
  cbv beta. change (rev [] ++ []) with (@nil N).
  match goal with
  | |- context [Re.eat true recall_ [] ?s] =>
    change s with (recall_ ++ 32 :: la ++ sa ++ ta)
  end.
  rewrite eat_self by reflexivity.
  unfold Re.one at 1. cbn [app]. rewrite (cls_match_ws true).
  replace (isspace 32) with true by reflexivity.
  match goal with
  | |- Re.orelse ?x _ = _ =>
    assert (Hx : x = Some (Re.MState bef' [] [(2%nat, sa); (1%nat, recall_)]));
      [| rewrite Hx; reflexivity]
  end.
  destruct Htra as [Hh Hy].
  destruct sa as [| x sa']; [contradiction |].
  apply greedy_all;
    [apply blank_cls, Hla | cbn [app]; rewrite (cls_match_ws true); exact Hh |].
  rewrite !matched_app.
  exact Hkey.
Qed.

Lemma recall_is_no_memory_write (rest : str) :
  Re.rmatch true Pattern.remember (py "recall " ++ rest) = None.
Proof. vm_compute. reflexivity. Qed.

Lemma visible_parts (a : str) :
  (exists x, In x a /\ isspace x = false) -> ~ In 10 a ->
  exists la ta,
    a = la ++ strip a ++ ta /\ blank la /\ blank ta /\ trimmed (strip a)
    /\ strip a <> [] /\ ~ In 10 (strip a).
Proof.
  intros Ha Hnl.
  destruct (strip_decompose a) as (la & ta & Hsa & Hla & Hta & Htra).
  exists la, ta. repeat split; try assumption; try apply Htra.
  - exact (strip_visible a Ha).
  - intros H. apply Hnl. rewrite Hsa. apply in_or_app. right.
    apply in_or_app. left. exact H.
Qed.

(** What [recall <a>] replies: the store's answer for [a]. *)
Lemma chat_recall_command (self : t) (a : str) (history : option (list Turn.t)) :
  (exists x, In x a /\ isspace x = false) -> ~ In 10 a ->
  chat self (py "recall " ++ a) history
  = (let r := fst (FactsStore.recall (facts self) a) in
     (AgentReply.mk (if ToolResult.ok r then ToolResult.content r
                     else py "I don't have that saved yet.")
        [ToolResult.event r],
      self)).
Proof.
  intros Ha Hnl.
  destruct (visible_parts a Ha Hnl) as (la & ta & Hsa & Hla & Hta & Htra & Hne & Hnl').
  destruct (recall_match_parts la (strip a) ta Hla Hta Htra Hne Hnl') as (m & Hm & Hg).
  rewrite <- Hsa in Hm.
  rewrite (chat_recall self _ history m);
    [| apply not_greeting_r | apply recall_is_no_memory_write | exact Hm].
  rewrite Hg. unfold FactsStore.recall. rewrite strip_strip. reflexivity.
Qed.

(** What [remember <a>=<b>] does: it sets the key of [a] to [b] trimmed. *)
Lemma chat_remember_command (self : t) (a b : str)
      (history : option (list Turn.t)) :
  (exists x, In x a /\ isspace x = false) -> ~ In 61 a -> ~ In 10 a ->
  (exists x, In x b /\ isspace x = false) -> ~ In 10 b ->
  snd (chat self (py "remember " ++ a ++ py "=" ++ b) history)
  = mk (FactsStore.mk (<[lower (strip a) := strip b]>
                         (FactsStore._facts (facts self))))
       (_client self).
Proof.
  intros Ha Haeq Hanl Hb Hbnl.
  destruct (visible_parts a Ha Hanl) as (la & ta & Hsa & Hla & Hta & Htra & Hane & Hanl').
  destruct (visible_parts b Hb Hbnl) as (lb & tb & Hsb & Hlb & Htb & Htrb & Hbne & Hbnl').
  assert (Haeq' : ~ In 61 (strip a)).
  { intros H. apply Haeq. rewrite Hsa. apply in_or_app. right.
    apply in_or_app. left. exact H. }
  destruct (remember_match_parts la (strip a) ta lb (strip b) tb
              Hla Hta Htra Hane Hanl' Haeq' Hlb Htb Htrb Hbne Hbnl')
    as (m & Hm & H2 & H3).
  rewrite <- Hsa, <- Hsb in Hm.
  change (py "=" ++ b) with (61 :: b).
  rewrite (chat_remember self _ history m); [| apply not_greeting_r | exact Hm].
  cbn [snd]. rewrite H2, H3. unfold FactsStore.remember. cbn [snd].
  rewrite !strip_strip. reflexivity.
Qed.

(** A turn that does not write a key leaves what the store holds for
    it. *)
Lemma chat_keeps_key (self : t) (user : str) (history : option (list Turn.t))
      (k : str) :
  written_key user <> Some k ->
  FactsStore._facts (facts (snd (chat self user history))) !! k
  = FactsStore._facts (facts self) !! k.
Proof.
  unfold written_key. intros Hk.
  by_rule user; cbn [snd facts]; try reflexivity.
  rewrite remember_store. apply lookup_insert_ne.
  intros E. apply Hk. rewrite E. reflexivity.
Qed.

Lemma session_keeps_key (turns : list (str * option (list Turn.t))) (k : str) :
  Forall (fun turn => written_key (fst turn) <> Some k) turns ->
  forall self,
    FactsStore._facts (facts (session self turns)) !! k
    = FactsStore._facts (facts self) !! k.
Proof.
  induction 1 as [| [user history] turns Hk _ IH]; intros self; [reflexivity |].
  cbn [session]. rewrite IH. apply chat_keeps_key. exact Hk.
Qed.

(** X16. What one turn remembers a later turn recalls, whatever the turns
    in between and the histories sent along, as long as none of them writes
    the same key: [remember <a>=<b>], any such turns, then [recall <a'>]
    with a key of the same normal form replies [b] trimmed, with a
    successful [facts.recall] event. *)
Theorem remembered_until_overwritten
        (self : t) (a b a' : str) (turns : list (str * option (list Turn.t)))
        (h1 h2 : option (list Turn.t)) :
  (exists x, In x a /\ isspace x = false) -> ~ In 61 a -> ~ In 10 a ->
  (exists x, In x b /\ isspace x = false) -> ~ In 10 b ->
  (exists x, In x a' /\ isspace x = false) -> ~ In 10 a' ->
  lower (strip a') = lower (strip a) ->
  Forall (fun turn => written_key (fst turn) <> Some (lower (strip a))) turns ->
  let s1 := snd (chat self (py "remember " ++ a ++ py "=" ++ b) h1) in
  let s2 := session s1 turns in
  chat s2 (py "recall " ++ a') h2
  = (AgentReply.mk (strip b)
       [ToolEvent.mk (py "facts.recall") (lower (strip a)) true (strip b)],
     s2).
Proof.
  intros Ha Haeq Hanl Hb Hbnl Ha' Hanl' Hnorm Hturns s1 s2.
  assert (Hlook : FactsStore._facts (facts s2) !! lower (strip a') = Some (strip b)).
  { unfold s2. rewrite Hnorm, (session_keeps_key turns _ Hturns).
    unfold s1. rewrite (chat_remember_command self a b h1 Ha Haeq Hanl Hb Hbnl).
    cbn [facts FactsStore._facts]. apply lookup_insert_eq. }
  rewrite (chat_recall_command s2 a' h2 Ha' Hanl').
  rewrite (recall_present _ _ _ Hlook). cbn [fst ToolResult.ok ToolResult.content
                                             ToolResult.event].
  rewrite Hnorm. reflexivity.
Qed.
End MemoryAcrossTurns.

(** ** The server *)
Section ServerMemory.
Context {U : UnicodeData} {R : Runtime}.

Lemma or_empty_id {A} (x : list A) : Server.or_empty x = x.
Proof. destruct x; reflexivity. Qed.

Lemma server_chat_eq (AGENT : ReasoningAgent.t) (req : Server.ChatRequest) :
  Server.chat AGENT req
  = (let reply :=
       fst (ReasoningAgent.chat AGENT (Server.message req)
              (Some (Server.history req))) in
     {| Server.text := AgentReply.text reply;
        Server.tool_events :=
          map (fun e =>
                 {| Server.name := ToolEvent.name e;
                    Server.input := ToolEvent.input e;
                    Server.ok := ToolEvent.ok e;
                    Server.output := ToolEvent.output e |})
              (AgentReply.tool_events reply) |},
     snd (ReasoningAgent.chat AGENT (Server.message req)
            (Some (Server.history req)))).
Proof.
  unfold Server.chat. rewrite !or_empty_id.
  destruct (ReasoningAgent.chat AGENT _ _) as [reply agent'].
  rewrite or_empty_id. reflexivity.
Qed.

(** X17. The endpoint keeps one memory for all requests: what a request
    remembers, a later request recalls, whatever histories the two carry
    (they may come from different clients). The response carries the
    agent's text and its event, field by field. *)
Theorem server_memory_is_shared
        (AGENT : ReasoningAgent.t) (a b a' : str) (h1 h2 : list Turn.t) :
  (exists x, In x a /\ isspace x = false) -> ~ In 61 a -> ~ In 10 a ->
  (exists x, In x b /\ isspace x = false) -> ~ In 10 b ->
  (exists x, In x a' /\ isspace x = false) -> ~ In 10 a' ->
  lower (strip a') = lower (strip a) ->
  let first :=
    {| Server.message := py "remember " ++ a ++ py "=" ++ b;
       Server.history := h1 |} in
  let second :=
    {| Server.message := py "recall " ++ a'; Server.history := h2 |} in
  let AGENT1 := snd (Server.chat AGENT first) in
  fst (Server.chat AGENT1 second)
  = {| Server.text := strip b;
       Server.tool_events :=
         [{| Server.name := py "facts.recall";
             Server.input := lower (strip a);
             Server.ok := true;
             Server.output := strip b |}] |}
  /\ snd (Server.chat AGENT1 second) = AGENT1.
Proof.
  intros Ha Haeq Hanl Hb Hbnl Ha' Hanl' Hnorm first second AGENT1.
  assert (Hlook : FactsStore._facts (ReasoningAgent.facts AGENT1)
                  !! lower (strip a') = Some (strip b)).
  { unfold AGENT1. rewrite server_chat_eq. cbn [snd Server.message Server.history].
    rewrite (chat_remember_command AGENT a b (Some h1) Ha Haeq Hanl Hb Hbnl).
    cbn [ReasoningAgent.facts FactsStore._facts]. rewrite Hnorm.
    apply lookup_insert_eq. }
  rewrite server_chat_eq. cbn [fst snd Server.message Server.history].
  rewrite (chat_recall_command AGENT1 a' (Some h2) Ha' Hanl').
  rewrite (recall_present _ _ _ Hlook).
  cbn [fst snd ToolResult.ok ToolResult.content ToolResult.event
       AgentReply.text AgentReply.tool_events map
       ToolEvent.name ToolEvent.input ToolEvent.ok ToolEvent.output].
  rewrite Hnorm. split; reflexivity.
Qed.
End ServerMemory.

(** ** Who sees what *)
Section Confinement.
Context {U : UnicodeData} {R : Runtime}.
Import ReasoningAgent.

Lemma openai_reply_ignores_store (f1 f2 : FactsStore.t) (c : option Client)
      (prompt : str) (history : list Turn.t) :
  _openai_reply (mk f1 c) prompt history = _openai_reply (mk f2 c) prompt history.
Proof. reflexivity. Qed.

(** X18. A turn that fires a tool does not ask the delegate: its reply is
    the same whatever the delegate is, so memory commands, arithmetic and
    time questions stay local. And the store shows in the replies to
    memory reads only: every other reply is the same whatever the store
    holds. *)
Theorem tools_stay_local (f1 f2 : FactsStore.t) (c1 c2 : option Client)
        (user : str) (history : option (list Turn.t)) :
  (tools_fired (fst (chat (mk f1 c1) user history)) <> [] ->
   fst (chat (mk f1 c1) user history) = fst (chat (mk f1 c2) user history))
  /\ (tools_fired (fst (chat (mk f1 c1) user history)) <> [py "facts.recall"] ->
      fst (chat (mk f1 c1) user history) = fst (chat (mk f2 c1) user history)).
Proof.
  by_rule user; unfold tools_fired; cbn [fst AgentReply.tool_events map facts].
  - split; [intros H; exfalso; apply H; reflexivity |].
    intros _. rewrite (openai_reply_ignores_store f1 f2). reflexivity.
  - split; intros _; reflexivity.
  - split; [intros _; reflexivity |].
    unfold FactsStore.recall.
    destruct (FactsStore._facts f1 !! _);
      cbn [fst ToolResult.event ToolEvent.name];
      intros H; exfalso; apply H; reflexivity.
  - split; intros _; reflexivity.
  - split; intros _; reflexivity.
  - split; [intros H; exfalso; apply H; reflexivity |].
    intros _. unfold delegate_answer.
    rewrite (openai_reply_ignores_store f1 f2). reflexivity.
  - split; [intros H; exfalso; apply H; reflexivity |].
    intros _. unfold delegate_answer.
    rewrite (openai_reply_ignores_store f1 f2). reflexivity.
Qed.
End Confinement.

(** ** The properties above on examples *)

(** X12 on [Hello, what time is it now?]: the welcome, and no clock. *)
Lemma greeting_comes_first_hello :
  ReasoningAgent.chat (U := ascii_tables) (R := sample_runtime)
    (ReasoningAgent.mk FactsStore.__init__ None)
    (py "Hello, what time is it now?") None
  = (AgentReply.mk ReasoningAgent.hello_text [],
     ReasoningAgent.mk FactsStore.__init__ None).
Proof.
  assert (H : opens_with_greeting (U := ascii_tables)
                (py "Hello, what time is it now?")).
  { exists [], (py "Hello"), (py ", what time is it now?").
    split; [vm_compute; reflexivity |]. split; [constructor |].
    split; [right; left; reflexivity | reflexivity]. }
  exact (proj2 (proj2 (greeting_comes_first (U := ascii_tables) (R := sample_runtime)
                         (ReasoningAgent.mk FactsStore.__init__ None)
                         (py "Hello, what time is it now?") None H))
               eq_refl).
Defined.

(** X13 on [Could you EXPLAIN THIS again?]. *)
Lemma followup_phrase_found_explain :
  _is_followup (U := ascii_tables) (py "Could you EXPLAIN THIS again?") = true.
Proof.
  apply (followup_phrase_found (U := ascii_tables)).
  exists (py "explain this"). split; [left; reflexivity |].
  exists (py "Could you "), (py "EXPLAIN THIS"), (py " again?").
  repeat split; reflexivity.
Defined.

(** X14 on [ 12*(3+4) ], blanks around it. *)
Lemma bare_arithmetic_goes_to_the_calculator_example :
  let self := ReasoningAgent.mk FactsStore.__init__ None in
  let r := calculator (R := sample_runtime) (strip (py " 12*(3+4) ")) in
  ReasoningAgent.chat (U := ascii_tables) (R := sample_runtime) self
    (py " 12*(3+4) ") None
  = (AgentReply.mk (if ToolResult.ok r then ToolResult.content r
                    else py "That expression didn't work for me.")
       [ToolResult.event r],
     self).
Proof.
  intros self.
  apply (bare_arithmetic_goes_to_the_calculator (U := ascii_tables)
           (R := sample_runtime) self (py " 12*(3+4) ") None).
  - apply List.Forall_forall, forallb_forall. reflexivity.
  - vm_compute. discriminate.
Defined.

(** X15 on [Calculate two plus two]: the words go to the calculator. *)
Lemma calculate_hands_over_the_text_example :
  let self := ReasoningAgent.mk FactsStore.__init__ None in
  let r := calculator (R := sample_runtime) (py "two plus two") in
  ReasoningAgent.chat (U := ascii_tables) (R := sample_runtime) self
    (py "Calculate" ++ py " " ++ py "two plus two") None
  = (AgentReply.mk (if ToolResult.ok r then ToolResult.content r
                    else py "That expression didn't work for me.")
       [ToolResult.event r],
     self).
Proof.
  intros self.
  apply (calculate_hands_over_the_text (U := ascii_tables) (R := sample_runtime)
           self (py "Calculate") (py " ") (py "two plus two") None).
  - reflexivity.
  - vm_compute. discriminate.
  - apply List.Forall_forall, forallb_forall. reflexivity.
  - reflexivity.
  - intros H. vm_compute in H.
    repeat (destruct H as [H | H]; [discriminate H |]). exact H.
  - vm_compute. reflexivity.
Defined.

(** X16 on a session: [Project] is remembered, the clock, another key and
    the calculator come in between, and [project] is recalled. *)
Lemma remembered_until_overwritten_session :
  let self := ReasoningAgent.mk FactsStore.__init__ None in
  let turns :=
    [(py "what time is it", None);
     (py "remember owner = Ada", Some []);
     (py "2+2", None)] in
  let s1 :=
    snd (ReasoningAgent.chat (U := ascii_tables) (R := sample_runtime) self
           (py "remember " ++ py "Project " ++ py "=" ++ py " Apollo") None) in
  let s2 := session (U := ascii_tables) (R := sample_runtime) s1 turns in
  ReasoningAgent.chat (U := ascii_tables) (R := sample_runtime) s2
    (py "recall " ++ py "project") None
  = (AgentReply.mk (strip (py " Apollo"))
       [ToolEvent.mk (py "facts.recall")
          (lower (U := ascii_tables) (strip (py "Project "))) true
          (strip (py " Apollo"))],
     s2).
Proof.
  intros self turns.
  apply (remembered_until_overwritten (U := ascii_tables) (R := sample_runtime)
           self (py "Project ") (py " Apollo") (py "project") turns None None).
  - exists 80. split; [vm_compute; left; reflexivity | reflexivity].
  - intros H. vm_compute in H.
    repeat (destruct H as [H | H]; [discriminate H |]). exact H.
  - intros H. vm_compute in H.
    repeat (destruct H as [H | H]; [discriminate H |]). exact H.
  - exists 65. split; [vm_compute; right; left; reflexivity | reflexivity].
  - intros H. vm_compute in H.
    repeat (destruct H as [H | H]; [discriminate H |]). exact H.
  - exists 112. split; [vm_compute; left; reflexivity | reflexivity].
  - intros H. vm_compute in H.
    repeat (destruct H as [H | H]; [discriminate H |]). exact H.
  - vm_compute. reflexivity.
  - repeat (constructor; [vm_compute; discriminate |]). constructor.
Defined.

(** X17 on two requests with different histories. *)
Lemma server_memory_is_shared_example :
  let AGENT := ReasoningAgent.mk FactsStore.__init__ None in
  let first :=
    {| Server.message := py "remember " ++ py "Project " ++ py "=" ++ py " Apollo";
       Server.history := [] |} in
  let second :=
    {| Server.message := py "recall " ++ py "project";
       Server.history := [Turn.mk (Some (py "user")) (Some (py "hi"))] |} in
  let AGENT1 :=
    snd (Server.chat (U := ascii_tables) (R := sample_runtime) AGENT first) in
  fst (Server.chat (U := ascii_tables) (R := sample_runtime) AGENT1 second)
  = {| Server.text := strip (py " Apollo");
       Server.tool_events :=
         [{| Server.name := py "facts.recall";
             Server.input := lower (U := ascii_tables) (strip (py "Project "));
             Server.ok := true;
             Server.output := strip (py " Apollo") |}] |}
  /\ snd (Server.chat (U := ascii_tables) (R := sample_runtime) AGENT1 second)
     = AGENT1.
Proof.
  intros AGENT.
  apply (server_memory_is_shared (U := ascii_tables) (R := sample_runtime)
           AGENT (py "Project ") (py " Apollo") (py "project") []
           [Turn.mk (Some (py "user")) (Some (py "hi"))]).
  - exists 80. split; [vm_compute; left; reflexivity | reflexivity].
  - intros H. vm_compute in H.
    repeat (destruct H as [H | H]; [discriminate H |]). exact H.
  - intros H. vm_compute in H.
    repeat (destruct H as [H | H]; [discriminate H |]). exact H.
  - exists 65. split; [vm_compute; right; left; reflexivity | reflexivity].
  - intros H. vm_compute in H.
    repeat (destruct H as [H | H]; [discriminate H |]). exact H.
  - exists 112. split; [vm_compute; left; reflexivity | reflexivity].
  - intros H. vm_compute in H.
    repeat (destruct H as [H | H]; [discriminate H |]). exact H.
  - vm_compute. reflexivity.
Defined.

(** * The routing table and the follow-up resolver *)

(** ** Routing by first match *)
Section RoutingTable.
Context {U : UnicodeData} {R : Runtime}.
Import ReasoningAgent.

Lemma or_else_delegate (self : t) (prompt : str) (history : list Turn.t) (y : str) :
  or_else (_openai_reply self prompt history) y
  = match delegate_answer self prompt history with Some a => a | None => y end.
Proof.
  unfold or_else, delegate_answer.
  destruct (_openai_reply self prompt history) as [a |]; [| reflexivity].
  destruct (truthy a); reflexivity.
Qed.

(** C3, as amended. [chat] is the table of the seven rules with first match
    wins: the rule that handles a turn is the first, in the order greeting,
    memory write, memory read, time, arithmetic, follow-up, fallback, whose
    check the utterance passes; the reply and the new state are that
    rule's, and the tools fired are that rule's tool, whatever the state
    and the history. An utterance with the whole word [time], [date] or
    [now] is therefore handled by one of the first four rules, never by the
    calculator, and by the clock unless one of the three rules before it
    applies. *)
Theorem routing_by_first_match (a1 a2 : t) (user : str)
        (h1 h2 : option (list Turn.t)) :
  exists r,
    winner user = Some r
    /\ handled_by r a1 user (history_of h1) (chat a1 user h1)
    /\ tools_fired (fst (chat a1 user h1)) = tools_of r
    /\ tools_fired (fst (chat a2 user h2)) = tools_of r
    /\ (has_time_word user ->
        In r [greeting_rule; memory_write_rule; memory_read_rule; time_rule]
        /\ ~ In (py "calculator") (tools_fired (fst (chat a1 user h1)))
        /\ (applies greeting_rule user = false ->
            applies memory_write_rule user = false ->
            applies memory_read_rule user = false ->
            r = time_rule
            /\ chat a1 user h1
               = (AgentReply.mk (py "The time is " ++ clock_now ++ py ".")
                    [ToolEvent.mk (py "clock") (py "") true clock_now],
                  a1))).
Proof.
  assert (Nremember : ~ In (py "calculator") [py "facts.remember"])
    by (intros [H | []]; vm_compute in H; discriminate H).
  assert (Nrecall : ~ In (py "calculator") [py "facts.recall"])
    by (intros [H | []]; vm_compute in H; discriminate H).
  assert (Nclock : ~ In (py "calculator") [py "clock"])
    by (intros [H | []]; vm_compute in H; discriminate H).
  unfold winner, rule_order. cbn [List.find applies].
  by_rule user; cbn [Re.is_match]; unfold tools_fired;
    cbn [fst AgentReply.tool_events map].
  - exists greeting_rule. split; [reflexivity |]. split.
    { cbn [handled_by]. rewrite or_else_delegate. reflexivity. }
    do 2 (split; [reflexivity |]). intros _.
    split; [left; reflexivity |]. split; [intros [] |].
    intros H. discriminate H.
  - exists memory_write_rule. split; [reflexivity |]. split.
    { exists m. split; [exact Hremember | reflexivity]. }
    do 2 (split; [reflexivity |]). intros _.
    split; [right; left; reflexivity |]. split; [exact Nremember |].
    intros _ H. discriminate H.
  - exists memory_read_rule. split; [reflexivity |]. split.
    { exists m. split; [exact Hrecall | reflexivity]. }
    assert (Hname : forall s,
               ToolEvent.name
                 (ToolResult.event (fst (FactsStore.recall s (Re.group m 2))))
               = py "facts.recall").
    { intros s. unfold FactsStore.recall.
      destruct (FactsStore._facts s !! _); reflexivity. }
    rewrite !Hname.
    do 2 (split; [reflexivity |]). intros _.
    split; [right; right; left; reflexivity |]. split; [exact Nrecall |].
    intros _ _ H. discriminate H.
  - exists time_rule. split; [reflexivity |]. split; [reflexivity |].
    do 2 (split; [reflexivity |]). intros _.
    split; [right; right; right; left; reflexivity |]. split; [exact Nclock |].
    intros _ _ _. split; reflexivity.
  - exists arithmetic_rule. split; [reflexivity |]. split.
    { exists e. split; [exact Hcalc | reflexivity]. }
    rewrite (proj1 (calculator_event_ok e)).
    do 2 (split; [reflexivity |]). intros Hw.
    apply time_word_found in Hw. rewrite Htime in Hw. discriminate Hw.
  - exists followup_rule. split; [reflexivity |]. split; [reflexivity |].
    do 2 (split; [reflexivity |]). intros Hw.
    apply time_word_found in Hw. rewrite Htime in Hw. discriminate Hw.
  - exists fallback_rule. split; [reflexivity |]. split; [reflexivity |].
    do 2 (split; [reflexivity |]). intros Hw.
    apply time_word_found in Hw. rewrite Htime in Hw. discriminate Hw.
Qed.
End RoutingTable.

(** C3 on [calculate the time 2+2]: the time rule wins, the clock answers,
    and the calculator is not called. *)
Lemma routing_by_first_match_calculate_the_time :
  let a := ReasoningAgent.mk FactsStore.__init__ None in
  let user := py "calculate the time 2+2" in
  winner (U := ascii_tables) user = Some time_rule
  /\ ReasoningAgent.chat (U := ascii_tables) (R := sample_runtime) a user None
     = (AgentReply.mk (py "The time is 2024-05-17 09:30:00.")
          [ToolEvent.mk (py "clock") (py "") true (py "2024-05-17 09:30:00")],
        a)
  /\ ~ In (py "calculator")
        (tools_fired
           (fst (ReasoningAgent.chat (U := ascii_tables) (R := sample_runtime)
                   a user None)))
  /\ tools_fired
       (fst (ReasoningAgent.chat (U := ascii_tables) (R := sample_runtime)
               a user (Some [])))
     = [py "clock"].
Proof.
  intros a user.
  assert (Hword : has_time_word (U := ascii_tables) user).
  { left. exists (py "calculate the "), (py "time"), (py " 2+2").
    repeat split; vm_compute; reflexivity. }
  destruct (routing_by_first_match (U := ascii_tables) (R := sample_runtime)
              a a user None (Some []))
    as (r & Hw & _ & _ & Ht2 & Htime).
  assert (Hr : r = time_rule).
  { vm_compute in Hw. injection Hw as <-. reflexivity. }
  subst r.
  destruct (Htime Hword) as (_ & Hn & Hc).
  destruct (Hc eq_refl eq_refl eq_refl) as [_ Hchat].
  split; [vm_compute; reflexivity |]. split; [exact Hchat |].
  split; [exact Hn | exact Ht2].
Defined.

(** ** The follow-up resolver *)
Section Resolver.
Context {U : UnicodeData} {R : Runtime}.
Import ReasoningAgent.

Lemma authored_speaks (who : string) (m : Turn.t) (t : str) :
  authored who m t ->
  has_role who m && has_content m = true /\ Turn.content m = Some t.
Proof.
  intros (Hr & Hc & Hne). split; [| exact Hc].
  unfold has_role, has_content, str_eqb. rewrite Hr, Hc.
  destruct (decide (py who = py who)) as [_ | n]; [| contradiction].
  destruct t; [contradiction | reflexivity].
Qed.

Lemma silent_speaks (who : string) (m : Turn.t) :
  silent who m -> has_role who m && has_content m = false.
Proof.
  intros Hs. destruct (has_role who m && has_content m) eqn:E; [| reflexivity].
  apply andb_prop in E as [Hr Hc].
  destruct (has_content_eq m Hc) as (c & Ec & Ht).
  exfalso. apply (Hs c). split; [exact (has_role_eq who m Hr) |].
  split; [exact Ec |]. intros ->. discriminate Ht.
Qed.

Lemma first_with_role_skips (who : string) (l rest : list Turn.t) :
  Forall (silent who) l ->
  first_with_role who (l ++ rest) = first_with_role who rest.
Proof.
  induction 1 as [| m l Hm _ IH]; [reflexivity |].
  cbn [app first_with_role]. rewrite (silent_speaks who m Hm). exact IH.
Qed.

(** The scan of the source finds the most recent text. *)
Lemma most_recent_found (who : string) (history : list Turn.t) (text : option str) :
  most_recent who history text -> first_with_role who (rev history) = text.
Proof.
  destruct text as [t |]; cbn [most_recent].
  - intros (earlier & m & later & -> & Ha & Hl).
    rewrite rev_app_distr. cbn [rev]. rewrite <- app_assoc.
    rewrite first_with_role_skips by (apply Forall_rev; exact Hl).
    cbn [app first_with_role].
    destruct (authored_speaks who m t Ha) as [-> ->]. reflexivity.
  - intros Hl. rewrite <- (app_nil_r (rev history)).
    rewrite first_with_role_skips by (apply Forall_rev; exact Hl). reflexivity.
Qed.

Lemma count_app (c : N) (x y : str) : count c (x ++ y) = (count c x + count c y)%nat.
Proof. unfold count. rewrite List.filter_app, length_app. reflexivity. Qed.

Lemma count_stop (y : str) : count 46 (46 :: y) = S (count 46 y).
Proof. reflexivity. Qed.

Lemma two_stops_counted (a b c : str) :
  (2 <= count 46 (a ++ 46%N :: b ++ 46%N :: c))%nat.
Proof. rewrite count_app, count_stop, count_app, count_stop. lia. Qed.

Lemma counted_stop (p : str) :
  (1 <= count 46 p)%nat ->
  exists a b, p = a ++ 46 :: b /\ count 46 p = S (count 46 b).
Proof.
  induction p as [| x p IH]; [cbn; lia |].
  destruct (N.eqb_spec 46 x) as [<- | Hx].
  - intros _. exists [], p. split; reflexivity.
  - assert (E : count 46 (x :: p) = count 46 p).
    { unfold count. cbn [List.filter].
      destruct (N.eqb_spec 46 x); [contradiction | reflexivity]. }
    rewrite E. intros H. destruct (IH H) as (a & b & -> & Hc).
    exists (x :: a), b. split; [reflexivity | exact Hc].
Qed.

(** The count of the source is at most one exactly when the text has at
    most one full stop. *)
Lemma count_at_most_one (p : str) :
  (count 46 p <=? 1)%nat = true <-> at_most_one_stop p.
Proof.
  rewrite Nat.leb_le. split.
  - intros H a b c ->. pose proof (two_stops_counted a b c). lia.
  - intros H. destruct (Nat.le_gt_cases (count 46 p) 1) as [Hle | Hgt]; [exact Hle |].
    exfalso. destruct (counted_stop p ltac:(lia)) as (a & r & -> & Hc).
    destruct (counted_stop r ltac:(lia)) as (b & c & -> & _).
    exact (H a b c eq_refl).
Qed.

(** The first piece of the split is the first sentence. *)
Lemma first_sentence_split (p s : str) :
  first_sentence p s -> split_first 46 p = s.
Proof.
  intros [Hs Hp]. revert p Hp. induction s as [| x s IH]; intros p Hp.
  - destruct Hp as [-> | [rest ->]]; reflexivity.
  - assert (Hx : (x =? 46) = false).
    { apply N.eqb_neq. intros ->. apply Hs. left. reflexivity. }
    assert (Hs' : ~ In 46 s) by (intros H; apply Hs; right; exact H).
    destruct Hp as [-> | [rest ->]]; cbn [app split_first]; rewrite Hx; f_equal.
    + apply (IH Hs'). left. reflexivity.
    + apply (IH Hs'). right. exists rest. reflexivity.
Qed.

Lemma lstrip_blank_app (l x : str) : blank l -> lstrip (l ++ x) = lstrip x.
Proof.
  induction 1 as [| c l Hc _ IH]; [reflexivity |].
  cbn [app lstrip]. rewrite Hc. exact IH.
Qed.

Lemma lstrip_blank (l : str) : blank l -> lstrip l = [].
Proof.
  intros H. rewrite <- (app_nil_r l). rewrite lstrip_blank_app by exact H.
  reflexivity.
Qed.

(** Trimming gives the condensed text. *)
Lemma condensed_strip (s summary : str) : condensed s summary -> strip s = summary.
Proof.
  intros (lead & trail & -> & Hl & Ht & Hh & Hy).
  unfold strip, rstrip. rewrite lstrip_blank_app by exact Hl.
  destruct summary as [| x summary'].
  - cbn [app]. rewrite (lstrip_blank trail Ht). reflexivity.
  - cbn [app lstrip]. rewrite Hh.
    change (x :: summary' ++ trail) with ((x :: summary') ++ trail).
    rewrite rev_app_distr.
    rewrite lstrip_blank_app by (apply blank_rev; exact Ht).
    rewrite lstrip_trimmed by exact Hy. apply rev_involutive.
Qed.

Lemma followup_wins (user : str) :
  winner user = Some followup_rule ->
  _is_greeting user = false
  /\ Re.rmatch true Pattern.remember user = None
  /\ Re.rmatch true Pattern.recall user = None
  /\ Re.is_match (Re.search true Pattern.time user) = false
  /\ calculator_input user = None
  /\ _is_followup user = true.
Proof.
  unfold winner, rule_order. cbn [List.find applies].
  destruct (_is_greeting user); [discriminate |].
  destruct (Re.rmatch true Pattern.remember user); [discriminate |].
  destruct (Re.rmatch true Pattern.recall user); [discriminate |].
  cbn [Re.is_match].
  destruct (Re.is_match (Re.search true Pattern.time user)); [discriminate |].
  destruct (calculator_input user); [discriminate |].
  destruct (_is_followup user); [| discriminate].
  intros _. repeat split; reflexivity.
Qed.

(** C8. When the follow-up rule is the one that handles the turn and the
    delegate, asked with the utterance and the previous answer as context,
    yields nothing, the reply is the local heuristic's, with no event and
    no change of state. With [prev] the text of the most recent assistant
    turn and [puser] that of the most recent user turn: without [prev], a
    request to repeat; with a short [prev] (at most 160 characters and at
    most one full stop), [In short: ] and all of [prev]; otherwise, with
    the text of [prev] up to its first full stop, trimmed: a fixed sentence
    when that text is empty, else [Briefly: ], the text and a full stop,
    followed by a quoted reference to [puser] when there is one. *)
Theorem followup_local_reply (self : t) (user : str)
        (history : option (list Turn.t)) (prev puser : option str) :
  winner user = Some followup_rule ->
  most_recent "assistant" (history_of history) prev ->
  most_recent "user" (history_of history) puser ->
  delegate_answer self (prompt_with_context user prev) (history_of history) = None ->
  snd (chat self user history) = self
  /\ AgentReply.tool_events (fst (chat self user history)) = []
  /\ let reply := AgentReply.text (fst (chat self user history)) in
     match prev with
     | None =>
       reply = py "I can explain — could you repeat the part you want clarified?"
     | Some p =>
       (short p -> reply = py "In short: " ++ p)
       /\ (~ short p ->
           forall s summary,
             first_sentence p s -> condensed s summary ->
             match summary, puser with
             | [], _ => reply = py "Briefly: it follows from the previous result."
             | _ :: _, Some u =>
               reply = py "Briefly: " ++ summary
                       ++ py ". (Related to your earlier message: “" ++ u ++ py "”.)"
             | _ :: _, None => reply = py "Briefly: " ++ summary ++ py "."
             end)
     end.
Proof.
  intros Hw Hprev Huser Hdel.
  destruct (followup_wins user Hw) as (H1 & H2 & H3 & H4 & H5 & H6).
  rewrite (chat_followup self user history H1 H2 H3 H4 H5 H6).
  cbn [fst snd AgentReply.text AgentReply.tool_events].
  do 2 (split; [reflexivity |]). cbv zeta.
  pose proof (most_recent_found _ _ _ Hprev) as Ea.
  pose proof (most_recent_found _ _ _ Huser) as Eu.
  fold (_last_assistant_text (history_of history)) in Ea.
  fold (_last_user_text (history_of history)) in Eu.
  assert (Hctx : or_else prev (py "") = match prev with Some p => p | None => [] end).
  { destruct prev as [p |]; [| reflexivity].
    destruct Hprev as (_ & m & _ & _ & (_ & _ & Hne) & _).
    destruct p; [contradiction | reflexivity]. }
  unfold followup_prompt. rewrite Ea, Eu, Hctx.
  fold (prompt_with_context user prev). rewrite Hdel.
  destruct prev as [p |]; [| reflexivity].
  assert (Hp : truthy p = true).
  { destruct Hprev as (_ & m & _ & _ & (_ & _ & Hne) & _).
    destruct p; [contradiction | reflexivity]. }
  unfold _local_brief_explanation. rewrite Hp. cbn [negb].
  split.
  - intros [Hlen Hstop].
    apply Nat.leb_le in Hlen. apply count_at_most_one in Hstop.
    rewrite Hlen, Hstop. reflexivity.
  - intros Hlong s summary Hs Hc.
    assert (Htest : (List.length p <=? 160)%nat && (count 46 p <=? 1)%nat = false).
    { destruct ((List.length p <=? 160)%nat && (count 46 p <=? 1)%nat) eqn:E;
        [| reflexivity].
      exfalso. apply Hlong. apply andb_prop in E as [E1 E2].
      split; [apply Nat.leb_le; exact E1 | apply count_at_most_one; exact E2]. }
    rewrite Htest, (first_sentence_split p s Hs), (condensed_strip s summary Hc).
    destruct summary as [| x summary']; [reflexivity |]. cbn [truthy negb].
    destruct puser as [u |]; [| reflexivity].
    destruct Huser as (_ & m & _ & _ & (_ & _ & Hne) & _).
    destruct u; [contradiction | reflexivity].
Qed.
End Resolver.

(** C8 on the scenario of the specification ([explain this briefly] after
    [12*3] and [The result is 36.], with no delegate), which takes the
    short branch, and on a longer answer, which takes the other one. *)
Lemma followup_local_reply_36 :
  let agent := ReasoningAgent.mk FactsStore.__init__ None in
  let reply_to (history : list Turn.t) :=
    AgentReply.text
      (fst (ReasoningAgent.chat (U := ascii_tables) (R := sample_runtime) agent
              (py "explain this briefly") (Some history))) in
  let short_history :=
    [Turn.mk (Some (py "user")) (Some (py "12*3"));
     Turn.mk (Some (py "assistant")) (Some (py "The result is 36."))] in
  let long_history :=
    [Turn.mk (Some (py "user")) (Some (py "what is 12*3?"));
     Turn.mk (Some (py "assistant"))
       (Some (py " The result is 36 . It is twelve times three. Anything else?"))] in
  (reply_to short_history = py "In short: The result is 36."
   /\ (starts_with (py "In short:") (reply_to short_history)
       || starts_with (py "Briefly:") (reply_to short_history)) = true
   /\ contains (py "36") (reply_to short_history) = true)
  /\ reply_to long_history
     = py "Briefly: The result is 36. (Related to your earlier message: “what is 12*3?”.)".
Proof.
  intros agent reply_to short_history long_history.
  assert (Hwin : winner (U := ascii_tables) (py "explain this briefly")
                 = Some followup_rule) by (vm_compute; reflexivity).
  assert (Hsilent : forall c, silent "user" (Turn.mk (Some (py "assistant")) c)).
  { intros c t (Hr & _). vm_compute in Hr. discriminate Hr. }
  assert (Hshort : reply_to short_history = py "In short: The result is 36.").
  { destruct (followup_local_reply (U := ascii_tables) (R := sample_runtime)
                agent (py "explain this briefly") (Some short_history)
                (Some (py "The result is 36.")) (Some (py "12*3")) Hwin)
      as (_ & _ & Hreply & _).
    - exists [Turn.mk (Some (py "user")) (Some (py "12*3"))],
             (Turn.mk (Some (py "assistant")) (Some (py "The result is 36."))), [].
      split; [reflexivity |]. split; [| constructor].
      repeat split. vm_compute. discriminate.
    - exists [], (Turn.mk (Some (py "user")) (Some (py "12*3"))),
             [Turn.mk (Some (py "assistant")) (Some (py "The result is 36."))].
      split; [reflexivity |]. split; [| constructor; [apply Hsilent | constructor]].
      repeat split. vm_compute. discriminate.
    - reflexivity.
    - apply Hreply. split; [vm_compute; lia |].
      intros a b c E. pose proof (two_stops_counted a b c) as H.
      rewrite <- E in H. vm_compute in H. lia. }
  split.
  - split; [exact Hshort |]. rewrite Hshort. split; vm_compute; reflexivity.
  - destruct (followup_local_reply (U := ascii_tables) (R := sample_runtime)
                agent (py "explain this briefly") (Some long_history)
                (Some (py " The result is 36 . It is twelve times three. Anything else?"))
                (Some (py "what is 12*3?")) Hwin)
      as (_ & _ & _ & Hreply).
    + exists [Turn.mk (Some (py "user")) (Some (py "what is 12*3?"))],
             (Turn.mk (Some (py "assistant"))
                (Some (py " The result is 36 . It is twelve times three. Anything else?"))),
             [].
      split; [reflexivity |]. split; [| constructor].
      repeat split. vm_compute. discriminate.
    + exists [], (Turn.mk (Some (py "user")) (Some (py "what is 12*3?"))),
             [Turn.mk (Some (py "assistant"))
                (Some (py " The result is 36 . It is twelve times three. Anything else?"))].
      split; [reflexivity |]. split; [| constructor; [apply Hsilent | constructor]].
      repeat split. vm_compute. discriminate.
    + reflexivity.
    + refine (Hreply _ (py " The result is 36 ") (py "The result is 36") _ _).
      * intros [_ Hstop].
        apply (Hstop (py " The result is 36 ") (py " It is twelve times three")
                 (py " Anything else?")).
        vm_compute. reflexivity.
      * split.
        -- intros H. vm_compute in H.
           repeat (destruct H as [H | H]; [discriminate H |]). exact H.
        -- right. exists (py " It is twelve times three. Anything else?").
           vm_compute. reflexivity.
      * exists (py " "), (py " "). split; [vm_compute; reflexivity |].
        split; [repeat constructor |]. split; [repeat constructor |].
        split; reflexivity.
Defined.
